(** * WhatsApp health triage agent: a shallow embedding of [src/utils.py]
      and [src/lambda_function.py], with the properties of its triage
      pipeline.

    Conventions of the embedding.
    - A Python [str] is a Rocq [string]: the sequence of the bytes of its
      UTF-8 encoding, so that [s.encode('utf-8')] is the identity.
      [upper] is the full case mapping of Unicode and [strip] removes the
      white space of Unicode; [lower] maps the letters A to Z, which is all
      the comparisons of the program with ASCII words can see.
    - A Python value of the kind [json.loads] produces is a [pyval]; a
      [dict] with string keys is a [gmap string pyval].
    - Code that can raise returns a [result]; [try ... except Exception] is
      [try_except].
    - Library calls made by the program (the optional Twilio validator and
      OpenAI client, [json], [urllib], the clock, the process environment)
      are the fields of a [Runtime] record, and so is whether SNS and S3
      accept a call.  What the program does to the outside (DynamoDB, S3,
      SNS, requests to the LLM endpoint) is recorded in a [World], threaded
      through the handler; an exception that leaves the handler aborts the
      invocation. *)

From Stdlib Require Import ZArith String Ascii List Bool Lia.
From stdpp Require Import gmap strings list pretty sorting.

Local Open Scope Z_scope.
Local Open Scope string_scope.
Local Open Scope list_scope.

(* ===================================================================== *)
(** ** Python values and exceptions *)
(* ===================================================================== *)

Inductive exn : Type :=
| TypeError
| AttributeError
| KeyError
| IndexError
| ValueError
| ServiceError
| ParamValidationError.

Inductive result (A : Type) : Type :=
| Ok (a : A)
| Raise (e : exn).
Arguments Ok {A} a.
Arguments Raise {A} e.

#[global] Instance result_ret : MRet result := fun A a => Ok a.

#[global] Instance result_bind : MBind result := fun A B k m =>
  match m with
  | Ok a => k a
  | Raise e => Raise e
  end.

(** [try: body except Exception: handler] *)
Definition try_except {A : Type} (body : result A) (handler : A) : A :=
  match body with
  | Ok a => a
  | Raise _ => handler
  end.

#[warnings="-register-all"]
Inductive pyval : Type :=
| PNone
| PBool (b : bool)
| PInt (z : Z)
| PFloat (mantissa exponent : Z)
| PStr (s : string)
| PList (l : list pyval)
| PDict (d : gmap string pyval).

Abbreviation pydict := (gmap string pyval).

(** The double quote and the line feed, which string literals here do not
    spell out. *)
Definition dquote : string := String "034"%char EmptyString.
Definition nl : string := String "010"%char EmptyString.

(* ===================================================================== *)
(** ** [str] methods *)
(* ===================================================================== *)

Definition is_upper_ascii (c : ascii) : bool :=
  let n := nat_of_ascii c in (65 <=? n)%nat && (n <=? 90)%nat.

Definition lower_char (c : ascii) : ascii :=
  if is_upper_ascii c then ascii_of_nat (nat_of_ascii c + 32) else c.

Fixpoint map_string (f : ascii -> ascii) (s : string) : string :=
  match s with
  | EmptyString => EmptyString
  | String c t => String (f c) (map_string f t)
  end.

(** [s.lower()], on the letters A to Z.  The program only searches the
    result for ASCII words (the keywords) or compares it with one (a header
    name).  Outside A to Z, [str.lower] yields an ASCII letter for two code
    points only: U+212A, which becomes k, and U+0130, which becomes i
    followed by U+0307; none of those words contains a k or ends in i, so
    the searches and the comparison come out the same. *)
Definition lower (s : string) : string := map_string lower_char s.

(** Code points and their UTF-8 encoding. *)
Module Utf8.

Local Open Scope Z_scope.

Definition byte (c : ascii) : Z := Z.of_nat (nat_of_ascii c).

Definition char (b : Z) : ascii := ascii_of_nat (Z.to_nat b).

Definition continuation (b : Z) : bool := (0x80 <=? b) && (b <=? 0xBF).

(** A byte that starts no well-formed sequence stands for itself, as the
    negative number [raw b]. *)
Definition raw (b : Z) : Z := - 1 - b.

(** The code points of a string. *)
Fixpoint decode (s : string) : list Z :=
  match s with
  | EmptyString => []
  | String c0 t0 =>
      let b0 := byte c0 in
      if b0 <? 0x80 then b0 :: decode t0
      else
        match t0 with
        | EmptyString => [raw b0]
        | String c1 t1 =>
            let b1 := byte c1 in
            if (0xC2 <=? b0) && (b0 <=? 0xDF) && continuation b1 then
              ((b0 - 0xC0) * 64 + (b1 - 0x80)) :: decode t1
            else
              match t1 with
              | EmptyString => raw b0 :: decode t0
              | String c2 t2 =>
                  let b2 := byte c2 in
                  let cp3 := (b0 - 0xE0) * 4096 + (b1 - 0x80) * 64 + (b2 - 0x80) in
                  if (0xE0 <=? b0) && (b0 <=? 0xEF) && continuation b1
                     && continuation b2 && (0x800 <=? cp3)
                     && negb ((0xD800 <=? cp3) && (cp3 <=? 0xDFFF)) then
                    cp3 :: decode t2
                  else
                    match t2 with
                    | EmptyString => raw b0 :: decode t0
                    | String c3 t3 =>
                        let b3 := byte c3 in
                        let cp4 := (b0 - 0xF0) * 262144 + (b1 - 0x80) * 4096
                                   + (b2 - 0x80) * 64 + (b3 - 0x80) in
                        if (0xF0 <=? b0) && (b0 <=? 0xF4) && continuation b1
                           && continuation b2 && continuation b3
                           && (0x10000 <=? cp4) && (cp4 <=? 0x10FFFF) then
                          cp4 :: decode t3
                        else raw b0 :: decode t0
                    end
              end
        end
  end.

Definition encode_one (cp : Z) : list ascii :=
  if cp <? 0 then [char (- 1 - cp)]
  else if cp <? 0x80 then [char cp]
  else if cp <? 0x800 then [char (0xC0 + cp / 64); char (0x80 + cp mod 64)]
  else if cp <? 0x10000 then
    [char (0xE0 + cp / 4096); char (0x80 + cp / 64 mod 64);
     char (0x80 + cp mod 64)]
  else
    [char (0xF0 + cp / 262144); char (0x80 + cp / 4096 mod 64);
     char (0x80 + cp / 64 mod 64); char (0x80 + cp mod 64)].

Definition encode (cps : list Z) : string :=
  string_of_list_ascii (flat_map encode_one cps).

(** The code points [str.upper] changes, each with what it becomes: the
    full upper-case mapping of Unicode 14.0, the version of CPython 3.11. *)
Definition upper_table : list (Z * list Z) :=
  [
   (97, [65]); (98, [66]); (99, [67]); (100, [68]); (101, [69]);
   (102, [70]); (103, [71]); (104, [72]); (105, [73]); (106, [74]);
   (107, [75]); (108, [76]); (109, [77]); (110, [78]); (111, [79]);
   (112, [80]); (113, [81]); (114, [82]); (115, [83]); (116, [84]);
   (117, [85]); (118, [86]); (119, [87]); (120, [88]); (121, [89]);
   (122, [90]); (181, [924]); (223, [83; 83]); (224, [192]); (225, [193]);
   (226, [194]); (227, [195]); (228, [196]); (229, [197]); (230, [198]);
   (231, [199]); (232, [200]); (233, [201]); (234, [202]); (235, [203]);
   (236, [204]); (237, [205]); (238, [206]); (239, [207]); (240, [208]);
   (241, [209]); (242, [210]); (243, [211]); (244, [212]); (245, [213]);
   (246, [214]); (248, [216]); (249, [217]); (250, [218]); (251, [219]);
   (252, [220]); (253, [221]); (254, [222]); (255, [376]); (257, [256]);
   (259, [258]); (261, [260]); (263, [262]); (265, [264]); (267, [266]);
   (269, [268]); (271, [270]); (273, [272]); (275, [274]); (277, [276]);
   (279, [278]); (281, [280]); (283, [282]); (285, [284]); (287, [286]);
   (289, [288]); (291, [290]); (293, [292]); (295, [294]); (297, [296]);
   (299, [298]); (301, [300]); (303, [302]); (305, [73]); (307, [306]);
   (309, [308]); (311, [310]); (314, [313]); (316, [315]); (318, [317]);
   (320, [319]); (322, [321]); (324, [323]); (326, [325]); (328, [327]);
   (329, [700; 78]); (331, [330]); (333, [332]); (335, [334]); (337, [336]);
   (339, [338]); (341, [340]); (343, [342]); (345, [344]); (347, [346]);
   (349, [348]); (351, [350]); (353, [352]); (355, [354]); (357, [356]);
   (359, [358]); (361, [360]); (363, [362]); (365, [364]); (367, [366]);
   (369, [368]); (371, [370]); (373, [372]); (375, [374]); (378, [377]);
   (380, [379]); (382, [381]); (383, [83]); (384, [579]); (387, [386]);
   (389, [388]); (392, [391]); (396, [395]); (402, [401]); (405, [502]);
   (409, [408]); (410, [573]); (414, [544]); (417, [416]); (419, [418]);
   (421, [420]); (424, [423]); (429, [428]); (432, [431]); (436, [435]);
   (438, [437]); (441, [440]); (445, [444]); (447, [503]); (453, [452]);
   (454, [452]); (456, [455]); (457, [455]); (459, [458]); (460, [458]);
   (462, [461]); (464, [463]); (466, [465]); (468, [467]); (470, [469]);
   (472, [471]); (474, [473]); (476, [475]); (477, [398]); (479, [478]);
   (481, [480]); (483, [482]); (485, [484]); (487, [486]); (489, [488]);
   (491, [490]); (493, [492]); (495, [494]); (496, [74; 780]); (498, [497]);
   (499, [497]); (501, [500]); (505, [504]); (507, [506]); (509, [508]);
   (511, [510]); (513, [512]); (515, [514]); (517, [516]); (519, [518]);
   (521, [520]); (523, [522]); (525, [524]); (527, [526]); (529, [528]);
   (531, [530]); (533, [532]); (535, [534]); (537, [536]); (539, [538]);
   (541, [540]); (543, [542]); (547, [546]); (549, [548]); (551, [550]);
   (553, [552]); (555, [554]); (557, [556]); (559, [558]); (561, [560]);
   (563, [562]); (572, [571]); (575, [11390]); (576, [11391]); (578, [577]);
   (583, [582]); (585, [584]); (587, [586]); (589, [588]); (591, [590]);
   (592, [11375]); (593, [11373]); (594, [11376]); (595, [385]); (596, [390]);
   (598, [393]); (599, [394]); (601, [399]); (603, [400]); (604, [42923]);
   (608, [403]); (609, [42924]); (611, [404]); (613, [42893]); (614, [42922]);
   (616, [407]); (617, [406]); (618, [42926]); (619, [11362]); (620, [42925]);
   (623, [412]); (625, [11374]); (626, [413]); (629, [415]); (637, [11364]);
   (640, [422]); (642, [42949]); (643, [425]); (647, [42929]); (648, [430]);
   (649, [580]); (650, [433]); (651, [434]); (652, [581]); (658, [439]);
   (669, [42930]); (670, [42928]); (837, [921]); (881, [880]); (883, [882]);
   (887, [886]); (891, [1021]); (892, [1022]); (893, [1023]); (912, [921; 776; 769]);
   (940, [902]); (941, [904]); (942, [905]); (943, [906]); (944, [933; 776; 769]);
   (945, [913]); (946, [914]); (947, [915]); (948, [916]); (949, [917]);
   (950, [918]); (951, [919]); (952, [920]); (953, [921]); (954, [922]);
   (955, [923]); (956, [924]); (957, [925]); (958, [926]); (959, [927]);
   (960, [928]); (961, [929]); (962, [931]); (963, [931]); (964, [932]);
   (965, [933]); (966, [934]); (967, [935]); (968, [936]); (969, [937]);
   (970, [938]); (971, [939]); (972, [908]); (973, [910]); (974, [911]);
   (976, [914]); (977, [920]); (981, [934]); (982, [928]); (983, [975]);
   (985, [984]); (987, [986]); (989, [988]); (991, [990]); (993, [992]);
   (995, [994]); (997, [996]); (999, [998]); (1001, [1000]); (1003, [1002]);
   (1005, [1004]); (1007, [1006]); (1008, [922]); (1009, [929]); (1010, [1017]);
   (1011, [895]); (1013, [917]); (1016, [1015]); (1019, [1018]); (1072, [1040]);
   (1073, [1041]); (1074, [1042]); (1075, [1043]); (1076, [1044]); (1077, [1045]);
   (1078, [1046]); (1079, [1047]); (1080, [1048]); (1081, [1049]); (1082, [1050]);
   (1083, [1051]); (1084, [1052]); (1085, [1053]); (1086, [1054]); (1087, [1055]);
   (1088, [1056]); (1089, [1057]); (1090, [1058]); (1091, [1059]); (1092, [1060]);
   (1093, [1061]); (1094, [1062]); (1095, [1063]); (1096, [1064]); (1097, [1065]);
   (1098, [1066]); (1099, [1067]); (1100, [1068]); (1101, [1069]); (1102, [1070]);
   (1103, [1071]); (1104, [1024]); (1105, [1025]); (1106, [1026]); (1107, [1027]);
   (1108, [1028]); (1109, [1029]); (1110, [1030]); (1111, [1031]); (1112, [1032]);
   (1113, [1033]); (1114, [1034]); (1115, [1035]); (1116, [1036]); (1117, [1037]);
   (1118, [1038]); (1119, [1039]); (1121, [1120]); (1123, [1122]); (1125, [1124]);
   (1127, [1126]); (1129, [1128]); (1131, [1130]); (1133, [1132]); (1135, [1134]);
   (1137, [1136]); (1139, [1138]); (1141, [1140]); (1143, [1142]); (1145, [1144]);
   (1147, [1146]); (1149, [1148]); (1151, [1150]); (1153, [1152]); (1163, [1162]);
   (1165, [1164]); (1167, [1166]); (1169, [1168]); (1171, [1170]); (1173, [1172]);
   (1175, [1174]); (1177, [1176]); (1179, [1178]); (1181, [1180]); (1183, [1182]);
   (1185, [1184]); (1187, [1186]); (1189, [1188]); (1191, [1190]); (1193, [1192]);
   (1195, [1194]); (1197, [1196]); (1199, [1198]); (1201, [1200]); (1203, [1202]);
   (1205, [1204]); (1207, [1206]); (1209, [1208]); (1211, [1210]); (1213, [1212]);
   (1215, [1214]); (1218, [1217]); (1220, [1219]); (1222, [1221]); (1224, [1223]);
   (1226, [1225]); (1228, [1227]); (1230, [1229]); (1231, [1216]); (1233, [1232]);
   (1235, [1234]); (1237, [1236]); (1239, [1238]); (1241, [1240]); (1243, [1242]);
   (1245, [1244]); (1247, [1246]); (1249, [1248]); (1251, [1250]); (1253, [1252]);
   (1255, [1254]); (1257, [1256]); (1259, [1258]); (1261, [1260]); (1263, [1262]);
   (1265, [1264]); (1267, [1266]); (1269, [1268]); (1271, [1270]); (1273, [1272]);
   (1275, [1274]); (1277, [1276]); (1279, [1278]); (1281, [1280]); (1283, [1282]);
   (1285, [1284]); (1287, [1286]); (1289, [1288]); (1291, [1290]); (1293, [1292]);
   (1295, [1294]); (1297, [1296]); (1299, [1298]); (1301, [1300]); (1303, [1302]);
   (1305, [1304]); (1307, [1306]); (1309, [1308]); (1311, [1310]); (1313, [1312]);
   (1315, [1314]); (1317, [1316]); (1319, [1318]); (1321, [1320]); (1323, [1322]);
   (1325, [1324]); (1327, [1326]); (1377, [1329]); (1378, [1330]); (1379, [1331]);
   (1380, [1332]); (1381, [1333]); (1382, [1334]); (1383, [1335]); (1384, [1336]);
   (1385, [1337]); (1386, [1338]); (1387, [1339]); (1388, [1340]); (1389, [1341]);
   (1390, [1342]); (1391, [1343]); (1392, [1344]); (1393, [1345]); (1394, [1346]);
   (1395, [1347]); (1396, [1348]); (1397, [1349]); (1398, [1350]); (1399, [1351]);
   (1400, [1352]); (1401, [1353]); (1402, [1354]); (1403, [1355]); (1404, [1356]);
   (1405, [1357]); (1406, [1358]); (1407, [1359]); (1408, [1360]); (1409, [1361]);
   (1410, [1362]); (1411, [1363]); (1412, [1364]); (1413, [1365]); (1414, [1366]);
   (1415, [1333; 1362]); (4304, [7312]); (4305, [7313]); (4306, [7314]); (4307, [7315]);
   (4308, [7316]); (4309, [7317]); (4310, [7318]); (4311, [7319]); (4312, [7320]);
   (4313, [7321]); (4314, [7322]); (4315, [7323]); (4316, [7324]); (4317, [7325]);
   (4318, [7326]); (4319, [7327]); (4320, [7328]); (4321, [7329]); (4322, [7330]);
   (4323, [7331]); (4324, [7332]); (4325, [7333]); (4326, [7334]); (4327, [7335]);
   (4328, [7336]); (4329, [7337]); (4330, [7338]); (4331, [7339]); (4332, [7340]);
   (4333, [7341]); (4334, [7342]); (4335, [7343]); (4336, [7344]); (4337, [7345]);
   (4338, [7346]); (4339, [7347]); (4340, [7348]); (4341, [7349]); (4342, [7350]);
   (4343, [7351]); (4344, [7352]); (4345, [7353]); (4346, [7354]); (4349, [7357]);
   (4350, [7358]); (4351, [7359]); (5112, [5104]); (5113, [5105]); (5114, [5106]);
   (5115, [5107]); (5116, [5108]); (5117, [5109]); (7296, [1042]); (7297, [1044]);
   (7298, [1054]); (7299, [1057]); (7300, [1058]); (7301, [1058]); (7302, [1066]);
   (7303, [1122]); (7304, [42570]); (7545, [42877]); (7549, [11363]); (7566, [42950]);
   (7681, [7680]); (7683, [7682]); (7685, [7684]); (7687, [7686]); (7689, [7688]);
   (7691, [7690]); (7693, [7692]); (7695, [7694]); (7697, [7696]); (7699, [7698]);
   (7701, [7700]); (7703, [7702]); (7705, [7704]); (7707, [7706]); (7709, [7708]);
   (7711, [7710]); (7713, [7712]); (7715, [7714]); (7717, [7716]); (7719, [7718]);
   (7721, [7720]); (7723, [7722]); (7725, [7724]); (7727, [7726]); (7729, [7728]);
   (7731, [7730]); (7733, [7732]); (7735, [7734]); (7737, [7736]); (7739, [7738]);
   (7741, [7740]); (7743, [7742]); (7745, [7744]); (7747, [7746]); (7749, [7748]);
   (7751, [7750]); (7753, [7752]); (7755, [7754]); (7757, [7756]); (7759, [7758]);
   (7761, [7760]); (7763, [7762]); (7765, [7764]); (7767, [7766]); (7769, [7768]);
   (7771, [7770]); (7773, [7772]); (7775, [7774]); (7777, [7776]); (7779, [7778]);
   (7781, [7780]); (7783, [7782]); (7785, [7784]); (7787, [7786]); (7789, [7788]);
   (7791, [7790]); (7793, [7792]); (7795, [7794]); (7797, [7796]); (7799, [7798]);
   (7801, [7800]); (7803, [7802]); (7805, [7804]); (7807, [7806]); (7809, [7808]);
   (7811, [7810]); (7813, [7812]); (7815, [7814]); (7817, [7816]); (7819, [7818]);
   (7821, [7820]); (7823, [7822]); (7825, [7824]); (7827, [7826]); (7829, [7828]);
   (7830, [72; 817]); (7831, [84; 776]); (7832, [87; 778]); (7833, [89; 778]); (7834, [65; 702]);
   (7835, [7776]); (7841, [7840]); (7843, [7842]); (7845, [7844]); (7847, [7846]);
   (7849, [7848]); (7851, [7850]); (7853, [7852]); (7855, [7854]); (7857, [7856]);
   (7859, [7858]); (7861, [7860]); (7863, [7862]); (7865, [7864]); (7867, [7866]);
   (7869, [7868]); (7871, [7870]); (7873, [7872]); (7875, [7874]); (7877, [7876]);
   (7879, [7878]); (7881, [7880]); (7883, [7882]); (7885, [7884]); (7887, [7886]);
   (7889, [7888]); (7891, [7890]); (7893, [7892]); (7895, [7894]); (7897, [7896]);
   (7899, [7898]); (7901, [7900]); (7903, [7902]); (7905, [7904]); (7907, [7906]);
   (7909, [7908]); (7911, [7910]); (7913, [7912]); (7915, [7914]); (7917, [7916]);
   (7919, [7918]); (7921, [7920]); (7923, [7922]); (7925, [7924]); (7927, [7926]);
   (7929, [7928]); (7931, [7930]); (7933, [7932]); (7935, [7934]); (7936, [7944]);
   (7937, [7945]); (7938, [7946]); (7939, [7947]); (7940, [7948]); (7941, [7949]);
   (7942, [7950]); (7943, [7951]); (7952, [7960]); (7953, [7961]); (7954, [7962]);
   (7955, [7963]); (7956, [7964]); (7957, [7965]); (7968, [7976]); (7969, [7977]);
   (7970, [7978]); (7971, [7979]); (7972, [7980]); (7973, [7981]); (7974, [7982]);
   (7975, [7983]); (7984, [7992]); (7985, [7993]); (7986, [7994]); (7987, [7995]);
   (7988, [7996]); (7989, [7997]); (7990, [7998]); (7991, [7999]); (8000, [8008]);
   (8001, [8009]); (8002, [8010]); (8003, [8011]); (8004, [8012]); (8005, [8013]);
   (8016, [933; 787]); (8017, [8025]); (8018, [933; 787; 768]); (8019, [8027]); (8020, [933; 787; 769]);
   (8021, [8029]); (8022, [933; 787; 834]); (8023, [8031]); (8032, [8040]); (8033, [8041]);
   (8034, [8042]); (8035, [8043]); (8036, [8044]); (8037, [8045]); (8038, [8046]);
   (8039, [8047]); (8048, [8122]); (8049, [8123]); (8050, [8136]); (8051, [8137]);
   (8052, [8138]); (8053, [8139]); (8054, [8154]); (8055, [8155]); (8056, [8184]);
   (8057, [8185]); (8058, [8170]); (8059, [8171]); (8060, [8186]); (8061, [8187]);
   (8064, [7944; 921]); (8065, [7945; 921]); (8066, [7946; 921]); (8067, [7947; 921]); (8068, [7948; 921]);
   (8069, [7949; 921]); (8070, [7950; 921]); (8071, [7951; 921]); (8072, [7944; 921]); (8073, [7945; 921]);
   (8074, [7946; 921]); (8075, [7947; 921]); (8076, [7948; 921]); (8077, [7949; 921]); (8078, [7950; 921]);
   (8079, [7951; 921]); (8080, [7976; 921]); (8081, [7977; 921]); (8082, [7978; 921]); (8083, [7979; 921]);
   (8084, [7980; 921]); (8085, [7981; 921]); (8086, [7982; 921]); (8087, [7983; 921]); (8088, [7976; 921]);
   (8089, [7977; 921]); (8090, [7978; 921]); (8091, [7979; 921]); (8092, [7980; 921]); (8093, [7981; 921]);
   (8094, [7982; 921]); (8095, [7983; 921]); (8096, [8040; 921]); (8097, [8041; 921]); (8098, [8042; 921]);
   (8099, [8043; 921]); (8100, [8044; 921]); (8101, [8045; 921]); (8102, [8046; 921]); (8103, [8047; 921]);
   (8104, [8040; 921]); (8105, [8041; 921]); (8106, [8042; 921]); (8107, [8043; 921]); (8108, [8044; 921]);
   (8109, [8045; 921]); (8110, [8046; 921]); (8111, [8047; 921]); (8112, [8120]); (8113, [8121]);
   (8114, [8122; 921]); (8115, [913; 921]); (8116, [902; 921]); (8118, [913; 834]); (8119, [913; 834; 921]);
   (8124, [913; 921]); (8126, [921]); (8130, [8138; 921]); (8131, [919; 921]); (8132, [905; 921]);
   (8134, [919; 834]); (8135, [919; 834; 921]); (8140, [919; 921]); (8144, [8152]); (8145, [8153]);
   (8146, [921; 776; 768]); (8147, [921; 776; 769]); (8150, [921; 834]); (8151, [921; 776; 834]); (8160, [8168]);
   (8161, [8169]); (8162, [933; 776; 768]); (8163, [933; 776; 769]); (8164, [929; 787]); (8165, [8172]);
   (8166, [933; 834]); (8167, [933; 776; 834]); (8178, [8186; 921]); (8179, [937; 921]); (8180, [911; 921]);
   (8182, [937; 834]); (8183, [937; 834; 921]); (8188, [937; 921]); (8526, [8498]); (8560, [8544]);
   (8561, [8545]); (8562, [8546]); (8563, [8547]); (8564, [8548]); (8565, [8549]);
   (8566, [8550]); (8567, [8551]); (8568, [8552]); (8569, [8553]); (8570, [8554]);
   (8571, [8555]); (8572, [8556]); (8573, [8557]); (8574, [8558]); (8575, [8559]);
   (8580, [8579]); (9424, [9398]); (9425, [9399]); (9426, [9400]); (9427, [9401]);
   (9428, [9402]); (9429, [9403]); (9430, [9404]); (9431, [9405]); (9432, [9406]);
   (9433, [9407]); (9434, [9408]); (9435, [9409]); (9436, [9410]); (9437, [9411]);
   (9438, [9412]); (9439, [9413]); (9440, [9414]); (9441, [9415]); (9442, [9416]);
   (9443, [9417]); (9444, [9418]); (9445, [9419]); (9446, [9420]); (9447, [9421]);
   (9448, [9422]); (9449, [9423]); (11312, [11264]); (11313, [11265]); (11314, [11266]);
   (11315, [11267]); (11316, [11268]); (11317, [11269]); (11318, [11270]); (11319, [11271]);
   (11320, [11272]); (11321, [11273]); (11322, [11274]); (11323, [11275]); (11324, [11276]);
   (11325, [11277]); (11326, [11278]); (11327, [11279]); (11328, [11280]); (11329, [11281]);
   (11330, [11282]); (11331, [11283]); (11332, [11284]); (11333, [11285]); (11334, [11286]);
   (11335, [11287]); (11336, [11288]); (11337, [11289]); (11338, [11290]); (11339, [11291]);
   (11340, [11292]); (11341, [11293]); (11342, [11294]); (11343, [11295]); (11344, [11296]);
   (11345, [11297]); (11346, [11298]); (11347, [11299]); (11348, [11300]); (11349, [11301]);
   (11350, [11302]); (11351, [11303]); (11352, [11304]); (11353, [11305]); (11354, [11306]);
   (11355, [11307]); (11356, [11308]); (11357, [11309]); (11358, [11310]); (11359, [11311]);
   (11361, [11360]); (11365, [570]); (11366, [574]); (11368, [11367]); (11370, [11369]);
   (11372, [11371]); (11379, [11378]); (11382, [11381]); (11393, [11392]); (11395, [11394]);
   (11397, [11396]); (11399, [11398]); (11401, [11400]); (11403, [11402]); (11405, [11404]);
   (11407, [11406]); (11409, [11408]); (11411, [11410]); (11413, [11412]); (11415, [11414]);
   (11417, [11416]); (11419, [11418]); (11421, [11420]); (11423, [11422]); (11425, [11424]);
   (11427, [11426]); (11429, [11428]); (11431, [11430]); (11433, [11432]); (11435, [11434]);
   (11437, [11436]); (11439, [11438]); (11441, [11440]); (11443, [11442]); (11445, [11444]);
   (11447, [11446]); (11449, [11448]); (11451, [11450]); (11453, [11452]); (11455, [11454]);
   (11457, [11456]); (11459, [11458]); (11461, [11460]); (11463, [11462]); (11465, [11464]);
   (11467, [11466]); (11469, [11468]); (11471, [11470]); (11473, [11472]); (11475, [11474]);
   (11477, [11476]); (11479, [11478]); (11481, [11480]); (11483, [11482]); (11485, [11484]);
   (11487, [11486]); (11489, [11488]); (11491, [11490]); (11500, [11499]); (11502, [11501]);
   (11507, [11506]); (11520, [4256]); (11521, [4257]); (11522, [4258]); (11523, [4259]);
   (11524, [4260]); (11525, [4261]); (11526, [4262]); (11527, [4263]); (11528, [4264]);
   (11529, [4265]); (11530, [4266]); (11531, [4267]); (11532, [4268]); (11533, [4269]);
   (11534, [4270]); (11535, [4271]); (11536, [4272]); (11537, [4273]); (11538, [4274]);
   (11539, [4275]); (11540, [4276]); (11541, [4277]); (11542, [4278]); (11543, [4279]);
   (11544, [4280]); (11545, [4281]); (11546, [4282]); (11547, [4283]); (11548, [4284]);
   (11549, [4285]); (11550, [4286]); (11551, [4287]); (11552, [4288]); (11553, [4289]);
   (11554, [4290]); (11555, [4291]); (11556, [4292]); (11557, [4293]); (11559, [4295]);
   (11565, [4301]); (42561, [42560]); (42563, [42562]); (42565, [42564]); (42567, [42566]);
   (42569, [42568]); (42571, [42570]); (42573, [42572]); (42575, [42574]); (42577, [42576]);
   (42579, [42578]); (42581, [42580]); (42583, [42582]); (42585, [42584]); (42587, [42586]);
   (42589, [42588]); (42591, [42590]); (42593, [42592]); (42595, [42594]); (42597, [42596]);
   (42599, [42598]); (42601, [42600]); (42603, [42602]); (42605, [42604]); (42625, [42624]);
   (42627, [42626]); (42629, [42628]); (42631, [42630]); (42633, [42632]); (42635, [42634]);
   (42637, [42636]); (42639, [42638]); (42641, [42640]); (42643, [42642]); (42645, [42644]);
   (42647, [42646]); (42649, [42648]); (42651, [42650]); (42787, [42786]); (42789, [42788]);
   (42791, [42790]); (42793, [42792]); (42795, [42794]); (42797, [42796]); (42799, [42798]);
   (42803, [42802]); (42805, [42804]); (42807, [42806]); (42809, [42808]); (42811, [42810]);
   (42813, [42812]); (42815, [42814]); (42817, [42816]); (42819, [42818]); (42821, [42820]);
   (42823, [42822]); (42825, [42824]); (42827, [42826]); (42829, [42828]); (42831, [42830]);
   (42833, [42832]); (42835, [42834]); (42837, [42836]); (42839, [42838]); (42841, [42840]);
   (42843, [42842]); (42845, [42844]); (42847, [42846]); (42849, [42848]); (42851, [42850]);
   (42853, [42852]); (42855, [42854]); (42857, [42856]); (42859, [42858]); (42861, [42860]);
   (42863, [42862]); (42874, [42873]); (42876, [42875]); (42879, [42878]); (42881, [42880]);
   (42883, [42882]); (42885, [42884]); (42887, [42886]); (42892, [42891]); (42897, [42896]);
   (42899, [42898]); (42900, [42948]); (42903, [42902]); (42905, [42904]); (42907, [42906]);
   (42909, [42908]); (42911, [42910]); (42913, [42912]); (42915, [42914]); (42917, [42916]);
   (42919, [42918]); (42921, [42920]); (42933, [42932]); (42935, [42934]); (42937, [42936]);
   (42939, [42938]); (42941, [42940]); (42943, [42942]); (42945, [42944]); (42947, [42946]);
   (42952, [42951]); (42954, [42953]); (42961, [42960]); (42967, [42966]); (42969, [42968]);
   (42998, [42997]); (43859, [42931]); (43888, [5024]); (43889, [5025]); (43890, [5026]);
   (43891, [5027]); (43892, [5028]); (43893, [5029]); (43894, [5030]); (43895, [5031]);
   (43896, [5032]); (43897, [5033]); (43898, [5034]); (43899, [5035]); (43900, [5036]);
   (43901, [5037]); (43902, [5038]); (43903, [5039]); (43904, [5040]); (43905, [5041]);
   (43906, [5042]); (43907, [5043]); (43908, [5044]); (43909, [5045]); (43910, [5046]);
   (43911, [5047]); (43912, [5048]); (43913, [5049]); (43914, [5050]); (43915, [5051]);
   (43916, [5052]); (43917, [5053]); (43918, [5054]); (43919, [5055]); (43920, [5056]);
   (43921, [5057]); (43922, [5058]); (43923, [5059]); (43924, [5060]); (43925, [5061]);
   (43926, [5062]); (43927, [5063]); (43928, [5064]); (43929, [5065]); (43930, [5066]);
   (43931, [5067]); (43932, [5068]); (43933, [5069]); (43934, [5070]); (43935, [5071]);
   (43936, [5072]); (43937, [5073]); (43938, [5074]); (43939, [5075]); (43940, [5076]);
   (43941, [5077]); (43942, [5078]); (43943, [5079]); (43944, [5080]); (43945, [5081]);
   (43946, [5082]); (43947, [5083]); (43948, [5084]); (43949, [5085]); (43950, [5086]);
   (43951, [5087]); (43952, [5088]); (43953, [5089]); (43954, [5090]); (43955, [5091]);
   (43956, [5092]); (43957, [5093]); (43958, [5094]); (43959, [5095]); (43960, [5096]);
   (43961, [5097]); (43962, [5098]); (43963, [5099]); (43964, [5100]); (43965, [5101]);
   (43966, [5102]); (43967, [5103]); (64256, [70; 70]); (64257, [70; 73]); (64258, [70; 76]);
   (64259, [70; 70; 73]); (64260, [70; 70; 76]); (64261, [83; 84]); (64262, [83; 84]); (64275, [1348; 1350]);
   (64276, [1348; 1333]); (64277, [1348; 1339]); (64278, [1358; 1350]); (64279, [1348; 1341]); (65345, [65313]);
   (65346, [65314]); (65347, [65315]); (65348, [65316]); (65349, [65317]); (65350, [65318]);
   (65351, [65319]); (65352, [65320]); (65353, [65321]); (65354, [65322]); (65355, [65323]);
   (65356, [65324]); (65357, [65325]); (65358, [65326]); (65359, [65327]); (65360, [65328]);
   (65361, [65329]); (65362, [65330]); (65363, [65331]); (65364, [65332]); (65365, [65333]);
   (65366, [65334]); (65367, [65335]); (65368, [65336]); (65369, [65337]); (65370, [65338]);
   (66600, [66560]); (66601, [66561]); (66602, [66562]); (66603, [66563]); (66604, [66564]);
   (66605, [66565]); (66606, [66566]); (66607, [66567]); (66608, [66568]); (66609, [66569]);
   (66610, [66570]); (66611, [66571]); (66612, [66572]); (66613, [66573]); (66614, [66574]);
   (66615, [66575]); (66616, [66576]); (66617, [66577]); (66618, [66578]); (66619, [66579]);
   (66620, [66580]); (66621, [66581]); (66622, [66582]); (66623, [66583]); (66624, [66584]);
   (66625, [66585]); (66626, [66586]); (66627, [66587]); (66628, [66588]); (66629, [66589]);
   (66630, [66590]); (66631, [66591]); (66632, [66592]); (66633, [66593]); (66634, [66594]);
   (66635, [66595]); (66636, [66596]); (66637, [66597]); (66638, [66598]); (66639, [66599]);
   (66776, [66736]); (66777, [66737]); (66778, [66738]); (66779, [66739]); (66780, [66740]);
   (66781, [66741]); (66782, [66742]); (66783, [66743]); (66784, [66744]); (66785, [66745]);
   (66786, [66746]); (66787, [66747]); (66788, [66748]); (66789, [66749]); (66790, [66750]);
   (66791, [66751]); (66792, [66752]); (66793, [66753]); (66794, [66754]); (66795, [66755]);
   (66796, [66756]); (66797, [66757]); (66798, [66758]); (66799, [66759]); (66800, [66760]);
   (66801, [66761]); (66802, [66762]); (66803, [66763]); (66804, [66764]); (66805, [66765]);
   (66806, [66766]); (66807, [66767]); (66808, [66768]); (66809, [66769]); (66810, [66770]);
   (66811, [66771]); (66967, [66928]); (66968, [66929]); (66969, [66930]); (66970, [66931]);
   (66971, [66932]); (66972, [66933]); (66973, [66934]); (66974, [66935]); (66975, [66936]);
   (66976, [66937]); (66977, [66938]); (66979, [66940]); (66980, [66941]); (66981, [66942]);
   (66982, [66943]); (66983, [66944]); (66984, [66945]); (66985, [66946]); (66986, [66947]);
   (66987, [66948]); (66988, [66949]); (66989, [66950]); (66990, [66951]); (66991, [66952]);
   (66992, [66953]); (66993, [66954]); (66995, [66956]); (66996, [66957]); (66997, [66958]);
   (66998, [66959]); (66999, [66960]); (67000, [66961]); (67001, [66962]); (67003, [66964]);
   (67004, [66965]); (68800, [68736]); (68801, [68737]); (68802, [68738]); (68803, [68739]);
   (68804, [68740]); (68805, [68741]); (68806, [68742]); (68807, [68743]); (68808, [68744]);
   (68809, [68745]); (68810, [68746]); (68811, [68747]); (68812, [68748]); (68813, [68749]);
   (68814, [68750]); (68815, [68751]); (68816, [68752]); (68817, [68753]); (68818, [68754]);
   (68819, [68755]); (68820, [68756]); (68821, [68757]); (68822, [68758]); (68823, [68759]);
   (68824, [68760]); (68825, [68761]); (68826, [68762]); (68827, [68763]); (68828, [68764]);
   (68829, [68765]); (68830, [68766]); (68831, [68767]); (68832, [68768]); (68833, [68769]);
   (68834, [68770]); (68835, [68771]); (68836, [68772]); (68837, [68773]); (68838, [68774]);
   (68839, [68775]); (68840, [68776]); (68841, [68777]); (68842, [68778]); (68843, [68779]);
   (68844, [68780]); (68845, [68781]); (68846, [68782]); (68847, [68783]); (68848, [68784]);
   (68849, [68785]); (68850, [68786]); (71872, [71840]); (71873, [71841]); (71874, [71842]);
   (71875, [71843]); (71876, [71844]); (71877, [71845]); (71878, [71846]); (71879, [71847]);
   (71880, [71848]); (71881, [71849]); (71882, [71850]); (71883, [71851]); (71884, [71852]);
   (71885, [71853]); (71886, [71854]); (71887, [71855]); (71888, [71856]); (71889, [71857]);
   (71890, [71858]); (71891, [71859]); (71892, [71860]); (71893, [71861]); (71894, [71862]);
   (71895, [71863]); (71896, [71864]); (71897, [71865]); (71898, [71866]); (71899, [71867]);
   (71900, [71868]); (71901, [71869]); (71902, [71870]); (71903, [71871]); (93792, [93760]);
   (93793, [93761]); (93794, [93762]); (93795, [93763]); (93796, [93764]); (93797, [93765]);
   (93798, [93766]); (93799, [93767]); (93800, [93768]); (93801, [93769]); (93802, [93770]);
   (93803, [93771]); (93804, [93772]); (93805, [93773]); (93806, [93774]); (93807, [93775]);
   (93808, [93776]); (93809, [93777]); (93810, [93778]); (93811, [93779]); (93812, [93780]);
   (93813, [93781]); (93814, [93782]); (93815, [93783]); (93816, [93784]); (93817, [93785]);
   (93818, [93786]); (93819, [93787]); (93820, [93788]); (93821, [93789]); (93822, [93790]);
   (93823, [93791]); (125218, [125184]); (125219, [125185]); (125220, [125186]); (125221, [125187]);
   (125222, [125188]); (125223, [125189]); (125224, [125190]); (125225, [125191]); (125226, [125192]);
   (125227, [125193]); (125228, [125194]); (125229, [125195]); (125230, [125196]); (125231, [125197]);
   (125232, [125198]); (125233, [125199]); (125234, [125200]); (125235, [125201]); (125236, [125202]);
   (125237, [125203]); (125238, [125204]); (125239, [125205]); (125240, [125206]); (125241, [125207]);
   (125242, [125208]); (125243, [125209]); (125244, [125210]); (125245, [125211]); (125246, [125212]);
   (125247, [125213]); (125248, [125214]); (125249, [125215]); (125250, [125216]); (125251, [125217])
  ].

Fixpoint lookup_upper (cp : Z) (table : list (Z * list Z)) : list Z :=
  match table with
  | [] => [cp]
  | (c, u) :: rest => if cp =? c then u else lookup_upper cp rest
  end.

Definition upper_one (cp : Z) : list Z := lookup_upper cp upper_table.

End Utf8.

(** [s.upper()]: every character by itself, as CPython does. *)
Definition upper (s : string) : string :=
  Utf8.encode (flat_map Utf8.upper_one (Utf8.decode s)).

Definition bytes_string (bs : list nat) : string :=
  string_of_list_ascii (map ascii_of_nat bs).

(** The characters [str.isspace] accepts, in UTF-8: TAB, LF, VT, FF, CR,
    FS, GS, RS, US, the space, U+0085, U+00A0, U+1680, U+2000 to U+200A,
    U+2028, U+2029, U+202F, U+205F and U+3000. *)
Definition whitespace : list string :=
  map bytes_string
    [[9]; [10]; [11]; [12]; [13]; [28]; [29]; [30]; [31]; [32];
     [194; 133]; [194; 160]; [225; 154; 128];
     [226; 128; 128]; [226; 128; 129]; [226; 128; 130]; [226; 128; 131];
     [226; 128; 132]; [226; 128; 133]; [226; 128; 134]; [226; 128; 135];
     [226; 128; 136]; [226; 128; 137]; [226; 128; 138];
     [226; 128; 168]; [226; 128; 169]; [226; 128; 175]; [226; 129; 159];
     [227; 128; 128]]%nat.

(** [s] without its prefix [p], when it has that prefix. *)
Fixpoint drop_prefix (p s : string) : option string :=
  match p, s with
  | EmptyString, _ => Some s
  | String a p', String b s' => if Ascii.eqb a b then drop_prefix p' s' else None
  | String _ _, EmptyString => None
  end.

(** [s] without the first of [seqs] it starts with. *)
Fixpoint drop_one (seqs : list string) (s : string) : option string :=
  match seqs with
  | [] => None
  | p :: rest =>
      match drop_prefix p s with
      | Some s' => Some s'
      | None => drop_one rest s
      end
  end.

Fixpoint lstrip_seqs (seqs : list string) (fuel : nat) (s : string) : string :=
  match fuel with
  | O => s
  | S fuel' =>
      match drop_one seqs s with
      | Some s' => lstrip_seqs seqs fuel' s'
      | None => s
      end
  end.

Fixpoint string_rev_onto (s acc : string) : string :=
  match s with
  | EmptyString => acc
  | String c t => string_rev_onto t (String c acc)
  end.

Definition string_rev (s : string) : string := string_rev_onto s EmptyString.

(** [s.lstrip()] and [s.rstrip()] *)
Definition lstrip (s : string) : string :=
  lstrip_seqs whitespace (String.length s) s.

Definition rstrip (s : string) : string :=
  string_rev (lstrip_seqs (map string_rev whitespace) (String.length s)
                          (string_rev s)).

(** [s.strip()] *)
Definition strip (s : string) : string := rstrip (lstrip s).

Fixpoint startswith (p s : string) : bool :=
  match p, s with
  | EmptyString, _ => true
  | String a p', String b s' => Ascii.eqb a b && startswith p' s'
  | String _ _, EmptyString => false
  end.

(** [kw in text] on two strings: [kw] occurs in [text] as a substring. *)
Fixpoint contains (kw text : string) : bool :=
  startswith kw text ||
  match text with
  | EmptyString => false
  | String _ t => contains kw t
  end.

(** What [contains] decides. *)
Definition occurs_in (kw text : string) : Prop :=
  exists pre post, text = pre +:+ kw +:+ post.

(** Python truthiness of a [str] and of an optional [str]. *)
Definition truthy (s : string) : bool :=
  match s with EmptyString => false | _ => true end.

Definition truthy_opt (o : option string) : bool :=
  match o with Some s => truthy s | None => false end.

(** [str] is ASCII-only: every byte is below 128. *)
Fixpoint is_ascii (s : string) : bool :=
  match s with
  | EmptyString => true
  | String c t => (nat_of_ascii c <? 128)%nat && is_ascii t
  end.

(* ===================================================================== *)
(** ** The fallback classifier ([utils.py], inside [classify_message]) *)
(* ===================================================================== *)

Definition high_keywords : list string :=
  ["chest pain"; "shortness of breath"; "fainting"; "unconscious"].

Definition medium_keywords : list string :=
  ["fever"; "vomit"; "infection"; "severe pain"].

(** [for kw in kws: if kw in text: ...; break]: [true] when the loop is left
    through [break], [false] when it runs to its end (and a [for ... else]
    clause is entered). *)
Fixpoint for_break (kws : list string) (text : string) : bool :=
  match kws with
  | [] => false
  | kw :: rest => if contains kw text then true else for_break rest text
  end.

Definition fallback_urgency (msg : string) : string :=
  let text := lower msg in
  let urgency := "LOW" in
  if for_break high_keywords text then "HIGH"
  else if for_break medium_keywords text then "MEDIUM"
  else urgency.

Definition fallback_classifier (msg : string) : pydict :=
  let urgency := fallback_urgency msg in
  <["symptoms" := PList [PStr msg]]>
  (<["duration" := PStr EmptyString]>
  (<["age" := PStr EmptyString]>
  (<["red_flags" := PList []]>
  (<["urgency" := PStr urgency]> ∅)))).

(* ===================================================================== *)
(** ** [hashlib.sha1], [hmac.new(...).digest()] and [base64.b64encode] *)
(* ===================================================================== *)

(** Bytes are integers in [0, 256), words are integers in [0, 2^32). *)
Module Sha1.

Definition wrap32 (x : Z) : Z := x mod 2 ^ 32.

Definition rotl (n x : Z) : Z :=
  wrap32 (Z.lor (Z.shiftl x n) (Z.shiftr x (32 - n))).

Definition not32 (x : Z) : Z := 2 ^ 32 - 1 - x.

Definition bytes_of_string (s : string) : list Z :=
  map (fun c => Z.of_nat (nat_of_ascii c)) (list_ascii_of_string s).

Definition string_of_bytes (bs : list Z) : string :=
  string_of_list_ascii (map (fun b => ascii_of_nat (Z.to_nat b)) bs).

(** The [n] low bytes of [x], most significant first. *)
Fixpoint be_bytes (n : nat) (x : Z) : list Z :=
  match n with
  | O => []
  | S n' => be_bytes n' (x / 256) ++ [x mod 256]
  end.

Definition be_word (bs : list Z) : Z :=
  fold_left (fun acc b => acc * 256 + b) bs 0.

(** Padding: a one bit, zeros up to 56 modulo 64, the bit length on 8
    bytes. *)
Definition pad (msg : list Z) : list Z :=
  let len := Z.of_nat (length msg) in
  let zeros := Z.to_nat ((55 - len) mod 64) in
  msg ++ [128] ++ repeat 0 zeros ++ be_bytes 8 (len * 8).

Fixpoint chunks (fuel n : nat) (l : list Z) : list (list Z) :=
  match fuel with
  | O => []
  | S fuel' =>
      match l with
      | [] => []
      | _ => firstn n l :: chunks fuel' n (skipn n l)
      end
  end.

Definition blocks (bs : list Z) : list (list Z) :=
  chunks (length bs) 64 bs.

(** The message schedule, newest word first; [w] starts as the sixteen
    words of the block in reverse. *)
Fixpoint schedule (n : nat) (w : list Z) : list Z :=
  match n with
  | O => w
  | S n' =>
      let x := Z.lxor (Z.lxor (nth 2 w 0) (nth 7 w 0))
                      (Z.lxor (nth 13 w 0) (nth 15 w 0)) in
      schedule n' (rotl 1 x :: w)
  end.

Definition words_of_block (blk : list Z) : list Z :=
  map be_word (chunks 16 4 blk).

Definition round_f (t : nat) (b c d : Z) : Z :=
  if (t <? 20)%nat then Z.lor (Z.land b c) (Z.land (not32 b) d)
  else if (t <? 40)%nat then Z.lxor (Z.lxor b c) d
  else if (t <? 60)%nat then
    Z.lor (Z.lor (Z.land b c) (Z.land b d)) (Z.land c d)
  else Z.lxor (Z.lxor b c) d.

Definition round_k (t : nat) : Z :=
  if (t <? 20)%nat then 0x5A827999
  else if (t <? 40)%nat then 0x6ED9EBA1
  else if (t <? 60)%nat then 0x8F1BBCDC
  else 0xCA62C1D6.

Record state := State { ha : Z; hb : Z; hc : Z; hd : Z; he : Z }.

Definition init : state :=
  State 0x67452301 0xEFCDAB89 0x98BADCFE 0x10325476 0xC3D2E1F0.

Fixpoint rounds (t : nat) (ws : list Z) (s : state) : state :=
  match ws with
  | [] => s
  | w :: ws' =>
      let temp :=
        wrap32 (rotl 5 (ha s) + round_f t (hb s) (hc s) (hd s)
                + he s + round_k t + w) in
      rounds (S t) ws' (State temp (ha s) (rotl 30 (hb s)) (hc s) (hd s))
  end.

Definition compress (h : state) (blk : list Z) : state :=
  let ws := rev (schedule 64 (rev (words_of_block blk))) in
  let s := rounds 0 ws h in
  State (wrap32 (ha h + ha s)) (wrap32 (hb h + hb s)) (wrap32 (hc h + hc s))
        (wrap32 (hd h + hd s)) (wrap32 (he h + he s)).

(** [hashlib.sha1(msg).digest()] *)
Definition sha1 (msg : list Z) : list Z :=
  let h := fold_left compress (blocks (pad msg)) init in
  be_bytes 4 (ha h) ++ be_bytes 4 (hb h) ++ be_bytes 4 (hc h)
  ++ be_bytes 4 (hd h) ++ be_bytes 4 (he h).

(** [hmac.new(key, msg, hashlib.sha1).digest()] *)
Definition hmac_sha1 (key msg : list Z) : list Z :=
  let key' := if (64 <? length key)%nat then sha1 key else key in
  let key'' := key' ++ repeat 0 (64 - length key')%nat in
  let ipad := map (fun b => Z.lxor b 0x36) key'' in
  let opad := map (fun b => Z.lxor b 0x5C) key'' in
  sha1 (opad ++ sha1 (ipad ++ msg)).

Definition b64_alphabet : string :=
  "ABCDEFGHIJKLMNOPQRSTUVWXYZabcdefghijklmnopqrstuvwxyz0123456789+/".

Definition b64_char (i : Z) : ascii :=
  match String.get (Z.to_nat i) b64_alphabet with
  | Some c => c
  | None => "="%char
  end.

Fixpoint b64_groups (fuel : nat) (bs : list Z) : list ascii :=
  match fuel with
  | O => []
  | S fuel' =>
      match bs with
      | [] => []
      | [a] =>
          [b64_char (a / 4); b64_char (a mod 4 * 16); "="%char; "="%char]
      | [a; b] =>
          [b64_char (a / 4); b64_char (a mod 4 * 16 + b / 16);
           b64_char (b mod 16 * 4); "="%char]
      | a :: b :: c :: rest =>
          [b64_char (a / 4); b64_char (a mod 4 * 16 + b / 16);
           b64_char (b mod 16 * 4 + c / 64); b64_char (c mod 64)]
          ++ b64_groups fuel' rest
      end
  end.

(** [base64.b64encode(bs).decode('utf-8')] *)
Definition b64encode (bs : list Z) : string :=
  string_of_list_ascii (b64_groups (S (length bs)) bs).

Definition hex_digit (i : Z) : ascii :=
  match String.get (Z.to_nat i) "0123456789abcdef" with
  | Some c => c
  | None => "?"%char
  end.

Definition hexdigest (bs : list Z) : string :=
  string_of_list_ascii (flat_map (fun b => [hex_digit (b / 16); hex_digit (b mod 16)]) bs).

End Sha1.

(* ===================================================================== *)
(** ** The runtime the program calls into *)
(* ===================================================================== *)

(** - [RequestValidator]: [twilio.request_validator.RequestValidator], or
      [None] when the import failed; applied to the auth token, then to
      [validate]'s url, flattened parameters and signature.
    - [openai]: the [openai] module, or [None] when the import failed; the
      function is [ChatCompletion.create(model, messages)] followed by
      [.choices[0].message['content']], which returns the content or raises.
    - [getenv]: [os.getenv].
    - [json_loads], [json_dumps]: [json.loads] and
      [json.dumps(_, indent=2)].
    - [parse_qs]: [urllib.parse.parse_qs]; the dict is kept as the list of
      its items.
    - [time_time]: [int(time.time())]; [utcnow_isoformat] and [utcnow_stamp]:
      [datetime.now(timezone.utc)] rendered by [isoformat()] and by
      [strftime('%Y%m%dT%H%M%SZ')]; the clock is read once per invocation.
    - [py_format]: [format(v)] for the values an f-string is given other
      than [str] and [int].
    - [sns_publish_ok]: whether SNS accepts [publish] with this topic,
      subject and message (it refuses, for one, a subject of a hundred
      characters); [s3_put_ok]: whether S3 accepts [put_object] with this
      bucket, key and body.  A refused call raises in the client. *)
Record Runtime : Type := {
  RequestValidator :
    option (string -> string -> list (string * string) -> string -> bool);
  openai : option (string -> list (string * string) -> result string);
  getenv : string -> option string;
  json_loads : string -> result pyval;
  json_dumps : pyval -> string;
  parse_qs : string -> list (string * list string);
  time_time : Z;
  utcnow_isoformat : string;
  utcnow_stamp : string;
  py_format : pyval -> string;
  sns_publish_ok : string -> string -> string -> bool;
  s3_put_ok : string -> string -> string -> bool
}.

(** [v[0]] on a list *)
Definition first_item {A : Type} (v : list A) : result A :=
  match v with
  | [] => Raise IndexError
  | x :: _ => Ok x
  end.

(** [d.get(k, default)] on the items of a dict *)
Fixpoint items_get {A : Type} (k : string) (items : list (string * A))
    (default : A) : A :=
  match items with
  | [] => default
  | (k', v) :: rest => if String.eqb k k' then v else items_get k rest default
  end.

(** [f"{v}"] *)
Definition fstr (rt : Runtime) (v : pyval) : string :=
  match v with
  | PStr s => s
  | PInt z => pretty z
  | _ => py_format rt v
  end.

(** ['sep'.join(parts)] *)
Fixpoint join (sep : string) (parts : list string) : string :=
  match parts with
  | [] => EmptyString
  | [p] => p
  | p :: rest => p +:+ sep +:+ join sep rest
  end.

Definition concat_strings (parts : list string) : string :=
  fold_right String.append EmptyString parts.

(* ===================================================================== *)
(** ** [verify_twilio_signature] *)
(* ===================================================================== *)

(** [{k: v[0] ... for k, v in params.items()}], as items *)
Fixpoint flatten_params (params : list (string * list string))
    : result (list (string * string)) :=
  match params with
  | [] => Ok []
  | (k, v) :: rest =>
      v0 ← first_item v;
      rest' ← flatten_params rest;
      Ok ((k, v0) :: rest')
  end.

(** The order of Python on pairs of strings. *)
Definition pair_ltb (x y : string * string) : bool :=
  match String.compare (fst x) (fst y) with
  | Lt => true
  | Gt => false
  | Eq => String.ltb (snd x) (snd y)
  end.

Fixpoint insert_sorted (x : string * string) (l : list (string * string))
    : list (string * string) :=
  match l with
  | [] => [x]
  | y :: ys => if pair_ltb x y then x :: y :: ys else y :: insert_sorted x ys
  end.

(** [sorted(pairs)] *)
Definition sorted (l : list (string * string)) : list (string * string) :=
  fold_left (fun acc x => insert_sorted x acc) l [].

(** [hmac.compare_digest] on two [str]: a [TypeError] unless both are
    ASCII-only. *)
Definition compare_digest (a b : string) : result bool :=
  if is_ascii a && is_ascii b then Ok (String.eqb a b) else Raise TypeError.

(** The signature Twilio computes for a request. *)
Definition computed_signature (url : string) (flat : list (string * string))
    (auth_token : string) : string :=
  let sorted_params := sorted flat in
  let data := url +:+ concat_strings (map (fun kv => fst kv +:+ snd kv) sorted_params) in
  let digest := Sha1.hmac_sha1 (Sha1.bytes_of_string auth_token)
                               (Sha1.bytes_of_string data) in
  Sha1.b64encode digest.

Definition verify_twilio_signature (rt : Runtime) (signature url : string)
    (params : list (string * list string)) (auth_token : string)
    : result bool :=
  match RequestValidator rt with
  | Some validator_class =>
      let validator := validator_class auth_token in
      flat_params ← flatten_params params;
      Ok (validator url flat_params signature)
  | None =>
      flat ← flatten_params params;
      compare_digest (computed_signature url flat auth_token) signature
  end.

(* ===================================================================== *)
(** ** The AWS services *)
(* ===================================================================== *)

(** [ddb_up] is false when [get_item]/[put_item] raise; [ddb_items] is the
    table, keyed by [user_id]; [s3_objects] are the buckets, the body of an
    object under its [(Bucket, Key)]; [sns_published] are the
    [(TopicArn, Subject, Message)] of the [publish] calls and [llm_requests]
    the [(model, messages)] of the [ChatCompletion.create] calls, oldest
    first. *)
Record World : Type := {
  ddb_up : bool;
  ddb_items : gmap string pydict;
  s3_objects : gmap (string * string) string;
  sns_published : list (string * string * string);
  llm_requests : list (string * list (string * string))
}.

Definition set_ddb_items (w : World) (items : gmap string pydict) : World :=
  {| ddb_up := ddb_up w; ddb_items := items; s3_objects := s3_objects w;
     sns_published := sns_published w; llm_requests := llm_requests w |}.

Definition set_s3_objects (w : World) (objs : gmap (string * string) string)
    : World :=
  {| ddb_up := ddb_up w; ddb_items := ddb_items w; s3_objects := objs;
     sns_published := sns_published w; llm_requests := llm_requests w |}.

Definition set_sns_published (w : World)
    (msgs : list (string * string * string)) : World :=
  {| ddb_up := ddb_up w; ddb_items := ddb_items w; s3_objects := s3_objects w;
     sns_published := msgs; llm_requests := llm_requests w |}.

Definition set_llm_requests (w : World)
    (reqs : list (string * list (string * string))) : World :=
  {| ddb_up := ddb_up w; ddb_items := ddb_items w; s3_objects := s3_objects w;
     sns_published := sns_published w; llm_requests := reqs |}.

(** [table.get_item(Key={'user_id': user_id})]: the response dict, of
    which only ['Item'] is read. *)
Definition get_item (w : World) (user_id : string) : result (option pydict) :=
  if ddb_up w then Ok (ddb_items w !! user_id) else Raise ServiceError.

(** The dict [load_conversation] returns for a user with no stored item. *)
Definition new_conversation (rt : Runtime) (user_id : string) : pydict :=
  <["user_id" := PStr user_id]>
  (<["history" := PList []]>
  (<["last_intent" := PNone]>
  (<["triage_level" := PNone]>
  (<["created_at" := PStr (utcnow_isoformat rt)]>
  (<["updated_at" := PStr (utcnow_isoformat rt)]> ∅))))).

Definition load_conversation (rt : Runtime) (w : World) (user_id : string)
    : pydict :=
  let response := try_except (get_item w user_id) None in
  let item := response in
  match item with
  | Some it => if bool_decide (it = ∅) then new_conversation rt user_id else it
  | None => new_conversation rt user_id
  end.

(** [store_conversation]: the conversation as stamped, and the world after
    [put_item]. *)
Definition store_conversation (rt : Runtime) (w : World) (conversation : pydict)
    : result (pydict * World) :=
  let conversation := <["updated_at" := PStr (utcnow_isoformat rt)]> conversation in
  if ddb_up w then
    match conversation !! "user_id" with
    | Some (PStr key) =>
        Ok (conversation, set_ddb_items w (<[key := conversation]> (ddb_items w)))
    | _ => Raise ServiceError
    end
  else Raise ServiceError.

(** [upload_transcript]: [put_object] makes the transcript the object of
    the bucket under that key, in place of one already there, or raises
    when S3 turns the request down. *)
Definition upload_transcript (rt : Runtime) (w : World)
    (bucket user_id transcript : string) : result World :=
  let timestamp := utcnow_stamp rt in
  let key := user_id +:+ "/transcript_" +:+ timestamp +:+ ".txt" in
  if s3_put_ok rt bucket key transcript then
    Ok (set_s3_objects w (<[(bucket, key) := transcript]> (s3_objects w)))
  else Raise ServiceError.

(** [send_alert]: [publish] validates its arguments in the client, where a
    [TopicArn] of [None] is turned down, and then calls the service. *)
Definition send_alert (rt : Runtime) (w : World) (topic_arn : option string)
    (subject message : string) : result World :=
  match topic_arn with
  | None => Raise ParamValidationError
  | Some topic =>
      if sns_publish_ok rt topic subject message then
        Ok (set_sns_published w (sns_published w ++ [(topic, subject, message)]))
      else Raise ServiceError
  end.

(* ===================================================================== *)
(** ** [generate_twiml_response] *)
(* ===================================================================== *)

Definition generate_twiml_response (message : string) : string :=
  "<?xml version=" +:+ dquote +:+ "1.0" +:+ dquote +:+ " encoding="
  +:+ dquote +:+ "UTF-8" +:+ dquote +:+ "?>" +:+ nl
  +:+ "<Response>" +:+ nl
  +:+ "    <Message>" +:+ message +:+ "</Message>" +:+ nl
  +:+ "</Response>".

(* ===================================================================== *)
(** ** [classify_message] *)
(* ===================================================================== *)

(** [key in v] for a string [key] *)
Definition py_in (key : string) (v : pyval) : result bool :=
  match v with
  | PDict d => Ok (bool_decide (is_Some (d !! key)))
  | PList l =>
      Ok (existsb (fun x => match x with
                            | PStr s => String.eqb key s
                            | _ => false
                            end) l)
  | PStr s => Ok (contains key s)
  | _ => Raise TypeError
  end.

(** [v[key] = x] for a string [key] *)
Definition py_setitem (v : pyval) (key : string) (x : pyval) : result pyval :=
  match v with
  | PDict d => Ok (PDict (<[key := x]> d))
  | _ => Raise TypeError
  end.

Definition system_prompt : string :=
  "You are a medical triage assistant. For the incoming patient's message, "
  +:+ "extract a list of symptoms, the duration of symptoms, the patient's age if provided, "
  +:+ "and any red‑flag symptoms (things that suggest an emergency). Then classify the overall "
  +:+ "urgency of the situation into one of the categories: LOW, MEDIUM, HIGH. "
  +:+ "Respond only with a JSON object containing the keys: symptoms (array of strings), duration (string), "
  +:+ "age (string), red_flags (array of strings), and urgency (string).".

Definition chat_model : string := "gpt-3.5-turbo-1106".

Definition chat_messages (message : string) : list (string * string) :=
  [("system", system_prompt); ("user", message)].

(** The [try] block after the request was sent: [completion] is the content
    of the first choice, or the exception the call raised. *)
Definition llm_classify (rt : Runtime) (completion : result string)
    : result pyval :=
  content ← completion;
  let response_text := strip content in
  result ← json_loads rt response_text;
  has ← py_in "urgency" result;
  if negb has then py_setitem result "urgency" (PStr "LOW")
  else Ok result.

(** [provider or os.getenv('LLM_PROVIDER', 'openai')] *)
Definition resolve_provider (rt : Runtime) (provider : string) : string :=
  if truthy provider then provider
  else default "openai" (getenv rt "LLM_PROVIDER").

(** [openai_api_key or os.getenv('OPENAI_API_KEY')] *)
Definition resolve_api_key (rt : Runtime) (openai_api_key : option string)
    : option string :=
  if truthy_opt openai_api_key then openai_api_key
  else getenv rt "OPENAI_API_KEY".

Definition classify_message (rt : Runtime) (w : World) (message : string)
    (history : pyval) (provider : string) (openai_api_key : option string)
    : result (pyval * World) :=
  let provider := resolve_provider rt provider in
  match (if String.eqb provider "openai" then openai rt else None) with
  | Some create =>
      let api_key := resolve_api_key rt openai_api_key in
      if negb (truthy_opt api_key) then
        Ok (PDict (fallback_classifier message), w)
      else
        let messages := chat_messages message in
        let w := set_llm_requests w (llm_requests w ++ [(chat_model, messages)]) in
        Ok (try_except (llm_classify rt (create chat_model messages))
                       (PDict (fallback_classifier message)), w)
  | None => Ok (PDict (fallback_classifier message), w)
  end.

(* ===================================================================== *)
(** ** [build_response_and_state] *)
(* ===================================================================== *)

Definition reply_high : string :=
  "Based on the symptoms you described, it may be an emergency. "
  +:+ "Please call your local emergency number or visit the nearest emergency room immediately.".

Definition reply_medium : string :=
  "Thanks for providing more details. It sounds like your situation is not urgent, "
  +:+ "but we would like to schedule an appointment. Please reply with your name and a preferred "
  +:+ "day/time for a call or visit.".

Definition reply_low : string :=
  "It appears your symptoms are mild. Here are some general self‑care tips: rest, stay hydrated and monitor your symptoms. "
  +:+ "If they worsen or new symptoms appear, please contact a healthcare professional.".

Definition alert_subject (user_id : string) : string :=
  "High urgency triage alert for user " +:+ user_id.

Definition alert_message (rt : Runtime) (triage_result : pydict)
    (user_id : string) : string :=
  "User " +:+ user_id +:+ " has reported symptoms requiring immediate attention." +:+ nl
  +:+ "Extracted fields: " +:+ json_dumps rt (PDict triage_result) +:+ nl +:+ nl
  +:+ "Please contact the patient as soon as possible.".

(** [triage_result.get('urgency', 'LOW').upper()]: an [AttributeError] when
    the value is not a [str]. *)
Definition get_urgency (triage_result : pydict) : result string :=
  match triage_result !! "urgency" with
  | None => Ok (upper "LOW")
  | Some (PStr s) => Ok (upper s)
  | Some _ => Raise AttributeError
  end.

(** [conversation.get('history', [])], on which [append] is called: an
    [AttributeError] when the value is not a [list]. *)
Definition get_history (conversation : pydict) : result (list pyval) :=
  match conversation !! "history" with
  | None => Ok []
  | Some (PList l) => Ok l
  | Some _ => Raise AttributeError
  end.

Definition history_entry (rt : Runtime) (message : string) : pyval :=
  PDict (<["timestamp" := PInt (time_time rt)]> (<["message" := PStr message]> ∅)).

(** The conversation dict is mutated in place by the source, so that the
    caller sees the mutation also when the function raises: the result is
    the reply or the exception, next to the conversation and the world as
    the call leaves them. *)
Definition build_response_and_state (rt : Runtime) (triage_result : pydict)
    (conversation : pydict) (message : string) (w : World)
    (topic_arn : option string) (user_id : string)
    : result string * pydict * World :=
  match get_urgency triage_result with
  | Raise e => (Raise e, conversation, w)
  | Ok urgency =>
      match get_history conversation with
      | Raise e => (Raise e, conversation, w)
      | Ok history =>
          let history := history ++ [history_entry rt message] in
          let conversation := <["history" := PList history]> conversation in
          let conversation := <["triage_level" := PStr urgency]> conversation in
          let conversation := <["last_intent" := PStr "triage"]> conversation in
          if String.eqb urgency "HIGH" then
            match send_alert rt w topic_arn (alert_subject user_id)
                             (alert_message rt triage_result user_id) with
            | Ok w' => (Ok reply_high, conversation, w')
            | Raise e => (Raise e, conversation, w)
            end
          else if String.eqb urgency "MEDIUM" then
            (Ok reply_medium, conversation, w)
          else
            (Ok reply_low, conversation, w)
      end
  end.

(** A call of [build_response_and_state] seen from a caller that does not
    catch: the exception, or the reply with the state. *)
Definition returned (outcome : result string * pydict * World)
    : result (string * pydict * World) :=
  let '(r, conversation, w) := outcome in
  match r with
  | Ok reply => Ok (reply, conversation, w)
  | Raise e => Raise e
  end.

(* ===================================================================== *)
(** ** [lambda_handler] ([lambda_function.py]) *)
(* ===================================================================== *)

(** The module globals read from the environment at import, [None] when
    unset. *)
Record Config : Type := {
  table_name : option string;
  bucket_name : option string;
  topic_arn : option string;
  twilio_auth_token : option string;
  llm_provider : string
}.

(** The API Gateway event: [event['body']], [event['headers']],
    [event['requestContext']['domainName']] and
    [event['requestContext']['http']['path']], each [None] when absent. *)
Record Event : Type := {
  ev_body : option string;
  ev_headers : option (list (string * string));
  ev_domainName : option string;
  ev_path : option string
}.

Record Response : Type := {
  statusCode : Z;
  resp_headers : list (string * string);
  resp_body : string
}.

(** [{k.lower(): v for k, v in headers.items()}.get(name, '')]: of the
    headers whose lower-cased name is [name], the last one wins. *)
Definition header_get (name : string) (headers : list (string * string))
    : string :=
  fold_left (fun acc kv => if String.eqb (lower (fst kv)) name then snd kv else acc)
            headers EmptyString.

(** [msg['timestamp']] and [msg['message']] of a history entry *)
Definition py_getitem (v : pyval) (key : string) : result pyval :=
  match v with
  | PDict d =>
      match d !! key with
      | Some x => Ok x
      | None => Raise KeyError
      end
  | _ => Raise TypeError
  end.

Fixpoint transcript_lines (rt : Runtime) (history : list pyval)
    : result (list string) :=
  match history with
  | [] => Ok []
  | msg :: rest =>
      ts ← py_getitem msg "timestamp";
      m ← py_getitem msg "message";
      rest' ← transcript_lines rt rest;
      Ok ((fstr rt ts +:+ ": " +:+ fstr rt m) :: rest')
  end.

(** Iterating [conversation.get('history', [])]: a list gives its elements,
    a dict its keys, a string its characters; the other values are not
    iterable. *)
Definition py_iter (v : option pyval) : result (list pyval) :=
  match v with
  | None => Ok []
  | Some (PList l) => Ok l
  | Some (PDict d) => Ok (map (fun kv => PStr (fst kv)) (map_to_list d))
  | Some (PStr s) =>
      Ok (map (fun c => PStr (String c EmptyString)) (list_ascii_of_string s))
  | Some _ => Raise TypeError
  end.

(** What the handler reads off the event before it verifies it.  The log
    lines the handler writes are left out. *)
Definition request_signature (event : Event) : string :=
  let headers := default [] (ev_headers event) in
  header_get "x-twilio-signature" headers.

Definition request_url (event : Event) : string :=
  let domain := default EmptyString (ev_domainName event) in
  let path := default EmptyString (ev_path event) in
  let protocol := "https" in
  protocol +:+ "://" +:+ domain +:+ path.

Definition request_params (rt : Runtime) (event : Event)
    : list (string * list string) :=
  let body := default EmptyString (ev_body event) in
  parse_qs rt body.

Definition lambda_handler (rt : Runtime) (cfg : Config) (event : Event)
    (w : World) : result (Response * World) :=
  let signature := request_signature event in
  let full_url := request_url event in
  let params := request_params rt event in
  valid ← verify_twilio_signature rt signature full_url params
            (default EmptyString (twilio_auth_token cfg));
  if negb valid then
    Ok ({| statusCode := 403; resp_headers := [];
           resp_body := "Invalid signature" |}, w)
  else
    user_id ← first_item (items_get "From" params [EmptyString]);
    body_value ← first_item (items_get "Body" params [EmptyString]);
    let message := strip body_value in
    if negb (truthy user_id) || negb (truthy message) then
      Ok ({| statusCode := 400; resp_headers := [];
             resp_body := "Missing From or Body parameter" |}, w)
    else
      let table := if truthy_opt (table_name cfg) then table_name cfg else None in
      let conversation :=
        match table with
        | Some _ => load_conversation rt w user_id
        | None => ∅
        end in
      '(triage_result, w) ←
        classify_message rt w message
          (default (PList []) (conversation !! "history")) (llm_provider cfg) None;
      triage_dict ←
        match triage_result with
        | PDict d => Ok d
        | _ => Raise AttributeError
        end;
      '(reply_message, conversation, w) ←
        returned (build_response_and_state rt triage_dict conversation message w
                    (topic_arn cfg) user_id);
      '(conversation, w) ←
        match table with
        | Some _ => store_conversation rt w conversation
        | None => Ok (conversation, w)
        end;
      w ←
        (if truthy_opt (bucket_name cfg) then
           history ← py_iter (conversation !! "history");
           lines ← transcript_lines rt history;
           let transcript := join nl lines in
           upload_transcript rt w (default EmptyString (bucket_name cfg))
                             user_id transcript
         else Ok w);
      let twiml := generate_twiml_response reply_message in
      Ok ({| statusCode := 200;
             resp_headers := [("Content-Type", "application/xml")];
             resp_body := twiml |}, w).

(* ===================================================================== *)
(** ** [webhook] ([local_runner.py]) *)
(* ===================================================================== *)

(** The Flask request: [request.url], the pairs of [request.form.items()]
    (each key with its first value) and
    [request.headers.get('X-Twilio-Signature')], [None] when the header is
    absent. *)
Record FlaskRequest : Type := {
  req_url : string;
  req_form : list (string * string);
  req_signature : option string
}.

(** [Response(body, status=..., mimetype=...)]; Flask's defaults are status
    200 and mimetype [text/html]. *)
Record FlaskResponse : Type := {
  fl_status : Z;
  fl_mimetype : string;
  fl_body : string
}.

Definition webhook (rt : Runtime) (cfg : Config) (request : FlaskRequest)
    (w : World) : result (FlaskResponse * World) :=
  let full_url := req_url request in
  let params := map (fun kv => (fst kv, [snd kv])) (req_form request) in
  let signature := default EmptyString (req_signature request) in
  valid ← verify_twilio_signature rt signature full_url params
            (default EmptyString (twilio_auth_token cfg));
  if negb valid then
    Ok ({| fl_status := 403; fl_mimetype := "text/html";
           fl_body := "Invalid signature" |}, w)
  else
    user_id ← first_item (items_get "From" params [EmptyString]);
    body_value ← first_item (items_get "Body" params [EmptyString]);
    let message := strip body_value in
    if negb (truthy user_id) || negb (truthy message) then
      Ok ({| fl_status := 400; fl_mimetype := "text/html";
             fl_body := "Missing From or Body" |}, w)
    else
      let table := if truthy_opt (table_name cfg) then table_name cfg else None in
      let conversation :=
        match table with
        | Some _ => load_conversation rt w user_id
        | None => ∅
        end in
      '(triage_result, w) ←
        classify_message rt w message
          (default (PList []) (conversation !! "history")) (llm_provider cfg) None;
      triage_dict ←
        match triage_result with
        | PDict d => Ok d
        | _ => Raise AttributeError
        end;
      '(reply, conversation, w) ←
        returned (build_response_and_state rt triage_dict conversation message w
                    (topic_arn cfg) user_id);
      '(conversation, w) ←
        match table with
        | Some _ => store_conversation rt w conversation
        | None => Ok (conversation, w)
        end;
      w ←
        (if truthy_opt (bucket_name cfg) then
           history ← py_iter (conversation !! "history");
           lines ← transcript_lines rt history;
           let transcript := join nl lines in
           upload_transcript rt w (default EmptyString (bucket_name cfg))
                             user_id transcript
         else Ok w);
      let twiml := generate_twiml_response reply in
      Ok ({| fl_status := 200; fl_mimetype := "application/xml";
             fl_body := twiml |}, w).

(* ===================================================================== *)
(** ** Predicates of the properties *)
(* ===================================================================== *)

(** A history entry the transcript can render: a dict with a [timestamp]
    and a [message]. *)
Definition entry_ok (v : pyval) : bool :=
  match v with
  | PDict d => bool_decide (is_Some (d !! "timestamp"))
               && bool_decide (is_Some (d !! "message"))
  | _ => false
  end.

(** The order [sorted] sorts by: [x] is not above [y]. *)
Definition pair_le (x y : string * string) : Prop := pair_ltb y x = false.

(** The reply the decision engine gives for an upper-cased urgency. *)
Definition reply_for (urgency : string) : string :=
  if String.eqb urgency "HIGH" then reply_high
  else if String.eqb urgency "MEDIUM" then reply_medium
  else reply_low.

(** [c] is the character [k] of a keyword, or its capital. *)
Definition same_letter (k c : ascii) : bool :=
  let n := nat_of_ascii k in
  Ascii.eqb c k
  || ((97 <=? n)%nat && (n <=? 122)%nat && (nat_of_ascii c + 32 =? n)%nat).

(** [text] is [kw] but for the case of its letters. *)
Fixpoint same_word (kw text : string) : bool :=
  match kw, text with
  | EmptyString, EmptyString => true
  | String k kw', String c text' => same_letter k c && same_word kw' text'
  | _, _ => false
  end.

(** [kw] occurs in [text] in some mix of small and capital letters. *)
Definition occurs_any_case (kw text : string) : Prop :=
  exists pre mid post, text = pre +:+ mid +:+ post /\ same_word kw mid = true.

(** Two characters, and two strings, that differ at most in the case of
    the letters A to Z. *)
Definition same_char_any_case (a b : ascii) : bool :=
  let m := nat_of_ascii a in
  let n := nat_of_ascii b in
  Ascii.eqb a b
  || ((65 <=? m)%nat && (m <=? 90)%nat && (m + 32 =? n)%nat)
  || ((65 <=? n)%nat && (n <=? 90)%nat && (n + 32 =? m)%nat).

Fixpoint same_any_case (s t : string) : bool :=
  match s, t with
  | EmptyString, EmptyString => true
  | String a s', String b t' => same_char_any_case a b && same_any_case s' t'
  | _, _ => false
  end.

(* ===================================================================== *)
(** ** Fixtures: concrete runtimes, configurations and worlds *)
(* ===================================================================== *)

(** A host with neither the Twilio nor the OpenAI package, as in the test
    suite, whose [parse_qs] answers [params] for [body]. *)
Definition offline_runtime (body : string) (params : list (string * list string))
    : Runtime :=
  {| RequestValidator := None;
     openai := None;
     getenv := fun _ => None;
     json_loads := fun _ => Raise ValueError;
     json_dumps := fun _ => "{}";
     parse_qs := fun b => if String.eqb b body then params else [];
     time_time := 1700000000;
     utcnow_isoformat := "2023-11-14T22:13:20+00:00";
     utcnow_stamp := "20231114T221320Z";
     py_format := fun _ => "?";
     sns_publish_ok := fun _ _ _ => true;
     s3_put_ok := fun _ _ _ => true |}.

(** A host with the OpenAI package and an API key in the environment, whose
    model answers [content], which [json.loads] parses to [parsed]. *)
Definition llm_runtime (content : string) (parsed : result pyval) : Runtime :=
  {| RequestValidator := None;
     openai := Some (fun _ _ => Ok content);
     getenv := fun k => if String.eqb k "OPENAI_API_KEY" then Some "sk-test" else None;
     json_loads := fun s => if String.eqb s (strip content) then parsed else Raise ValueError;
     json_dumps := fun _ => "{}";
     parse_qs := fun _ => [];
     time_time := 1700000000;
     utcnow_isoformat := "2023-11-14T22:13:20+00:00";
     utcnow_stamp := "20231114T221320Z";
     py_format := fun _ => "?";
     sns_publish_ok := fun _ _ _ => true;
     s3_put_ok := fun _ _ _ => true |}.

Definition test_config : Config :=
  {| table_name := Some "test-table";
     bucket_name := Some "test-bucket";
     topic_arn := Some "arn:aws:sns:us-east-1:123456789012:test-topic";
     twilio_auth_token := Some "test-token";
     llm_provider := "unknown" |}.

(** The same deployment with [TWILIO_AUTH_TOKEN] unset. *)
Definition tokenless_config : Config :=
  {| table_name := Some "test-table";
     bucket_name := Some "test-bucket";
     topic_arn := Some "arn:aws:sns:us-east-1:123456789012:test-topic";
     twilio_auth_token := None;
     llm_provider := "unknown" |}.

Definition empty_world : World :=
  {| ddb_up := true; ddb_items := ∅; s3_objects := ∅;
     sns_published := []; llm_requests := [] |}.

Definition webhook_url : string := "https://example.com/webhook".

(** An event posted to [webhook_url] with the given body and signature
    header. *)
Definition webhook_event (body signature : string) : Event :=
  {| ev_body := Some body;
     ev_headers := Some [("X-Twilio-Signature", signature)];
     ev_domainName := Some "example.com";
     ev_path := Some "/webhook" |}.

(** A triage result as a model may spell it, and a conversation that was
    stored after an earlier message. *)
Definition high_triage : pydict :=
  <["urgency" := PStr "high"]> (<["symptoms" := PList [PStr "chest pain"]]> ∅).


Definition earlier_entry : pyval :=
  PDict (<["timestamp" := PInt 1699990000]> (<["message" := PStr "I have a mild headache."]> ∅)).

Definition stored_conversation : pydict :=
  <["user_id" := PStr "+123"]>
  (<["history" := PList [earlier_entry]]>
  (<["last_intent" := PStr "triage"]>
  (<["triage_level" := PStr "LOW"]>
  (<["created_at" := PStr "2023-11-14T19:26:40+00:00"]>
  (<["updated_at" := PStr "2023-11-14T19:26:41+00:00"]> ∅))))).

(** Requests to [webhook_url]: one whose [From] is a single space, one
    whose [Body] is blank, with the parameters [parse_qs] gives for them and
    the signatures Twilio computes for them under [test-token]; and the
    signature of a request without parameters under the empty token. *)
Definition blank_from_body : string := "From=%20&Body=hello".
Definition blank_from_params : list (string * list string) :=
  [("From", [" "]); ("Body", ["hello"])].
Definition blank_from_signature : string := "A7igqgfWY5VYRs3vdJoddzhgCBs=".

Definition blank_body_body : string := "From=%2B123&Body=%20%20%20".
Definition blank_body_params : list (string * list string) :=
  [("From", ["+123"]); ("Body", ["   "])].
Definition blank_body_signature : string := "+srNOr8KV1ehmA2LWpwqZQTyhYI=".

(** A [Body] of a no-break space (U+00A0) and an ideographic space
    (U+3000), in UTF-8. *)
Definition wide_blank : string := bytes_string [194; 160; 227; 128; 128]%nat.
Definition wide_blank_body : string := "From=%2B123&Body=%C2%A0%E3%80%80".
Definition wide_blank_params : list (string * list string) :=
  [("From", ["+123"]); ("Body", [wide_blank])].
Definition wide_blank_signature : string := "134b9ohdSK7Rcd+02E2MgVTqck4=".

Definition empty_token_signature : string := "XFZnrXhNm1E7/LEOCLmvnGX6USs=".

(** Further fixtures: a signature header that is not ASCII, a host with the
    OpenAI client behind the webhook, and deployments and worlds for the
    other paths of the handler. *)
Definition e_acute : string :=
  String (ascii_of_nat 195) (String (ascii_of_nat 169) EmptyString).

(** A host with the OpenAI client and a key, whose [parse_qs] answers
    [params] for [body] and whose model answers [content], parsed to
    [parsed]. *)
Definition llm_host_runtime (body : string) (params : list (string * list string))
    (content : string) (parsed : result pyval) : Runtime :=
  {| RequestValidator := None;
     openai := Some (fun _ _ => Ok content);
     getenv := fun k => if String.eqb k "OPENAI_API_KEY" then Some "sk-test" else None;
     json_loads := fun s => if String.eqb s (strip content) then parsed else Raise ValueError;
     json_dumps := fun _ => "{}";
     parse_qs := fun b => if String.eqb b body then params else [];
     time_time := 1700000000;
     utcnow_isoformat := "2023-11-14T22:13:20+00:00";
     utcnow_stamp := "20231114T221320Z";
     py_format := fun _ => "?";
     sns_publish_ok := fun _ _ _ => true;
     s3_put_ok := fun _ _ _ => true |}.

(** The same deployment as [test_config] with the OpenAI provider. *)
Definition openai_config : Config :=
  {| table_name := Some "test-table";
     bucket_name := Some "test-bucket";
     topic_arn := Some "arn:aws:sns:us-east-1:123456789012:test-topic";
     twilio_auth_token := Some "test-token";
     llm_provider := "openai" |}.

(** A deployment without table and bucket. *)
Definition bare_config : Config :=
  {| table_name := None;
     bucket_name := None;
     topic_arn := Some "arn:aws:sns:us-east-1:123456789012:test-topic";
     twilio_auth_token := Some "test-token";
     llm_provider := "unknown" |}.

(** A request from [+123] reporting chest pain, and its signature under
    [test-token]. *)
Definition chest_pain_body : string := "From=%2B123&Body=Sudden%20chest%20pain".
Definition chest_pain_params : list (string * list string) :=
  [("From", ["+123"]); ("Body", ["Sudden chest pain"])].
Definition chest_pain_signature : string :=
  Eval vm_compute in
    computed_signature webhook_url
      [("From", "+123"); ("Body", "Sudden chest pain")] "test-token".

(** A reply of the model that is a JSON object with a number for urgency. *)
Definition numeric_urgency_reply : string :=
  "{" +:+ dquote +:+ "urgency" +:+ dquote +:+ ": 3}".

Definition down_world : World :=
  {| ddb_up := false; ddb_items := ∅; s3_objects := ∅;
     sns_published := []; llm_requests := [] |}.

(** The table is well-formed: every item is stored under its own
    [user_id] and has a history of entries the transcript can render. *)
Definition table_ok (w : World) : Prop :=
  forall (user_id : string) (item : pydict),
    ddb_items w !! user_id = Some item ->
    item !! "user_id" = Some (PStr user_id)
    /\ exists history : list pyval,
         get_history item = Ok history
         /\ Forall (fun v => entry_ok v = true) history.

(* ===================================================================== *)
(** * Properties *)
(* ===================================================================== *)

(** ** Known answers *)

(** FIPS 180 and RFC 2202 test vectors, and RFC 4648 for base64. *)
Example sha1_abc :
  Sha1.hexdigest (Sha1.sha1 (Sha1.bytes_of_string "abc"))
  = "a9993e364706816aba3e25717850c26c9cd0d89d".
Proof. vm_compute. reflexivity. Qed.

Example sha1_two_blocks :
  Sha1.hexdigest
    (Sha1.sha1 (Sha1.bytes_of_string
       "abcdbcdecdefdefgefghfghighijhijkijkljklmklmnlmnomnopnopq"))
  = "84983e441c3bd26ebaae4aa1f95129e5e54670f1".
Proof. vm_compute. reflexivity. Qed.

Example hmac_sha1_rfc2202 :
  Sha1.hexdigest
    (Sha1.hmac_sha1 (Sha1.bytes_of_string "Jefe")
                    (Sha1.bytes_of_string "what do ya want for nothing?"))
  = "effcdf6ae5eb2fa2d27416d5f184df9c259a7c79".
Proof. vm_compute. reflexivity. Qed.

Example b64encode_rfc4648 :
  map (fun s => Sha1.b64encode (Sha1.bytes_of_string s)) ["f"; "fo"; "foo"; "foobar"]
  = ["Zg=="; "Zm8="; "Zm9v"; "Zm9vYmFy"].
Proof. vm_compute. reflexivity. Qed.

(** The fixtures carry the signatures of their requests. *)
Example fixture_signatures :
  computed_signature webhook_url [("From", " "); ("Body", "hello")] "test-token"
    = blank_from_signature
  /\ computed_signature webhook_url [("From", "+123"); ("Body", "   ")] "test-token"
    = blank_body_signature
  /\ computed_signature webhook_url [("From", "+123"); ("Body", wide_blank)]
       "test-token"
    = wide_blank_signature
  /\ computed_signature webhook_url [] EmptyString = empty_token_signature.
Proof. vm_compute. repeat split. Qed.

(** [tests/test_utils.py], replayed on a host without the OpenAI client. *)
Example test_classify_message_fallback_low :
  exists d : pydict,
    classify_message (offline_runtime EmptyString []) empty_world
      "I have a mild headache." (PList []) "unknown" None
    = Ok (PDict d, empty_world)
    /\ d !! "urgency" = Some (PStr "LOW").
Proof. eexists. split; vm_compute; reflexivity. Qed.

Example test_classify_message_fallback_medium :
  exists d : pydict,
    classify_message (offline_runtime EmptyString []) empty_world
      "My child has a high fever and is vomiting." (PList []) "unknown" None
    = Ok (PDict d, empty_world)
    /\ d !! "urgency" = Some (PStr "MEDIUM").
Proof. eexists. split; vm_compute; reflexivity. Qed.

Example test_classify_message_fallback_high :
  exists d : pydict,
    classify_message (offline_runtime EmptyString []) empty_world
      "Sudden chest pain and difficulty breathing" (PList []) "unknown" None
    = Ok (PDict d, empty_world)
    /\ d !! "urgency" = Some (PStr "HIGH").
Proof. eexists. split; vm_compute; reflexivity. Qed.

Example test_build_response_and_state_high :
  match
    build_response_and_state (offline_runtime EmptyString [])
      (<["urgency" := PStr "HIGH"]>
       (<["symptoms" := PList [PStr "chest pain"]]>
       (<["duration" := PStr EmptyString]>
       (<["age" := PStr EmptyString]>
       (<["red_flags" := PList []]> ∅)))))
      (<["history" := PList []]> ∅) "I have severe chest pain." empty_world
      (Some "arn:aws:sns:us-east-1:123456789012:alerts") "+123"
  with
  | (Ok reply, conversation, w) =>
      contains "emergency" (lower reply) = true
      /\ conversation !! "triage_level" = Some (PStr "HIGH")
      /\ (exists h, get_history conversation = Ok h /\ length h = 1%nat)
      /\ length (sns_published w) = 1%nat
  | (Raise _, _, _) => False
  end.
Proof.
  vm_compute. repeat split. eexists. split; reflexivity.
Qed.

(** [tests/test_lambda_function.py], with the signature Twilio computes in
    place of the patched verifier. *)
Example test_lambda_handler_low_flow :
  match
    lambda_handler
      (offline_runtime "From=%2B1234567890&Body=I%20have%20a%20mild%20headache"
         [("From", ["+1234567890"]); ("Body", ["I have a mild headache"])])
      test_config
      (webhook_event "From=%2B1234567890&Body=I%20have%20a%20mild%20headache"
         (computed_signature webhook_url
            [("From", "+1234567890"); ("Body", "I have a mild headache")]
            "test-token"))
      empty_world
  with
  | Ok (response, w) =>
      statusCode response = 200
      /\ resp_headers response = [("Content-Type", "application/xml")]
      /\ contains "rest, stay hydrated" (lower (resp_body response)) = true
      /\ sns_published w = []
      /\ s3_objects w
           !! ("test-bucket", "+1234567890/transcript_20231114T221320Z.txt")
         = Some "1700000000: I have a mild headache"
  | Raise _ => False
  end.
Proof. vm_compute. repeat split. Qed.

(** Capitals in the message, capitals and a dotless i in the model's
    urgency, white space of Unicode around the body. *)
Example fallback_mixed_case :
  fallback_urgency "Sudden CHEST Pain" = "HIGH"
  /\ fallback_urgency "HIGH FEVER" = "MEDIUM".
Proof. split; reflexivity. Qed.

Example upper_unicode :
  upper "high" = "HIGH" /\ upper "hıgh" = "HIGH" /\ upper "Medium" = "MEDIUM"
  /\ upper "straße" = "STRASSE".
Proof. vm_compute. repeat split. Qed.

Example strip_unicode :
  strip (bytes_string [194; 160]%nat) = EmptyString
  /\ strip (bytes_string [227; 128; 128; 32; 104; 105; 194; 133; 10]%nat) = "hi"
  /\ strip "  a b  " = "a b".
Proof. vm_compute. repeat split. Qed.

(** ** Strings *)

Lemma append_cons_eq (a : ascii) (s t : string) :
  String a s +:+ t = String a (s +:+ t).
Proof. reflexivity. Qed.

Lemma eq_sym_iff {A : Type} (x y : A) : x = y <-> y = x.
Proof. split; intros H; symmetry; exact H. Qed.

Lemma startswith_spec (p s : string) :
  startswith p s = true <-> exists post, s = p +:+ post.
Proof.
  revert s. induction p as [|a p IH]; intros s; simpl.
  - split; [intros _; exists s; reflexivity | reflexivity].
  - destruct s as [|b s].
    + split; [discriminate | intros [post H]; discriminate].
    + rewrite andb_true_iff, Ascii.eqb_eq, IH. split.
      * intros [-> [post ->]]. exists post. reflexivity.
      * intros [post H]. injection H as -> ->. split; [reflexivity | eauto].
Qed.

Lemma contains_occurs (kw text : string) :
  contains kw text = true <-> occurs_in kw text.
Proof.
  unfold occurs_in. induction text as [|c t IH].
  - simpl. rewrite orb_false_r, startswith_spec. split.
    + intros [post H]. exists EmptyString, post. exact H.
    + intros [pre [post H]]. destruct pre; [eauto | discriminate].
  - cbn [contains]. rewrite orb_true_iff, startswith_spec, IH. split.
    + intros [[post H] | [pre [post H]]].
      * exists EmptyString, post. exact H.
      * exists (String c pre), post. simpl. rewrite H. reflexivity.
    + intros [pre [post H]]. destruct pre as [|c' pre].
      * left. exists post. exact H.
      * right. simpl in H. injection H as _ ->. eauto.
Qed.

Lemma contains_false (kw text : string) :
  contains kw text = false <-> ~ occurs_in kw text.
Proof.
  rewrite <- contains_occurs. destruct (contains kw text); split;
    congruence || (intros H; exfalso; apply H; reflexivity) || discriminate.
Qed.

Lemma for_break_Exists (kws : list string) (text : string) :
  for_break kws text = true <-> Exists (fun kw => occurs_in kw text) kws.
Proof.
  induction kws as [|kw rest IH]; simpl.
  - split; [discriminate | intros H; inversion H].
  - rewrite Exists_cons, <- IH, <- contains_occurs.
    destruct (contains kw text); intuition congruence.
Qed.

Lemma for_break_not_Exists (kws : list string) (text : string) :
  for_break kws text = false <-> ~ Exists (fun kw => occurs_in kw text) kws.
Proof.
  rewrite <- for_break_Exists. destruct (for_break kws text); intuition congruence.
Qed.

(** ** The fallback classifier *)

Lemma lower_char_same_letter (k c : ascii) :
  is_upper_ascii k = false ->
  (lower_char c = k <-> same_letter k c = true).
Proof.
  unfold lower_char, same_letter. cbv zeta. intros Hk.
  pose proof (nat_ascii_bounded c) as Hc.
  rewrite !orb_true_iff, !andb_true_iff, Ascii.eqb_eq.
  rewrite !Nat.leb_le, Nat.eqb_eq.
  unfold is_upper_ascii in Hk. cbv zeta in Hk.
  apply andb_false_iff in Hk. rewrite !Nat.leb_gt in Hk.
  destruct (is_upper_ascii c) eqn:Hup; unfold is_upper_ascii in Hup;
    cbv zeta in Hup.
  - apply andb_true_iff in Hup. rewrite !Nat.leb_le in Hup. split.
    + intros <-. right.
      rewrite nat_ascii_embedding by lia. lia.
    + intros [-> | [_ Heq]]; [lia |].
      rewrite Heq. apply ascii_nat_embedding.
  - apply andb_false_iff in Hup. rewrite !Nat.leb_gt in Hup. split.
    + intros ->. left. reflexivity.
    + intros [-> | [Hr Heq]]; [reflexivity | lia].
Qed.

Lemma startswith_lower (kw s : string) :
  forallb (fun k => negb (is_upper_ascii k)) (list_ascii_of_string kw) = true ->
  (startswith kw (lower s) = true <->
     exists mid post, s = mid +:+ post /\ same_word kw mid = true).
Proof.
  revert s. induction kw as [|k kw IH]; intros s Hplain.
  - split; [| reflexivity]. intros _. exists EmptyString, s. split; reflexivity.
  - cbn [list_ascii_of_string forallb] in Hplain.
    apply andb_true_iff in Hplain. destruct Hplain as [Hk Hplain].
    apply negb_true_iff in Hk.
    destruct s as [|c s]; unfold lower; cbn [map_string startswith].
    + split; [discriminate |].
      intros (mid & post & Hs & Hw). destruct mid; discriminate.
    + fold (lower s). rewrite andb_true_iff, Ascii.eqb_eq, (IH s Hplain).
      rewrite (eq_sym_iff k), (lower_char_same_letter k c Hk). split.
      * intros [Hkc (mid & post & -> & Hw)].
        exists (String c mid), post. split; [reflexivity |].
        cbn [same_word]. rewrite Hkc, Hw. reflexivity.
      * intros (mid & post & Hs & Hw). destruct mid as [|c' mid]; [discriminate |].
        rewrite append_cons_eq in Hs. injection Hs as -> ->.
        cbn [same_word] in Hw. apply andb_true_iff in Hw.
        destruct Hw as [Hkc Hw]. split; [exact Hkc | eauto].
Qed.

Lemma contains_lower (kw text : string) :
  forallb (fun k => negb (is_upper_ascii k)) (list_ascii_of_string kw) = true ->
  (occurs_in kw (lower text) <-> occurs_any_case kw text).
Proof.
  intros Hplain. rewrite <- contains_occurs. unfold occurs_any_case.
  induction text as [|c t IH].
  - change (lower EmptyString) with EmptyString. cbn [contains].
    rewrite orb_false_r.
    change EmptyString with (lower EmptyString) at 1.
    rewrite (startswith_lower kw EmptyString Hplain). split.
    + intros (mid & post & Hs & Hw). exists EmptyString, mid, post. auto.
    + intros (pre & mid & post & Hs & Hw).
      destruct pre; [| discriminate]. exists mid, post. auto.
  - unfold lower. cbn [map_string contains]. fold (lower t).
    change (String (lower_char c) (lower t)) with (lower (String c t)).
    rewrite orb_true_iff, (startswith_lower kw (String c t) Hplain), IH. split.
    + intros [(mid & post & Hs & Hw) | (pre & mid & post & Hs & Hw)].
      * exists EmptyString, mid, post. auto.
      * exists (String c pre), mid, post. rewrite Hs.
        split; [reflexivity | exact Hw].
    + intros (pre & mid & post & Hs & Hw). destruct pre as [|c' pre].
      * left. exists mid, post. auto.
      * right. rewrite append_cons_eq in Hs. injection Hs as _ ->.
        exists pre, mid, post. auto.
Qed.

Lemma keywords_any_case (kws : list string) (text : string) :
  forallb (fun kw =>
             forallb (fun k => negb (is_upper_ascii k)) (list_ascii_of_string kw))
          kws = true ->
  (Exists (fun kw => occurs_in kw (lower text)) kws
   <-> Exists (fun kw => occurs_any_case kw text) kws).
Proof.
  induction kws as [|kw kws IH]; intros Hplain.
  - split; intros H; inversion H.
  - cbn [forallb] in Hplain. apply andb_true_iff in Hplain.
    destruct Hplain as [Hkw Hkws].
    rewrite !Exists_cons, (contains_lower kw text Hkw), (IH Hkws). reflexivity.
Qed.

(** C1. For every message the fallback classifier returns the dict with
    [symptoms] the one-element list of the message as given, [duration] and
    [age] the empty string, [red_flags] the empty list and an [urgency]
    that is a function of the lower-cased message alone: HIGH exactly when
    one of "chest pain", "shortness of breath", "fainting", "unconscious"
    occurs in it (whatever the MEDIUM keywords do), MEDIUM exactly when none
    of those and one of "fever", "vomit", "infection", "severe pain" occurs,
    LOW exactly when none of the eight occurs.  A keyword occurs in the
    lower-cased message exactly when it occurs in the message itself in some
    mix of small and capital letters. *)
Theorem fallback_classifier_rule (msg : string) :
  let high := fun text =>
    Exists (fun kw => occurs_in kw text)
      ["chest pain"; "shortness of breath"; "fainting"; "unconscious"] in
  let medium := fun text =>
    Exists (fun kw => occurs_in kw text)
      ["fever"; "vomit"; "infection"; "severe pain"] in
  exists urgency : string,
    fallback_classifier msg =
      <["symptoms" := PList [PStr msg]]>
      (<["duration" := PStr EmptyString]>
      (<["age" := PStr EmptyString]>
      (<["red_flags" := PList []]>
      (<["urgency" := PStr urgency]> ∅))))
    /\ (urgency = "HIGH" <-> high (lower msg))
    /\ (urgency = "MEDIUM" <-> ~ high (lower msg) /\ medium (lower msg))
    /\ (urgency = "LOW" <-> ~ high (lower msg) /\ ~ medium (lower msg))
    /\ fallback_classifier msg !! "symptoms" = Some (PList [PStr msg])
    /\ fallback_classifier msg !! "duration" = Some (PStr EmptyString)
    /\ fallback_classifier msg !! "age" = Some (PStr EmptyString)
    /\ fallback_classifier msg !! "red_flags" = Some (PList [])
    /\ fallback_classifier msg !! "urgency" = Some (PStr urgency)
    /\ (high (lower msg) <->
          Exists (fun kw => occurs_any_case kw msg)
            ["chest pain"; "shortness of breath"; "fainting"; "unconscious"])
    /\ (medium (lower msg) <->
          Exists (fun kw => occurs_any_case kw msg)
            ["fever"; "vomit"; "infection"; "severe pain"]).
Proof.
  intros high medium. exists (fallback_urgency msg).
  split; [reflexivity |].
  assert (Hh : for_break high_keywords (lower msg) = true <-> high (lower msg))
    by apply for_break_Exists.
  assert (Hm : for_break medium_keywords (lower msg) = true <-> medium (lower msg))
    by apply for_break_Exists.
  assert (Hu :
    (fallback_urgency msg = "HIGH" <-> high (lower msg))
    /\ (fallback_urgency msg = "MEDIUM" <-> ~ high (lower msg) /\ medium (lower msg))
    /\ (fallback_urgency msg = "LOW" <-> ~ high (lower msg) /\ ~ medium (lower msg))).
  { unfold fallback_urgency.
    destruct (for_break high_keywords (lower msg)) eqn:Eh;
      [| destruct (for_break medium_keywords (lower msg)) eqn:Em].
    - assert (high (lower msg)) by (apply Hh; reflexivity).
      repeat split; intros; try reflexivity; try congruence; tauto.
    - assert (~ high (lower msg)) by (intros Hc; apply Hh in Hc; discriminate).
      assert (medium (lower msg)) by (apply Hm; reflexivity).
      repeat split; intros; try reflexivity; try congruence; tauto.
    - assert (~ high (lower msg)) by (intros Hc; apply Hh in Hc; discriminate).
      assert (~ medium (lower msg)) by (intros Hc; apply Hm in Hc; discriminate).
      repeat split; intros; try reflexivity; try congruence; tauto. }
  destruct Hu as (H1 & H2 & H3).
  repeat (split; [assumption || reflexivity |]).
  split; apply keywords_any_case; reflexivity.
Qed.

Lemma append_cons (a : ascii) (s t : string) :
  String a s +:+ t = String a (s +:+ t).
Proof. reflexivity. Qed.

Lemma append_assoc (s t u : string) : (s +:+ t) +:+ u = s +:+ (t +:+ u).
Proof.
  induction s as [|a s IH]; [reflexivity |].
  rewrite !append_cons, IH. reflexivity.
Qed.


Lemma occurs_in_middle (pre kw post : string) :
  occurs_in kw (pre +:+ kw +:+ post).
Proof. exists pre, post. reflexivity. Qed.


(** ** The response renderer *)

(** C8. For every reply text, [generate_twiml_response] returns the XML
    declaration with encoding UTF-8, a line feed, and one [Response] element
    holding one [Message] element whose content is the reply text as given;
    no character is escaped: for the reply [1 < 2 & 3 > 2] the characters
    [<], [&] and [>] stand in the output as they are. *)
Theorem generate_twiml_response_verbatim :
  (forall reply : string,
     generate_twiml_response reply =
       ("<?xml version=" +:+ dquote +:+ "1.0" +:+ dquote +:+ " encoding="
        +:+ dquote +:+ "UTF-8" +:+ dquote +:+ "?>" +:+ nl
        +:+ "<Response>" +:+ nl +:+ "    <Message>")
       +:+ reply
       +:+ ("</Message>" +:+ nl +:+ "</Response>"))
  /\ (forall reply : string, occurs_in reply (generate_twiml_response reply))
  /\ occurs_in "<Message>1 < 2 & 3 > 2</Message>"
       (generate_twiml_response "1 < 2 & 3 > 2").
Proof.
  assert (H : forall reply : string,
     generate_twiml_response reply =
       ("<?xml version=" +:+ dquote +:+ "1.0" +:+ dquote +:+ " encoding="
        +:+ dquote +:+ "UTF-8" +:+ dquote +:+ "?>" +:+ nl
        +:+ "<Response>" +:+ nl +:+ "    <Message>")
       +:+ reply
       +:+ ("</Message>" +:+ nl +:+ "</Response>")) by reflexivity.
  split; [exact H | split].
  - intros reply. rewrite H. apply occurs_in_middle.
  - apply contains_occurs. vm_compute. reflexivity.
Qed.

(** ** The decision engine *)

(** What [build_response_and_state] does once its two reads succeed. *)
Lemma build_response_and_state_ok (rt : Runtime) (triage_result conversation : pydict)
    (message : string) (w : World) (topic_arn : option string)
    (user_id urgency : string) (history : list pyval) :
  get_urgency triage_result = Ok urgency ->
  get_history conversation = Ok history ->
  build_response_and_state rt triage_result conversation message w topic_arn user_id =
    if String.eqb urgency "HIGH" then
      match send_alert rt w topic_arn (alert_subject user_id)
                       (alert_message rt triage_result user_id) with
      | Ok w' =>
          (Ok reply_high,
           <["last_intent" := PStr "triage"]>
           (<["triage_level" := PStr urgency]>
           (<["history" := PList (history ++ [history_entry rt message])]> conversation)),
           w')
      | Raise e =>
          (Raise e,
           <["last_intent" := PStr "triage"]>
           (<["triage_level" := PStr urgency]>
           (<["history" := PList (history ++ [history_entry rt message])]> conversation)),
           w)
      end
    else
      (Ok (if String.eqb urgency "MEDIUM" then reply_medium else reply_low),
       <["last_intent" := PStr "triage"]>
       (<["triage_level" := PStr urgency]>
       (<["history" := PList (history ++ [history_entry rt message])]> conversation)),
       w).
Proof.
  intros Hu Hh. unfold build_response_and_state. rewrite Hu, Hh.
  destruct (String.eqb urgency "HIGH"); [reflexivity |].
  destruct (String.eqb urgency "MEDIUM"); reflexivity.
Qed.

(** The conversation it leaves, whatever becomes of the notification. *)
Lemma build_response_and_state_conversation (rt : Runtime)
    (triage_result conversation : pydict) (message : string) (w : World)
    (topic_arn : option string) (user_id urgency : string)
    (history : list pyval) :
  get_urgency triage_result = Ok urgency ->
  get_history conversation = Ok history ->
  exists (outcome : result string) (w' : World),
    build_response_and_state rt triage_result conversation message w topic_arn user_id
    = (outcome,
       <["last_intent" := PStr "triage"]>
       (<["triage_level" := PStr urgency]>
       (<["history" := PList (history ++ [history_entry rt message])]> conversation)),
       w')
    /\ ddb_up w' = ddb_up w
    /\ ddb_items w' = ddb_items w
    /\ s3_objects w' = s3_objects w
    /\ llm_requests w' = llm_requests w
    /\ ((urgency = "HIGH" ->
           exists topic : string,
             topic_arn = Some topic
             /\ sns_publish_ok rt topic (alert_subject user_id)
                  (alert_message rt triage_result user_id) = true) ->
        exists reply : string, outcome = Ok reply).
Proof.
  intros Hu Hh.
  rewrite (build_response_and_state_ok rt _ _ message w topic_arn user_id _ _ Hu Hh).
  destruct (String.eqb urgency "HIGH") eqn:Hhigh.
  - apply String.eqb_eq in Hhigh. unfold send_alert.
    destruct topic_arn as [topic |].
    + destruct (sns_publish_ok rt topic _ _) eqn:Hpub.
      * eexists _, _. split; [reflexivity |]. repeat split. eauto.
      * eexists _, _. split; [reflexivity |]. repeat split.
        intros Hacc. destruct (Hacc Hhigh) as (topic' & Ht & Hok).
        injection Ht as <-. congruence.
    + eexists _, _. split; [reflexivity |]. repeat split.
      intros Hacc. destruct (Hacc Hhigh) as (topic' & Ht & _). discriminate.
  - eexists _, _. split; [reflexivity |]. repeat split. eauto.
Qed.

(** What it returns when the notification, if one is due, is accepted. *)
Lemma build_response_and_state_returns (rt : Runtime)
    (triage_result conversation : pydict) (message : string) (w : World)
    (topic_arn : option string) (user_id urgency topic : string)
    (history : list pyval) :
  get_urgency triage_result = Ok urgency ->
  get_history conversation = Ok history ->
  (urgency = "HIGH" ->
     topic_arn = Some topic
     /\ sns_publish_ok rt topic (alert_subject user_id)
          (alert_message rt triage_result user_id) = true) ->
  build_response_and_state rt triage_result conversation message w topic_arn user_id
  = (Ok (reply_for urgency),
     <["last_intent" := PStr "triage"]>
     (<["triage_level" := PStr urgency]>
     (<["history" := PList (history ++ [history_entry rt message])]> conversation)),
     if String.eqb urgency "HIGH" then
       set_sns_published w
         (sns_published w
          ++ [(topic, alert_subject user_id,
               alert_message rt triage_result user_id)])
     else w).
Proof.
  intros Hu Hh Hacc.
  rewrite (build_response_and_state_ok rt _ _ message w topic_arn user_id _ _ Hu Hh).
  unfold reply_for. destruct (String.eqb urgency "HIGH") eqn:Hhigh; [| reflexivity].
  apply String.eqb_eq in Hhigh. destruct (Hacc Hhigh) as [-> Hok].
  unfold send_alert. rewrite Hok. reflexivity.
Qed.

Lemma get_urgency_upper (triage_result : pydict) (raw : string) :
  triage_result !! "urgency" = Some (PStr raw)
  \/ (triage_result !! "urgency" = None /\ raw = "LOW") ->
  get_urgency triage_result = Ok (upper raw).
Proof.
  unfold get_urgency. intros [-> | [-> ->]]; reflexivity.
Qed.





(** C9. Under the same reading of the inputs, the decision engine leaves
    every key of the conversation other than [history], [triage_level] and
    [last_intent] as it was, present or absent (so [user_id], [created_at]
    and [updated_at] in particular), and every entry of the old history
    stands at its index in the new one, whether the call returns or the
    notification makes it raise; it returns when no notification is due or
    SNS accepts it. *)
Theorem build_response_and_state_frame (rt : Runtime)
    (triage_result conversation : pydict) (message : string) (w : World)
    (topic_arn : option string) (user_id raw : string)
    (history : list pyval) :
  triage_result !! "urgency" = Some (PStr raw)
  \/ (triage_result !! "urgency" = None /\ raw = "LOW") ->
  get_history conversation = Ok history ->
  exists (outcome : result string) (conversation' : pydict) (w' : World)
         (history' : list pyval),
    build_response_and_state rt triage_result conversation message w topic_arn user_id
      = (outcome, conversation', w')
    /\ (forall key : string,
          key <> "history" -> key <> "triage_level" -> key <> "last_intent" ->
          conversation' !! key = conversation !! key)
    /\ conversation' !! "user_id" = conversation !! "user_id"
    /\ conversation' !! "created_at" = conversation !! "created_at"
    /\ conversation' !! "updated_at" = conversation !! "updated_at"
    /\ conversation' !! "history" = Some (PList history')
    /\ (forall (i : nat) (entry : pyval),
          history !! i = Some entry -> history' !! i = Some entry)
    /\ conversation' !! "last_intent" = Some (PStr "triage")
    /\ ((upper raw = "HIGH" ->
           exists topic : string,
             topic_arn = Some topic
             /\ sns_publish_ok rt topic (alert_subject user_id)
                  (alert_message rt triage_result user_id) = true) ->
        exists reply : string, outcome = Ok reply).
Proof.
  intros Hraw Hh. apply get_urgency_upper in Hraw.
  destruct (build_response_and_state_conversation rt _ _ message w topic_arn
              user_id _ _ Hraw Hh) as (outcome & w' & Hrun & _ & _ & _ & _ & Hret).
  rewrite Hrun. eexists _, _, _, _. split; [reflexivity |].
  assert (Hframe : forall key : string,
    key <> "history" -> key <> "triage_level" -> key <> "last_intent" ->
    (<["last_intent" := PStr "triage"]>
     (<["triage_level" := PStr (upper raw)]>
     (<["history" := PList (history ++ [history_entry rt message])]> conversation)))
      !! key = conversation !! key).
  { intros key H1 H2 H3.
    rewrite !lookup_insert_ne by congruence. reflexivity. }
  split; [exact Hframe |].
  repeat (split; [apply Hframe; discriminate |]).
  split; [| split; [| split]].
  - rewrite !lookup_insert_ne by discriminate. apply lookup_insert_eq.
  - intros i entry Hi. apply lookup_app_l_Some. exact Hi.
  - apply lookup_insert_eq.
  - exact Hret.
Qed.

Lemma build_response_and_state_frame_witness :
  (high_triage !! "urgency" = Some (PStr "high")
   \/ (high_triage !! "urgency" = None /\ "high" = "LOW"))
  /\ get_history stored_conversation = Ok [earlier_entry]
  /\ exists (outcome : result string) (conversation' : pydict) (w' : World),
       build_response_and_state (offline_runtime EmptyString []) high_triage
         stored_conversation "I have severe chest pain." empty_world
         (topic_arn test_config) "+123"
         = (outcome, conversation', w')
       /\ conversation' !! "user_id" = Some (PStr "+123")
       /\ conversation' !! "created_at" = Some (PStr "2023-11-14T19:26:40+00:00")
       /\ conversation' !! "updated_at" = Some (PStr "2023-11-14T19:26:41+00:00").
Proof.
  split; [left; reflexivity |]. split; [reflexivity |].
  destruct (build_response_and_state_frame (offline_runtime EmptyString [])
              high_triage stored_conversation "I have severe chest pain."
              empty_world (topic_arn test_config) "+123" "high" [earlier_entry]
              (or_introl eq_refl) eq_refl)
    as (outcome & conversation' & w' & history' & Hrun & _ & Hu & Hc & Hup & _).
  exists outcome, conversation', w'.
  split; [exact Hrun |]. rewrite Hu, Hc, Hup. repeat split.
Defined.

(** ** The classifier *)

(** The world after one request to the LLM endpoint. *)
Lemma classify_message_openai (rt : Runtime) (w : World) (message : string)
    (history : pyval) (provider : string) (openai_api_key : option string)
    (create : string -> list (string * string) -> result string) :
  resolve_provider rt provider = "openai" ->
  openai rt = Some create ->
  truthy_opt (resolve_api_key rt openai_api_key) = true ->
  classify_message rt w message history provider openai_api_key =
    Ok (try_except (llm_classify rt (create chat_model (chat_messages message)))
                   (PDict (fallback_classifier message)),
        set_llm_requests w
          (llm_requests w ++ [(chat_model, chat_messages message)])).
Proof.
  intros Hp Ho Hk. unfold classify_message.
  rewrite Hp, Ho, Hk. reflexivity.
Qed.

(** C4. [classify_message] returns for every message, history, provider
    and key, and it returns the fallback result, with no request sent, when
    the provider is not [openai], when the OpenAI client is not installed
    and when no API key is found; with the request sent, it returns the
    fallback result when the call raises, when the reply does not parse
    and when it parses to something that is not an object and holds no
    [urgency], and the parsed object with [urgency] set to LOW when the
    reply parses to an object without that key. *)
Theorem classify_message_never_raises (rt : Runtime) (w : World)
    (message : string) (history : pyval) (provider : string)
    (openai_api_key : option string) :
  let run := classify_message rt w message history provider openai_api_key in
  let fallback := PDict (fallback_classifier message) in
  let w_sent :=
    set_llm_requests w (llm_requests w ++ [(chat_model, chat_messages message)]) in
  (exists (v : pyval) (w' : World), run = Ok (v, w'))
  /\ (resolve_provider rt provider <> "openai" -> run = Ok (fallback, w))
  /\ (openai rt = None -> run = Ok (fallback, w))
  /\ (truthy_opt (resolve_api_key rt openai_api_key) = false ->
        run = Ok (fallback, w))
  /\ (forall create : string -> list (string * string) -> result string,
        resolve_provider rt provider = "openai" ->
        openai rt = Some create ->
        truthy_opt (resolve_api_key rt openai_api_key) = true ->
        (forall e : exn,
           create chat_model (chat_messages message) = Raise e ->
           run = Ok (fallback, w_sent))
        /\ (forall (content : string) (e : exn),
              create chat_model (chat_messages message) = Ok content ->
              json_loads rt (strip content) = Raise e ->
              run = Ok (fallback, w_sent))
        /\ (forall (content : string) (d : pydict),
              create chat_model (chat_messages message) = Ok content ->
              json_loads rt (strip content) = Ok (PDict d) ->
              d !! "urgency" = None ->
              run = Ok (PDict (<["urgency" := PStr "LOW"]> d), w_sent)
              /\ <["urgency" := PStr "LOW"]> d !! "urgency" = Some (PStr "LOW"))
        /\ (forall (content : string) (v : pyval),
              create chat_model (chat_messages message) = Ok content ->
              json_loads rt (strip content) = Ok v ->
              (forall d : pydict, v <> PDict d) ->
              py_in "urgency" v <> Ok true ->
              run = Ok (fallback, w_sent))).
Proof.
  intros run fallback w_sent. subst run.
  split; [| split; [| split; [| split]]].
  - unfold classify_message.
    destruct (if String.eqb (resolve_provider rt provider) "openai"
              then openai rt else None) as [create |]; [| eauto].
    destruct (negb (truthy_opt (resolve_api_key rt openai_api_key))); eauto.
  - intros Hp. apply String.eqb_neq in Hp.
    unfold classify_message. rewrite Hp. reflexivity.
  - intros Ho. unfold classify_message. rewrite Ho.
    destruct (String.eqb (resolve_provider rt provider) "openai"); reflexivity.
  - intros Hk. unfold classify_message. rewrite Hk.
    destruct (if String.eqb (resolve_provider rt provider) "openai"
              then openai rt else None); reflexivity.
  - intros create Hp Ho Hk.
    rewrite (classify_message_openai rt w message history provider openai_api_key
               create Hp Ho Hk).
    split; [| split; [| split]].
    + intros e ->. reflexivity.
    + intros content e -> Hj. unfold llm_classify. cbn [mbind result_bind].
      rewrite Hj. reflexivity.
    + intros content d -> Hj Hd. unfold llm_classify. cbn [mbind result_bind].
      rewrite Hj. cbn [mbind result_bind py_in]. rewrite Hd.
      split; [reflexivity | apply lookup_insert_eq].
    + intros content v -> Hj Hv Hin. unfold llm_classify.
      cbn [mbind result_bind]. rewrite Hj. cbn [mbind result_bind].
      destruct v as [| b | z | m e | s | l | d];
        try reflexivity; [| | exfalso; apply (Hv d); reflexivity].
      * cbn [py_in] in Hin |- *. cbn [mbind result_bind].
        destruct (contains "urgency" s); [congruence | reflexivity].
      * cbn [py_in] in Hin |- *. cbn [mbind result_bind].
        destruct (existsb _ l); [congruence | reflexivity].
Qed.

Lemma classify_message_never_raises_witness :
  resolve_provider (llm_runtime "I cannot help with that." (Raise ValueError))
    "openai" = "openai"
  /\ truthy_opt (resolve_api_key
                   (llm_runtime "I cannot help with that." (Raise ValueError))
                   None) = true
  /\ classify_message (llm_runtime "I cannot help with that." (Raise ValueError))
       empty_world "Sudden chest pain" (PList []) "openai" None
     = Ok (PDict (fallback_classifier "Sudden chest pain"),
           set_llm_requests empty_world
             [(chat_model, chat_messages "Sudden chest pain")])
  /\ fallback_classifier "Sudden chest pain" !! "urgency" = Some (PStr "HIGH").
Proof.
  split; [reflexivity |]. split; [reflexivity |]. split; [| reflexivity].
  destruct (classify_message_never_raises
              (llm_runtime "I cannot help with that." (Raise ValueError))
              empty_world "Sudden chest pain" (PList []) "openai" None)
    as (_ & _ & _ & _ & Hllm).
  destruct (Hllm (fun _ _ => Ok "I cannot help with that.")
              eq_refl eq_refl eq_refl) as (_ & Hparse & _).
  exact (Hparse "I cannot help with that." ValueError eq_refl eq_refl).
Defined.

(** C10. When the request to the model succeeds and its reply parses to an
    object, [classify_message] returns that object, with [urgency] set to
    LOW if the object has no such key and as it is otherwise: every other
    key is returned as parsed, so each of [symptoms], [duration], [age] and
    [red_flags] that the reply lacks is lacking in the result. *)
Theorem classify_message_llm_object (rt : Runtime) (w : World)
    (message : string) (history : pyval) (provider : string)
    (openai_api_key : option string)
    (create : string -> list (string * string) -> result string)
    (content : string) (d : pydict) :
  resolve_provider rt provider = "openai" ->
  openai rt = Some create ->
  truthy_opt (resolve_api_key rt openai_api_key) = true ->
  create chat_model (chat_messages message) = Ok content ->
  json_loads rt (strip content) = Ok (PDict d) ->
  exists d' : pydict,
    classify_message rt w message history provider openai_api_key =
      Ok (PDict d',
          set_llm_requests w
            (llm_requests w ++ [(chat_model, chat_messages message)]))
    /\ d' = match d !! "urgency" with
            | Some _ => d
            | None => <["urgency" := PStr "LOW"]> d
            end
    /\ is_Some (d' !! "urgency")
    /\ (forall key : string, key <> "urgency" -> d' !! key = d !! key)
    /\ (forall key : string,
          In key ["symptoms"; "duration"; "age"; "red_flags"] ->
          d !! key = None -> d' !! key = None).
Proof.
  intros Hp Ho Hk Hc Hj.
  rewrite (classify_message_openai rt w message history provider openai_api_key
             create Hp Ho Hk).
  unfold llm_classify. rewrite Hc. cbn [mbind result_bind].
  rewrite Hj. cbn [mbind result_bind py_in].
  assert (Hother : forall key : string, key <> "urgency" ->
            match d !! "urgency" with
            | Some _ => d
            | None => <["urgency" := PStr "LOW"]> d
            end !! key = d !! key).
  { intros key Hne. destruct (d !! "urgency"); [reflexivity |].
    apply lookup_insert_ne. congruence. }
  exists (match d !! "urgency" with
          | Some _ => d
          | None => <["urgency" := PStr "LOW"]> d
          end).
  split; [| split; [reflexivity | split; [| split]]].
  - destruct (d !! "urgency") eqn:Hd; reflexivity.
  - destruct (d !! "urgency") eqn:Hd.
    + rewrite Hd. eauto.
    + rewrite lookup_insert_eq. eauto.
  - exact Hother.
  - intros key Hin Hnone. rewrite Hother; [exact Hnone |].
    cbn [In] in Hin. intuition (subst; discriminate).
Qed.

Lemma classify_message_llm_object_witness :
  resolve_provider (llm_runtime "{}" (Ok (PDict ∅))) "openai" = "openai"
  /\ truthy_opt (resolve_api_key (llm_runtime "{}" (Ok (PDict ∅))) None) = true
  /\ json_loads (llm_runtime "{}" (Ok (PDict ∅))) (strip "{}") = Ok (PDict ∅)
  /\ exists d' : pydict,
       classify_message (llm_runtime "{}" (Ok (PDict ∅))) empty_world
         "Sudden chest pain" (PList []) "openai" None
       = Ok (PDict d',
             set_llm_requests empty_world
               [(chat_model, chat_messages "Sudden chest pain")])
       /\ d' = <["urgency" := PStr "LOW"]> ∅
       /\ d' !! "symptoms" = None
       /\ d' !! "duration" = None
       /\ d' !! "age" = None
       /\ d' !! "red_flags" = None.
Proof.
  split; [reflexivity |]. split; [reflexivity |]. split; [reflexivity |].
  destruct (classify_message_llm_object (llm_runtime "{}" (Ok (PDict ∅)))
              empty_world "Sudden chest pain" (PList []) "openai" None
              (fun _ _ => Ok "{}") "{}" ∅
              eq_refl eq_refl eq_refl eq_refl eq_refl)
    as (d' & Hrun & Hd' & _ & _ & Hmissing).
  exists d'. split; [exact Hrun |]. split; [exact Hd' |].
  repeat split; apply Hmissing; cbn [In]; tauto || reflexivity.
Defined.

(** ** The signature verifier *)

Lemma get_In (n : nat) (s : string) (c : ascii) :
  String.get n s = Some c -> In c (list_ascii_of_string s).
Proof.
  revert n. induction s as [|a s IH]; intros n H; [discriminate |].
  destruct n as [|n]; cbn in H |- *.
  - left. congruence.
  - right. eapply IH. exact H.
Qed.

Lemma b64_char_ascii (i : Z) : (nat_of_ascii (Sha1.b64_char i) <? 128)%nat = true.
Proof.
  unfold Sha1.b64_char.
  destruct (String.get (Z.to_nat i) Sha1.b64_alphabet) as [c |] eqn:E;
    [| reflexivity].
  apply get_In in E.
  assert (H : forallb (fun c => (nat_of_ascii c <? 128)%nat)
                (list_ascii_of_string Sha1.b64_alphabet) = true)
    by (vm_compute; reflexivity).
  rewrite forallb_forall in H. apply H. exact E.
Qed.

Lemma is_ascii_of_list (l : list ascii) :
  is_ascii (string_of_list_ascii l) =
  forallb (fun c => (nat_of_ascii c <? 128)%nat) l.
Proof.
  induction l as [|c l IH]; [reflexivity |].
  cbn [string_of_list_ascii is_ascii forallb]. rewrite IH. reflexivity.
Qed.

Lemma b64_groups_ascii (fuel : nat) (bs : list Z) :
  forallb (fun c => (nat_of_ascii c <? 128)%nat) (Sha1.b64_groups fuel bs) = true.
Proof.
  revert bs. induction fuel as [|fuel IH]; intros bs; [reflexivity |].
  destruct bs as [|a [|b [|c rest]]]; cbn [Sha1.b64_groups]; [reflexivity | | |].
  - cbn [forallb]. rewrite !b64_char_ascii. reflexivity.
  - cbn [forallb]. rewrite !b64_char_ascii. reflexivity.
  - rewrite forallb_app, IH. cbn [forallb]. rewrite !b64_char_ascii. reflexivity.
Qed.

Lemma b64encode_ascii (bs : list Z) : is_ascii (Sha1.b64encode bs) = true.
Proof.
  unfold Sha1.b64encode. rewrite is_ascii_of_list. apply b64_groups_ascii.
Qed.

Lemma computed_signature_ascii (url : string) (flat : list (string * string))
    (auth_token : string) :
  is_ascii (computed_signature url flat auth_token) = true.
Proof. apply b64encode_ascii. Qed.

(** A signature that is not ASCII makes the manual comparison raise. *)
Lemma verify_twilio_signature_non_ascii :
  verify_twilio_signature (offline_runtime EmptyString [])
    (String (ascii_of_nat 195) (String (ascii_of_nat 169) EmptyString))
    webhook_url [] "test-token"
  = Raise TypeError.
Proof. vm_compute. reflexivity. Qed.

(** C6, as the code has it.  Without the Twilio validator, for every url,
    every parameter list whose keys each have a first value, every auth
    token, the empty one included, and every ASCII-only signature,
    [verify_twilio_signature] returns, and it returns whether the signature
    is the base64 HMAC-SHA1, keyed by the token, of the url followed by the
    sorted key-value pairs: false for every other signature, true for that
    one. *)
Theorem verify_twilio_signature_manual (rt : Runtime) (signature url : string)
    (params : list (string * list string)) (flat : list (string * string))
    (auth_token : string) :
  RequestValidator rt = None ->
  flatten_params params = Ok flat ->
  is_ascii signature = true ->
  verify_twilio_signature rt signature url params auth_token =
    Ok (String.eqb (computed_signature url flat auth_token) signature)
  /\ (signature <> computed_signature url flat auth_token ->
        verify_twilio_signature rt signature url params auth_token = Ok false)
  /\ (signature = computed_signature url flat auth_token ->
        verify_twilio_signature rt signature url params auth_token = Ok true).
Proof.
  intros Hlib Hflat Hsig.
  assert (Hrun : verify_twilio_signature rt signature url params auth_token =
                 Ok (String.eqb (computed_signature url flat auth_token) signature)).
  { unfold verify_twilio_signature. rewrite Hlib, Hflat.
    cbn [mbind result_bind]. unfold compare_digest.
    rewrite computed_signature_ascii, Hsig. reflexivity. }
  split; [exact Hrun | split].
  - intros Hne. rewrite Hrun. f_equal. apply String.eqb_neq. congruence.
  - intros ->. rewrite Hrun. f_equal. apply String.eqb_refl.
Qed.

Lemma verify_twilio_signature_manual_witness :
  RequestValidator (offline_runtime EmptyString []) = None
  /\ flatten_params blank_body_params = Ok [("From", "+123"); ("Body", "   ")]
  /\ is_ascii "dummy-signature" = true
  /\ verify_twilio_signature (offline_runtime EmptyString []) "dummy-signature"
       webhook_url blank_body_params "test-token" = Ok false.
Proof.
  split; [reflexivity |]. split; [reflexivity |]. split; [reflexivity |].
  destruct (verify_twilio_signature_manual (offline_runtime EmptyString [])
              "dummy-signature" webhook_url blank_body_params
              [("From", "+123"); ("Body", "   ")] "test-token"
              eq_refl eq_refl eq_refl) as (_ & Hne & _).
  apply Hne. vm_compute. discriminate.
Defined.

(** C6, as stated, fails: with the empty auth token, the signature computed
    under the empty key is accepted. *)
Lemma verify_twilio_signature_empty_token :
  verify_twilio_signature (offline_runtime EmptyString [])
    empty_token_signature webhook_url [] EmptyString = Ok true
  /\ verify_twilio_signature (offline_runtime EmptyString [])
       empty_token_signature webhook_url [] EmptyString <> Ok false.
Proof.
  assert (H : verify_twilio_signature (offline_runtime EmptyString [])
                empty_token_signature webhook_url [] EmptyString = Ok true)
    by (vm_compute; reflexivity).
  split; [exact H | rewrite H; discriminate].
Qed.

(** ** The request handler *)

(** C5. For every request whose signature check returns false, the handler
    answers 403 and leaves the world as it found it: no item stored, no
    transcript uploaded, no notification published, no request sent to the
    model. *)
Theorem lambda_handler_invalid_signature (rt : Runtime) (cfg : Config)
    (event : Event) (w : World) :
  verify_twilio_signature rt (request_signature event) (request_url event)
    (request_params rt event) (default EmptyString (twilio_auth_token cfg))
    = Ok false ->
  exists response : Response,
    lambda_handler rt cfg event w = Ok (response, w)
    /\ statusCode response = 403
    /\ resp_body response = "Invalid signature".
Proof.
  intros Hv. unfold lambda_handler. rewrite Hv. cbn [mbind result_bind negb].
  eexists. split; [reflexivity |]. split; reflexivity.
Qed.

Lemma lambda_handler_invalid_signature_witness :
  verify_twilio_signature (offline_runtime blank_from_body blank_from_params)
    (request_signature (webhook_event blank_from_body "dummy-signature"))
    (request_url (webhook_event blank_from_body "dummy-signature"))
    (request_params (offline_runtime blank_from_body blank_from_params)
                    (webhook_event blank_from_body "dummy-signature"))
    (default EmptyString (twilio_auth_token test_config))
    = Ok false
  /\ exists response : Response,
       lambda_handler (offline_runtime blank_from_body blank_from_params)
         test_config (webhook_event blank_from_body "dummy-signature")
         empty_world = Ok (response, empty_world)
       /\ statusCode response = 403.
Proof.
  assert (Hv : verify_twilio_signature
                 (offline_runtime blank_from_body blank_from_params)
                 (request_signature (webhook_event blank_from_body "dummy-signature"))
                 (request_url (webhook_event blank_from_body "dummy-signature"))
                 (request_params (offline_runtime blank_from_body blank_from_params)
                                 (webhook_event blank_from_body "dummy-signature"))
                 (default EmptyString (twilio_auth_token test_config))
               = Ok false) by (vm_compute; reflexivity).
  split; [exact Hv |].
  destruct (lambda_handler_invalid_signature
              (offline_runtime blank_from_body blank_from_params) test_config
              (webhook_event blank_from_body "dummy-signature") empty_world Hv)
    as (response & Hrun & Hstatus & _).
  exists response. split; [exact Hrun | exact Hstatus].
Defined.

(** C7, as the code has it.  For every request that passes the signature
    check and whose [From] is empty as sent, or whose [Body] is empty once
    stripped, the handler answers 400 and leaves the world as it found
    it. *)
Theorem lambda_handler_missing_field (rt : Runtime) (cfg : Config)
    (event : Event) (w : World) (user_id body_value : string) :
  verify_twilio_signature rt (request_signature event) (request_url event)
    (request_params rt event) (default EmptyString (twilio_auth_token cfg))
    = Ok true ->
  first_item (items_get "From" (request_params rt event) [EmptyString])
    = Ok user_id ->
  first_item (items_get "Body" (request_params rt event) [EmptyString])
    = Ok body_value ->
  user_id = EmptyString \/ strip body_value = EmptyString ->
  exists response : Response,
    lambda_handler rt cfg event w = Ok (response, w)
    /\ statusCode response = 400
    /\ resp_body response = "Missing From or Body parameter".
Proof.
  intros Hv Hfrom Hbody Hempty. unfold lambda_handler.
  rewrite Hv. cbn [mbind result_bind negb].
  rewrite Hfrom. cbn [mbind result_bind].
  rewrite Hbody. cbn [mbind result_bind].
  assert (Hcond : negb (truthy user_id) || negb (truthy (strip body_value)) = true).
  { destruct Hempty as [-> | ->]; [reflexivity |].
    apply orb_true_r. }
  rewrite Hcond. eexists. split; [reflexivity |]. split; reflexivity.
Qed.

Lemma lambda_handler_missing_field_witness :
  verify_twilio_signature (offline_runtime wide_blank_body wide_blank_params)
    (request_signature (webhook_event wide_blank_body wide_blank_signature))
    (request_url (webhook_event wide_blank_body wide_blank_signature))
    (request_params (offline_runtime wide_blank_body wide_blank_params)
                    (webhook_event wide_blank_body wide_blank_signature))
    (default EmptyString (twilio_auth_token test_config))
    = Ok true
  /\ strip wide_blank = EmptyString
  /\ exists response : Response,
       lambda_handler (offline_runtime wide_blank_body wide_blank_params)
         test_config (webhook_event wide_blank_body wide_blank_signature)
         empty_world = Ok (response, empty_world)
       /\ statusCode response = 400.
Proof.
  assert (Hv : verify_twilio_signature
                 (offline_runtime wide_blank_body wide_blank_params)
                 (request_signature (webhook_event wide_blank_body wide_blank_signature))
                 (request_url (webhook_event wide_blank_body wide_blank_signature))
                 (request_params (offline_runtime wide_blank_body wide_blank_params)
                                 (webhook_event wide_blank_body wide_blank_signature))
                 (default EmptyString (twilio_auth_token test_config))
               = Ok true) by (vm_compute; reflexivity).
  assert (Hblank : strip wide_blank = EmptyString) by (vm_compute; reflexivity).
  assert (Hfrom : first_item (items_get "From"
                    (request_params (offline_runtime wide_blank_body wide_blank_params)
                       (webhook_event wide_blank_body wide_blank_signature))
                    [EmptyString]) = Ok "+123") by reflexivity.
  assert (Hbody : first_item (items_get "Body"
                    (request_params (offline_runtime wide_blank_body wide_blank_params)
                       (webhook_event wide_blank_body wide_blank_signature))
                    [EmptyString]) = Ok wide_blank) by reflexivity.
  split; [exact Hv |]. split; [exact Hblank |].
  destruct (lambda_handler_missing_field
              (offline_runtime wide_blank_body wide_blank_params) test_config
              (webhook_event wide_blank_body wide_blank_signature) empty_world
              "+123" wide_blank Hv Hfrom Hbody (or_intror Hblank))
    as (response & Hrun & Hstatus & _).
  exists response. split; [exact Hrun | exact Hstatus].
Defined.

(** C7, as stated, fails: a request that passes the signature check and
    whose [From] is one space, so empty once stripped, is answered 200 with
    the self-care reply, its conversation is stored under that key and its
    transcript uploaded. *)
Lemma lambda_handler_blank_from :
  verify_twilio_signature (offline_runtime blank_from_body blank_from_params)
    (request_signature (webhook_event blank_from_body blank_from_signature))
    (request_url (webhook_event blank_from_body blank_from_signature))
    (request_params (offline_runtime blank_from_body blank_from_params)
                    (webhook_event blank_from_body blank_from_signature))
    (default EmptyString (twilio_auth_token test_config))
    = Ok true
  /\ first_item (items_get "From" blank_from_params [EmptyString]) = Ok " "
  /\ strip " " = EmptyString
  /\ lambda_handler (offline_runtime blank_from_body blank_from_params)
       test_config (webhook_event blank_from_body blank_from_signature)
       empty_world
     = Ok ({| statusCode := 200;
              resp_headers := [("Content-Type", "application/xml")];
              resp_body := generate_twiml_response reply_low |},
           {| ddb_up := true;
              ddb_items :=
                <[" " :=
                    <["updated_at" := PStr "2023-11-14T22:13:20+00:00"]>
                    (<["last_intent" := PStr "triage"]>
                    (<["triage_level" := PStr "LOW"]>
                    (<["history" :=
                         PList [history_entry
                                  (offline_runtime blank_from_body blank_from_params)
                                  "hello"]]>
                    (new_conversation
                       (offline_runtime blank_from_body blank_from_params) " "))))]> ∅;
              s3_objects :=
                <[("test-bucket", " /transcript_20231114T221320Z.txt") :=
                    "1700000000: hello"]> ∅;
              sns_published := [];
              llm_requests := [] |}).
Proof.
  split; [vm_compute; reflexivity |].
  split; [reflexivity |]. split; [reflexivity |].
  vm_compute. reflexivity.
Qed.

(* ===================================================================== *)
(** * Further properties *)
(* ===================================================================== *)

(** ** The fallback classifier, continued *)

Lemma lower_lower_char (c : ascii) : lower_char (lower_char c) = lower_char c.
Proof.
  destruct c as [[] [] [] [] [] [] [] []]; vm_compute; reflexivity.
Qed.

Lemma lower_lower (s : string) : lower (lower s) = lower s.
Proof.
  induction s as [|c s IH]; [reflexivity |].
  unfold lower in *. cbn [map_string]. rewrite lower_lower_char, IH.
  reflexivity.
Qed.

Lemma lower_append (s t : string) : lower (s +:+ t) = lower s +:+ lower t.
Proof.
  induction s as [|c s IH]; [reflexivity |].
  unfold lower in *. rewrite append_cons. cbn [map_string].
  rewrite IH. reflexivity.
Qed.

Lemma lower_char_capital (a b : ascii) :
  (65 <=? nat_of_ascii a)%nat && (nat_of_ascii a <=? 90)%nat
    && (nat_of_ascii a + 32 =? nat_of_ascii b)%nat = true ->
  lower_char a = b /\ lower_char b = b.
Proof.
  intros H. apply andb_true_iff in H as [H Heq].
  apply Nat.eqb_eq in Heq. unfold lower_char, is_upper_ascii. cbv zeta.
  rewrite H, Heq, ascii_nat_embedding. split; [reflexivity |].
  apply andb_true_iff in H as [H1 H2].
  apply Nat.leb_le in H1. apply Nat.leb_le in H2.
  replace (nat_of_ascii b <=? 90)%nat with false
    by (symmetry; apply Nat.leb_gt; lia).
  rewrite andb_false_r. reflexivity.
Qed.

Lemma same_char_any_case_lower (a b : ascii) :
  same_char_any_case a b = true -> lower_char a = lower_char b.
Proof.
  unfold same_char_any_case. cbv zeta. intros H.
  apply orb_true_iff in H as [H | H]; [apply orb_true_iff in H as [H | H] |].
  - apply Ascii.eqb_eq in H. rewrite H. reflexivity.
  - apply lower_char_capital in H as [-> ->]. reflexivity.
  - apply lower_char_capital in H as [-> ->]. reflexivity.
Qed.

Lemma same_any_case_lower (s t : string) :
  same_any_case s t = true -> lower s = lower t.
Proof.
  revert t. induction s as [|a s IH]; intros [|b t] H;
    try discriminate H; [reflexivity |].
  cbn [same_any_case] in H. apply andb_true_iff in H as [Hc Hs].
  unfold lower in *. cbn [map_string].
  rewrite (same_char_any_case_lower _ _ Hc), (IH _ Hs). reflexivity.
Qed.

(** X1. The fallback classifier ignores the case of the letters A to Z:
    two messages that differ in nothing else get the same urgency, and so
    do a message and the message with those letters made small. *)
Theorem fallback_classifier_ignores_case (msg msg' : string) :
  same_any_case msg msg' = true ->
  fallback_classifier msg !! "urgency" = fallback_classifier msg' !! "urgency"
  /\ fallback_classifier (lower msg) !! "urgency"
     = fallback_classifier msg !! "urgency".
Proof.
  intros Hsame.
  assert (Hu : fallback_urgency msg = fallback_urgency msg')
    by (unfold fallback_urgency; rewrite (same_any_case_lower _ _ Hsame);
        reflexivity).
  assert (Hl : fallback_urgency (lower msg) = fallback_urgency msg)
    by (unfold fallback_urgency; rewrite lower_lower; reflexivity).
  split.
  - change (Some (PStr (fallback_urgency msg))
            = Some (PStr (fallback_urgency msg'))). rewrite Hu. reflexivity.
  - change (Some (PStr (fallback_urgency (lower msg)))
            = Some (PStr (fallback_urgency msg))). rewrite Hl. reflexivity.
Qed.

Lemma fallback_classifier_ignores_case_witness :
  same_any_case "I have CHEST Pain" "i have chest pain" = true
  /\ fallback_classifier "I have CHEST Pain" !! "urgency" = Some (PStr "HIGH")
  /\ fallback_classifier "i have chest pain" !! "urgency" = Some (PStr "HIGH").
Proof.
  split; [reflexivity |].
  destruct (fallback_classifier_ignores_case "I have CHEST Pain"
              "i have chest pain" eq_refl) as [Hsame _].
  split; [| rewrite <- Hsame]; vm_compute; reflexivity.
Defined.

Lemma occurs_in_extend (kw text pre post : string) :
  occurs_in kw text -> occurs_in kw (pre +:+ text +:+ post).
Proof.
  intros [a [b ->]]. exists (pre +:+ a), (b +:+ post).
  rewrite !append_assoc. reflexivity.
Qed.

Lemma for_break_extend (kws : list string) (text pre post : string) :
  for_break kws text = true -> for_break kws (pre +:+ text +:+ post) = true.
Proof.
  rewrite !for_break_Exists, !Exists_exists.
  intros [kw [Hin Hocc]]. exists kw. split; [exact Hin |].
  apply occurs_in_extend. exact Hocc.
Qed.

(** X2. Text around a message never lowers its urgency: a message that is
    HIGH stays HIGH inside any longer message, and a message that is MEDIUM
    becomes MEDIUM or HIGH, never LOW. *)
Theorem fallback_urgency_monotone (msg pre post : string) :
  (fallback_urgency msg = "HIGH" ->
     fallback_urgency (pre +:+ msg +:+ post) = "HIGH")
  /\ (fallback_urgency msg = "MEDIUM" ->
        fallback_urgency (pre +:+ msg +:+ post) = "MEDIUM"
        \/ fallback_urgency (pre +:+ msg +:+ post) = "HIGH").
Proof.
  unfold fallback_urgency. rewrite !lower_append.
  destruct (for_break high_keywords (lower msg)) eqn:Eh.
  - rewrite (for_break_extend _ _ (lower pre) (lower post) Eh).
    split; [reflexivity | discriminate].
  - destruct (for_break medium_keywords (lower msg)) eqn:Em.
    + rewrite (for_break_extend _ _ (lower pre) (lower post) Em).
      split; [discriminate |]. intros _.
      destruct (for_break high_keywords (lower pre +:+ lower msg +:+ lower post));
        [right | left]; reflexivity.
    + split; discriminate.
Qed.

Lemma fallback_urgency_monotone_witness :
  fallback_urgency "chest pain" = "HIGH"
  /\ fallback_urgency ("I have a fever and " +:+ "chest pain" +:+ " since noon")
     = "HIGH".
Proof.
  split; [reflexivity |].
  apply (proj1 (fallback_urgency_monotone "chest pain" "I have a fever and "
                  " since noon")).
  reflexivity.
Defined.

Lemma fallback_urgency_range (msg : string) :
  fallback_urgency msg = "HIGH" \/ fallback_urgency msg = "MEDIUM"
  \/ fallback_urgency msg = "LOW".
Proof.
  unfold fallback_urgency.
  destruct (for_break high_keywords (lower msg)); [left; reflexivity |].
  destruct (for_break medium_keywords (lower msg)); right;
    [left | right]; reflexivity.
Qed.

Lemma fallback_urgency_upper (msg : string) :
  upper (fallback_urgency msg) = fallback_urgency msg.
Proof.
  destruct (fallback_urgency_range msg) as [-> | [-> | ->]]; reflexivity.
Qed.

Lemma get_urgency_fallback (msg : string) :
  get_urgency (fallback_classifier msg) = Ok (fallback_urgency msg).
Proof.
  unfold get_urgency.
  change (fallback_classifier msg !! "urgency")
    with (Some (PStr (fallback_urgency msg))).
  cbv beta iota. rewrite fallback_urgency_upper. reflexivity.
Qed.

(** X3. The decision engine on a fallback result, for every message
    classified by the fallback and every conversation whose history is a
    list or absent: [triage_level] becomes the fallback urgency in every
    case; when that urgency is not HIGH the engine returns its reply and
    leaves the world alone; when it is HIGH and SNS accepts the
    notification the engine returns the emergency reply with one
    notification published; when it is HIGH and no topic is configured or
    SNS refuses, the engine raises with nothing published. *)
Theorem build_response_and_state_on_fallback (rt : Runtime)
    (classified message : string) (conversation : pydict) (w : World)
    (topic_arn : option string) (user_id : string) (history : list pyval) :
  get_history conversation = Ok history ->
  exists (outcome : result string) (conversation' : pydict) (w' : World),
    build_response_and_state rt (fallback_classifier classified) conversation
      message w topic_arn user_id
    = (outcome, conversation', w')
    /\ conversation' !! "triage_level" = Some (PStr (fallback_urgency classified))
    /\ (fallback_urgency classified <> "HIGH" ->
          outcome = Ok (reply_for (fallback_urgency classified)) /\ w' = w)
    /\ (fallback_urgency classified = "HIGH" ->
          forall topic : string,
            topic_arn = Some topic ->
            sns_publish_ok rt topic (alert_subject user_id)
              (alert_message rt (fallback_classifier classified) user_id) = true ->
            outcome = Ok reply_high
            /\ length (sns_published w') = S (length (sns_published w)))
    /\ (fallback_urgency classified = "HIGH" ->
          topic_arn = None
          \/ (exists topic : string,
                topic_arn = Some topic
                /\ sns_publish_ok rt topic (alert_subject user_id)
                     (alert_message rt (fallback_classifier classified) user_id)
                   = false) ->
          (exists e : exn, outcome = Raise e) /\ w' = w).
Proof.
  intros Hh.
  rewrite (build_response_and_state_ok rt _ _ message w topic_arn user_id _ _
             (get_urgency_fallback classified) Hh).
  destruct (String.eqb (fallback_urgency classified) "HIGH") eqn:Hhigh.
  - apply String.eqb_eq in Hhigh.
    destruct (send_alert rt w topic_arn (alert_subject user_id)
                (alert_message rt (fallback_classifier classified) user_id))
      as [w1 | e] eqn:Hsend;
      eexists _, _, _; (split; [reflexivity |]);
      (split; [rewrite lookup_insert_ne by discriminate; apply lookup_insert_eq |]);
      (split; [intros Hne; contradiction |]);
      unfold send_alert in Hsend; split.
    + intros _ topic -> Hok. rewrite Hok in Hsend. injection Hsend as <-.
      split; [reflexivity |]. cbn [set_sns_published sns_published].
      rewrite length_app. cbn [length]. lia.
    + intros _ [-> | (topic & -> & Hno)]; [discriminate Hsend |].
      rewrite Hno in Hsend. discriminate Hsend.
    + intros _ topic -> Hok. rewrite Hok in Hsend. discriminate Hsend.
    + intros _ _. split; [exists e |]; reflexivity.
  - pose proof Hhigh as Hne. apply String.eqb_neq in Hne.
    eexists _, _, _. split; [reflexivity |].
    split; [rewrite lookup_insert_ne by discriminate; apply lookup_insert_eq |].
    split; [| split; intros Hc; contradiction].
    intros _. unfold reply_for. rewrite Hhigh. split; reflexivity.
Qed.

Lemma build_response_and_state_on_fallback_witness :
  get_history stored_conversation = Ok [earlier_entry]
  /\ fallback_urgency "I have chest pain" = "HIGH"
  /\ exists (outcome : result string) (conversation' : pydict) (w' : World),
       build_response_and_state (offline_runtime EmptyString [])
         (fallback_classifier "I have chest pain") stored_conversation
         "I have chest pain" empty_world None "+123"
       = (outcome, conversation', w')
       /\ (exists e : exn, outcome = Raise e)
       /\ w' = empty_world
       /\ conversation' !! "triage_level" = Some (PStr "HIGH").
Proof.
  split; [reflexivity |]. split; [reflexivity |].
  destruct (build_response_and_state_on_fallback (offline_runtime EmptyString [])
              "I have chest pain" "I have chest pain"
              stored_conversation empty_world None "+123"
              [earlier_entry] eq_refl)
    as (outcome & conversation' & w' & Hrun & Hlevel & _ & _ & Hraise).
  destruct (Hraise eq_refl (or_introl eq_refl)) as [He Hw].
  exists outcome, conversation', w'.
  split; [exact Hrun |]. split; [exact He |]. split; [exact Hw | exact Hlevel].
Defined.

(** ** The classifier, continued *)

(** X4. [classify_message] touches nothing but the LLM endpoint, and sends
    it at most one request: DynamoDB, S3 and SNS are as before; the request
    log is as before or one longer, and it is longer only when the provider
    resolves to [openai], the client is installed and a key is found. *)
Theorem classify_message_world (rt : Runtime) (w : World) (message : string)
    (history : pyval) (provider : string) (openai_api_key : option string) :
  exists (v : pyval) (w' : World),
    classify_message rt w message history provider openai_api_key = Ok (v, w')
    /\ ddb_up w' = ddb_up w
    /\ ddb_items w' = ddb_items w
    /\ s3_objects w' = s3_objects w
    /\ sns_published w' = sns_published w
    /\ (llm_requests w' = llm_requests w
        \/ llm_requests w' = llm_requests w ++ [(chat_model, chat_messages message)])
    /\ (llm_requests w' <> llm_requests w ->
          resolve_provider rt provider = "openai"
          /\ is_Some (openai rt)
          /\ truthy_opt (resolve_api_key rt openai_api_key) = true).
Proof.
  unfold classify_message.
  destruct (String.eqb (resolve_provider rt provider) "openai") eqn:Hp.
  - apply String.eqb_eq in Hp.
    destruct (openai rt) as [create |] eqn:Ho.
    + destruct (truthy_opt (resolve_api_key rt openai_api_key)) eqn:Hk;
        cbn [negb].
      * eexists _, _. split; [reflexivity |].
        cbn [set_llm_requests ddb_up ddb_items s3_objects sns_published llm_requests].
        repeat split; eauto.
      * eexists _, _. split; [reflexivity |].
        repeat split; try reflexivity; [left; reflexivity | congruence..].
    + eexists _, _. split; [reflexivity |].
      repeat split; try reflexivity; [left; reflexivity | congruence..].
  - eexists _, _. split; [reflexivity |].
    repeat split; try reflexivity; [left; reflexivity | congruence..].
Qed.

(** X5. A reply that parses to a value in which ["urgency"] is found is
    returned as it is, whatever its type: an object with that key, but also
    a list with the element ["urgency"] or a string containing it.  The
    result of [classify_message] is then not a dict. *)
Theorem classify_message_returns_parsed (rt : Runtime) (w : World)
    (message : string) (history : pyval) (provider : string)
    (openai_api_key : option string)
    (create : string -> list (string * string) -> result string)
    (content : string) (v : pyval) :
  resolve_provider rt provider = "openai" ->
  openai rt = Some create ->
  truthy_opt (resolve_api_key rt openai_api_key) = true ->
  create chat_model (chat_messages message) = Ok content ->
  json_loads rt (strip content) = Ok v ->
  py_in "urgency" v = Ok true ->
  classify_message rt w message history provider openai_api_key =
    Ok (v, set_llm_requests w
             (llm_requests w ++ [(chat_model, chat_messages message)])).
Proof.
  intros Hp Ho Hk Hc Hj Hin.
  rewrite (classify_message_openai rt w message history provider openai_api_key
             create Hp Ho Hk).
  unfold llm_classify. rewrite Hc. cbn [mbind result_bind].
  rewrite Hj. cbn [mbind result_bind]. rewrite Hin. reflexivity.
Qed.

Lemma classify_message_returns_parsed_witness :
  py_in "urgency" (PList [PStr "urgency"; PStr "HIGH"]) = Ok true
  /\ classify_message
       (llm_runtime "[urgency, HIGH]" (Ok (PList [PStr "urgency"; PStr "HIGH"])))
       empty_world "Sudden chest pain" (PList []) "openai" None
     = Ok (PList [PStr "urgency"; PStr "HIGH"],
           set_llm_requests empty_world
             [(chat_model, chat_messages "Sudden chest pain")]).
Proof.
  split; [reflexivity |].
  exact (classify_message_returns_parsed
           (llm_runtime "[urgency, HIGH]" (Ok (PList [PStr "urgency"; PStr "HIGH"])))
           empty_world "Sudden chest pain" (PList []) "openai" None
           (fun _ _ => Ok "[urgency, HIGH]") "[urgency, HIGH]"
           (PList [PStr "urgency"; PStr "HIGH"])
           eq_refl eq_refl eq_refl eq_refl eq_refl eq_refl).
Defined.

(** ** The decision engine, continued *)

(** X6. The decision engine raises [AttributeError] when the triage
    result has an [urgency] that is not a string (a number, [null], a list)
    and when the conversation has a [history] that is not a list; the
    conversation and the world are then as they were. *)
Theorem build_response_and_state_raises (rt : Runtime)
    (triage_result conversation : pydict) (message : string) (w : World)
    (topic_arn : option string) (user_id : string) :
  (exists v : pyval,
     triage_result !! "urgency" = Some v /\ (forall s : string, v <> PStr s))
  \/ (exists v : pyval,
        conversation !! "history" = Some v /\ (forall l : list pyval, v <> PList l)) ->
  build_response_and_state rt triage_result conversation message w topic_arn user_id
    = (Raise AttributeError, conversation, w).
Proof.
  intros [[v [Hv Hns]] | [v [Hv Hnl]]]; unfold build_response_and_state.
  - unfold get_urgency. rewrite Hv.
    destruct v; try reflexivity. exfalso. eapply Hns. reflexivity.
  - destruct (get_urgency triage_result) as [u | e] eqn:Hu.
    + unfold get_history. rewrite Hv.
      destruct v; try reflexivity. exfalso. eapply Hnl. reflexivity.
    + unfold get_urgency in Hu.
      destruct (triage_result !! "urgency") as [[] |]; try discriminate;
        injection Hu as <-; reflexivity.
Qed.

Lemma build_response_and_state_raises_witness :
  ((exists v : pyval,
      (<["urgency" := PInt 3]> ∅ : pydict) !! "urgency" = Some v
      /\ (forall s : string, v <> PStr s))
   \/ (exists v : pyval,
         stored_conversation !! "history" = Some v
         /\ (forall l : list pyval, v <> PList l)))
  /\ build_response_and_state (offline_runtime EmptyString [])
       (<["urgency" := PInt 3]> ∅) stored_conversation "hello" empty_world
       (topic_arn test_config) "+123"
     = (Raise AttributeError, stored_conversation, empty_world).
Proof.
  assert (H : exists v : pyval,
            (<["urgency" := PInt 3]> ∅ : pydict) !! "urgency" = Some v
            /\ (forall s : string, v <> PStr s)).
  { exists (PInt 3). split; [reflexivity | discriminate]. }
  split; [left; exact H |].
  exact (build_response_and_state_raises (offline_runtime EmptyString [])
           (<["urgency" := PInt 3]> ∅) stored_conversation "hello" empty_world
           (topic_arn test_config) "+123" (or_introl H)).
Defined.

(** ** The conversation store *)

Lemma store_conversation_inv (rt : Runtime) (w w' : World)
    (conversation conversation' : pydict) :
  store_conversation rt w conversation = Ok (conversation', w') ->
  exists key : string,
    ddb_up w = true
    /\ conversation !! "user_id" = Some (PStr key)
    /\ conversation' = <["updated_at" := PStr (utcnow_isoformat rt)]> conversation
    /\ w' = set_ddb_items w (<[key := conversation']> (ddb_items w)).
Proof.
  unfold store_conversation. intros H.
  destruct (ddb_up w); [| discriminate].
  rewrite lookup_insert_ne in H by discriminate.
  destruct (conversation !! "user_id") as [[| | | | key | |] |] eqn:Hk;
    try discriminate.
  injection H as <- <-. exists key. repeat split.
Qed.

(** X7. What [store_conversation] stores, [load_conversation] returns: after
    a conversation was stored, loading its user gives that conversation,
    which is the one handed in with [updated_at] set to the time of the
    call and every other key as it was. *)
Theorem store_then_load (rt : Runtime) (w w' : World)
    (conversation conversation' : pydict) (user_id : string) :
  store_conversation rt w conversation = Ok (conversation', w') ->
  conversation !! "user_id" = Some (PStr user_id) ->
  load_conversation rt w' user_id = conversation'
  /\ conversation' !! "updated_at" = Some (PStr (utcnow_isoformat rt))
  /\ (forall key : string,
        key <> "updated_at" -> conversation' !! key = conversation !! key).
Proof.
  intros Hstore Huid.
  destruct (store_conversation_inv _ _ _ _ _ Hstore)
    as (key & Hup & Hkey & -> & ->).
  rewrite Huid in Hkey. injection Hkey as <-.
  split; [| split].
  - unfold load_conversation, get_item.
    cbn [set_ddb_items ddb_up ddb_items]. rewrite Hup.
    cbn [try_except]. rewrite lookup_insert_eq.
    rewrite bool_decide_eq_false_2; [reflexivity |].
    apply insert_non_empty.
  - apply lookup_insert_eq.
  - intros key Hne. apply lookup_insert_ne. congruence.
Qed.

Lemma store_then_load_witness :
  store_conversation (offline_runtime EmptyString []) empty_world stored_conversation
    = Ok (<["updated_at" := PStr "2023-11-14T22:13:20+00:00"]> stored_conversation,
          set_ddb_items empty_world
            (<["+123" := <["updated_at" := PStr "2023-11-14T22:13:20+00:00"]>
                           stored_conversation]> ∅))
  /\ stored_conversation !! "user_id" = Some (PStr "+123")
  /\ load_conversation (offline_runtime EmptyString [])
       (set_ddb_items empty_world
          (<["+123" := <["updated_at" := PStr "2023-11-14T22:13:20+00:00"]>
                         stored_conversation]> ∅)) "+123"
     = <["updated_at" := PStr "2023-11-14T22:13:20+00:00"]> stored_conversation.
Proof.
  assert (Hs : store_conversation (offline_runtime EmptyString []) empty_world
                 stored_conversation
               = Ok (<["updated_at" := PStr "2023-11-14T22:13:20+00:00"]>
                       stored_conversation,
                     set_ddb_items empty_world
                       (<["+123" := <["updated_at" := PStr "2023-11-14T22:13:20+00:00"]>
                                      stored_conversation]> ∅)))
    by reflexivity.
  split; [exact Hs |]. split; [reflexivity |].
  exact (proj1 (store_then_load _ _ _ _ _ "+123" Hs eq_refl)).
Defined.

(** X8. Storing a conversation leaves every other user's item, and what
    loading that user returns, as they were, and touches neither S3, SNS nor
    the LLM endpoint. *)
Theorem store_conversation_frame (rt : Runtime) (w w' : World)
    (conversation conversation' : pydict) (other : string) :
  store_conversation rt w conversation = Ok (conversation', w') ->
  conversation !! "user_id" <> Some (PStr other) ->
  ddb_items w' !! other = ddb_items w !! other
  /\ load_conversation rt w' other = load_conversation rt w other
  /\ s3_objects w' = s3_objects w
  /\ sns_published w' = sns_published w
  /\ llm_requests w' = llm_requests w.
Proof.
  intros Hstore Hother.
  destruct (store_conversation_inv _ _ _ _ _ Hstore)
    as (key & Hup & Hkey & -> & ->).
  assert (Hne : key <> other) by congruence.
  assert (Hl : <[key := <["updated_at" := PStr (utcnow_isoformat rt)]> conversation]>
                 (ddb_items w) !! other = ddb_items w !! other)
    by (apply lookup_insert_ne; exact Hne).
  split; [exact Hl |]. split; [| repeat split].
  unfold load_conversation, get_item.
  cbn [set_ddb_items ddb_up ddb_items]. rewrite Hl. reflexivity.
Qed.

Lemma store_conversation_frame_witness :
  store_conversation (offline_runtime EmptyString []) empty_world stored_conversation
    = Ok (<["updated_at" := PStr "2023-11-14T22:13:20+00:00"]> stored_conversation,
          set_ddb_items empty_world
            (<["+123" := <["updated_at" := PStr "2023-11-14T22:13:20+00:00"]>
                           stored_conversation]> ∅))
  /\ stored_conversation !! "user_id" <> Some (PStr "+456")
  /\ load_conversation (offline_runtime EmptyString [])
       (set_ddb_items empty_world
          (<["+123" := <["updated_at" := PStr "2023-11-14T22:13:20+00:00"]>
                         stored_conversation]> ∅)) "+456"
     = load_conversation (offline_runtime EmptyString []) empty_world "+456".
Proof.
  assert (Hs : store_conversation (offline_runtime EmptyString []) empty_world
                 stored_conversation
               = Ok (<["updated_at" := PStr "2023-11-14T22:13:20+00:00"]>
                       stored_conversation,
                     set_ddb_items empty_world
                       (<["+123" := <["updated_at" := PStr "2023-11-14T22:13:20+00:00"]>
                                      stored_conversation]> ∅)))
    by reflexivity.
  assert (Hne : stored_conversation !! "user_id" <> Some (PStr "+456"))
    by (change (Some (PStr "+123") <> Some (PStr "+456")); discriminate).
  split; [exact Hs |]. split; [exact Hne |].
  exact (proj1 (proj2 (store_conversation_frame _ _ _ _ _ "+456" Hs Hne))).
Defined.

(** X9. [load_conversation] returns the stored item of the user when the
    lookup succeeds and finds a non-empty one; when the lookup raises, finds
    nothing or finds an empty item, it returns a new conversation, which
    carries the user id, an empty history that the decision engine accepts,
    and no triage level. *)
Theorem load_conversation_cases (rt : Runtime) (w : World) (user_id : string) :
  (forall item : pydict,
     ddb_up w = true -> ddb_items w !! user_id = Some item -> item <> ∅ ->
     load_conversation rt w user_id = item)
  /\ (ddb_up w = false \/ ddb_items w !! user_id = None
      \/ ddb_items w !! user_id = Some ∅ ->
      load_conversation rt w user_id = new_conversation rt user_id)
  /\ new_conversation rt user_id !! "user_id" = Some (PStr user_id)
  /\ get_history (new_conversation rt user_id) = Ok []
  /\ new_conversation rt user_id !! "triage_level" = Some PNone.
Proof.
  split; [| split; [| repeat split]].
  - intros item Hup Hitem Hne. unfold load_conversation, get_item.
    rewrite Hup, Hitem. cbn [try_except].
    rewrite bool_decide_eq_false_2 by exact Hne. reflexivity.
  - intros [Hdown | [Hnone | Hempty]]; unfold load_conversation, get_item.
    + rewrite Hdown. reflexivity.
    + rewrite Hnone. destruct (ddb_up w); reflexivity.
    + rewrite Hempty. destruct (ddb_up w); reflexivity.
Qed.

(** ** The signature verifier, continued *)

Lemma flatten_params_first_values (params : list (string * list string)) :
  flatten_params (map (fun kv => (fst kv, take 1 (snd kv))) params)
  = flatten_params params.
Proof.
  induction params as [|[k v] rest IH]; [reflexivity |].
  cbn [map flatten_params fst snd]. rewrite IH.
  destruct v as [|v0 vs]; reflexivity.
Qed.

(** X10. Of a parameter with several values only the first enters the
    verification, with or without the Twilio library: dropping the other
    values changes neither the verdict nor the exception. *)
Theorem verify_twilio_signature_first_values (rt : Runtime)
    (signature url : string) (params : list (string * list string))
    (auth_token : string) :
  verify_twilio_signature rt signature url
    (map (fun kv => (fst kv, take 1 (snd kv))) params) auth_token
  = verify_twilio_signature rt signature url params auth_token.
Proof.
  unfold verify_twilio_signature. rewrite flatten_params_first_values.
  reflexivity.
Qed.

Lemma flatten_params_empty_value (params : list (string * list string)) :
  Exists (fun kv => snd kv = []) params ->
  flatten_params params = Raise IndexError.
Proof.
  induction params as [|[k v] rest IH]; intros H; [inversion H |].
  cbn [flatten_params]. destruct v as [|v0 vs]; [reflexivity |].
  cbn [first_item mbind result_bind].
  rewrite IH; [reflexivity |].
  inversion H as [? ? Hhd | ? ? Htl]; [discriminate Hhd | exact Htl].
Qed.

Lemma flatten_params_ok (params : list (string * list string)) :
  Forall (fun kv => snd kv <> []) params ->
  exists flat : list (string * string),
    flatten_params params = Ok flat
    /\ map fst flat = map fst params.
Proof.
  induction 1 as [|[k v] rest Hv _ IH]; [exists []; split; reflexivity |].
  destruct IH as (flat & Hflat & Hkeys).
  destruct v as [|v0 vs]; [contradiction |].
  exists ((k, v0) :: flat). cbn [flatten_params first_item mbind result_bind].
  rewrite Hflat. cbn [mbind result_bind map fst]. rewrite Hkeys.
  split; reflexivity.
Qed.

(** X11. The verification raises [IndexError], with or without the Twilio
    library, exactly when some parameter has an empty list of values. *)
Theorem verify_twilio_signature_empty_value (rt : Runtime)
    (signature url : string) (params : list (string * list string))
    (auth_token : string) :
  verify_twilio_signature rt signature url params auth_token = Raise IndexError
  <-> Exists (fun kv => snd kv = []) params.
Proof.
  split.
  - intros Hraise.
    destruct (decide (Exists (fun kv : string * list string => snd kv = []) params))
      as [Hex | Hnex]; [exact Hex | exfalso].
    apply not_Exists_Forall in Hnex; [| intros kv; apply _].
    destruct (flatten_params_ok params) as (flat & Hflat & _).
    { eapply Forall_impl; [exact Hnex |]. intros kv Hkv. exact Hkv. }
    unfold verify_twilio_signature in Hraise. rewrite Hflat in Hraise.
    cbn [mbind result_bind] in Hraise.
    destruct (RequestValidator rt); [discriminate |].
    unfold compare_digest in Hraise.
    destruct (is_ascii _ && is_ascii _); discriminate.
  - intros H. unfold verify_twilio_signature.
    rewrite (flatten_params_empty_value params H).
    destruct (RequestValidator rt); reflexivity.
Qed.

(** X12. Without the Twilio library, every signature with a character
    outside ASCII makes the verification raise [TypeError] instead of
    returning false. *)
Theorem verify_twilio_signature_non_ascii_raises (rt : Runtime)
    (signature url : string) (params : list (string * list string))
    (flat : list (string * string)) (auth_token : string) :
  RequestValidator rt = None ->
  flatten_params params = Ok flat ->
  is_ascii signature = false ->
  verify_twilio_signature rt signature url params auth_token = Raise TypeError.
Proof.
  intros Hlib Hflat Hsig. unfold verify_twilio_signature.
  rewrite Hlib, Hflat. cbn [mbind result_bind]. unfold compare_digest.
  rewrite Hsig, andb_false_r. reflexivity.
Qed.

Lemma verify_twilio_signature_non_ascii_raises_witness :
  RequestValidator (offline_runtime EmptyString []) = None
  /\ flatten_params blank_body_params = Ok [("From", "+123"); ("Body", "   ")]
  /\ is_ascii e_acute = false
  /\ verify_twilio_signature (offline_runtime EmptyString []) e_acute
       webhook_url blank_body_params "test-token" = Raise TypeError.
Proof.
  split; [reflexivity |]. split; [reflexivity |]. split; [reflexivity |].
  exact (verify_twilio_signature_non_ascii_raises
           (offline_runtime EmptyString []) e_acute webhook_url
           blank_body_params [("From", "+123"); ("Body", "   ")] "test-token"
           eq_refl eq_refl eq_refl).
Defined.

(** *** The order of [sorted] *)

Lemma compare_refl (s : string) : String.compare s s = Eq.
Proof.
  induction s as [|c s IH]; [reflexivity |].
  cbn [String.compare].
  assert (Hc : Ascii.compare c c = Eq).
  { unfold Ascii.compare. apply N.compare_refl. }
  rewrite Hc. exact IH.
Qed.

Lemma compare_lt_gt (a b : string) :
  String.compare a b = Lt -> String.compare b a = Gt.
Proof. intros H. rewrite String.compare_antisym, H. reflexivity. Qed.

Lemma compare_lt_trans (a b c : string) :
  String.compare a b = Lt -> String.compare b c = Lt -> String.compare a c = Lt.
Proof.
  intros Hab Hbc.
  assert (Hle : String.le a c).
  { transitivity b; unfold String.le, String.leb; [rewrite Hab | rewrite Hbc];
      exact I. }
  unfold String.le, String.leb in Hle.
  destruct (String.compare a c) eqn:Hac; [| reflexivity | destruct Hle].
  apply String.compare_eq_iff in Hac. subst c.
  apply compare_lt_gt in Hab. congruence.
Qed.

Lemma pair_ltb_irrefl (x : string * string) : pair_ltb x x = false.
Proof.
  unfold pair_ltb, String.ltb. rewrite !compare_refl. reflexivity.
Qed.

Lemma pair_ltb_trans (x y z : string * string) :
  pair_ltb x y = true -> pair_ltb y z = true -> pair_ltb x z = true.
Proof.
  destruct x as [a1 b1], y as [a2 b2], z as [a3 b3].
  unfold pair_ltb, String.ltb. cbn [fst snd].
  destruct (String.compare a1 a2) eqn:H12; try discriminate;
    destruct (String.compare a2 a3) eqn:H23; try discriminate.
  - apply String.compare_eq_iff in H12, H23. subst a2 a3.
    rewrite compare_refl.
    destruct (String.compare b1 b2) eqn:Hb12; try discriminate.
    destruct (String.compare b2 b3) eqn:Hb23; try discriminate.
    rewrite (compare_lt_trans _ _ _ Hb12 Hb23). reflexivity.
  - apply String.compare_eq_iff in H12. subst a2. rewrite H23. reflexivity.
  - apply String.compare_eq_iff in H23. subst a3. rewrite H12. reflexivity.
  - rewrite (compare_lt_trans _ _ _ H12 H23). reflexivity.
Qed.

Lemma pair_trichotomy (x y : string * string) :
  pair_ltb x y = true \/ x = y \/ pair_ltb y x = true.
Proof.
  destruct x as [a1 b1], y as [a2 b2].
  unfold pair_ltb, String.ltb. cbn [fst snd].
  rewrite (String.compare_antisym a2 a1), (String.compare_antisym b2 b1).
  destruct (String.compare a1 a2) eqn:Ha; cbn [CompOpp]; auto.
  apply String.compare_eq_iff in Ha. subst a2.
  destruct (String.compare b1 b2) eqn:Hb; cbn [CompOpp]; auto.
  apply String.compare_eq_iff in Hb. subst b2. auto.
Qed.

Lemma pair_ltb_asym (x y : string * string) :
  pair_ltb x y = true -> pair_ltb y x = false.
Proof.
  intros Hxy. destruct (pair_ltb y x) eqn:Hyx; [| reflexivity].
  rewrite <- (pair_ltb_irrefl x). symmetry.
  exact (pair_ltb_trans _ _ _ Hxy Hyx).
Qed.

Lemma pair_le_iff (x y : string * string) :
  pair_le x y <-> pair_ltb x y = true \/ x = y.
Proof.
  unfold pair_le. split.
  - intros H. destruct (pair_trichotomy x y) as [Hlt | [Heq | Hgt]]; auto.
    congruence.
  - intros [Hlt | ->]; [apply pair_ltb_asym; exact Hlt | apply pair_ltb_irrefl].
Qed.

#[local] Instance pair_le_trans : Transitive pair_le.
Proof.
  intros x y z. rewrite !pair_le_iff.
  intros [Hxy | ->] [Hyz | ->]; auto.
  left. exact (pair_ltb_trans _ _ _ Hxy Hyz).
Qed.

#[local] Instance pair_le_antisym : AntiSymm (=) pair_le.
Proof.
  intros x y. rewrite !pair_le_iff.
  intros [Hxy | ->] [Hyx | Heq]; auto.
  apply pair_ltb_asym in Hxy. congruence.
Qed.

Lemma insert_sorted_perm (x : string * string) (l : list (string * string)) :
  insert_sorted x l ≡ₚ x :: l.
Proof.
  induction l as [|y ys IH]; [reflexivity |].
  cbn [insert_sorted]. destruct (pair_ltb x y); [reflexivity |].
  rewrite IH. apply Permutation_swap.
Qed.

Lemma insert_sorted_HdRel (a x : string * string) (l : list (string * string)) :
  pair_le a x -> HdRel pair_le a l -> HdRel pair_le a (insert_sorted x l).
Proof.
  intros Hax Hal. destruct l as [|y ys]; cbn [insert_sorted].
  - constructor. exact Hax.
  - destruct (pair_ltb x y); constructor; [exact Hax |].
    inversion Hal. assumption.
Qed.

Lemma insert_sorted_Sorted (x : string * string) (l : list (string * string)) :
  Sorted pair_le l -> Sorted pair_le (insert_sorted x l).
Proof.
  induction 1 as [|y ys Hs IH Hhd]; cbn [insert_sorted].
  - repeat constructor.
  - destruct (pair_ltb x y) eqn:Hxy.
    + constructor; [constructor; assumption |].
      constructor. apply pair_ltb_asym. exact Hxy.
    + constructor; [exact IH |].
      apply insert_sorted_HdRel; [exact Hxy | exact Hhd].
Qed.

Lemma fold_insert_sorted (l acc : list (string * string)) :
  Sorted pair_le acc ->
  Sorted pair_le (fold_left (fun acc x => insert_sorted x acc) l acc)
  /\ fold_left (fun acc x => insert_sorted x acc) l acc ≡ₚ l ++ acc.
Proof.
  revert acc. induction l as [|x l IH]; intros acc Hacc; cbn [fold_left].
  - split; [exact Hacc | reflexivity].
  - destruct (IH (insert_sorted x acc) (insert_sorted_Sorted x acc Hacc))
      as [Hs Hp].
    split; [exact Hs |]. rewrite Hp, insert_sorted_perm.
    cbn [app]. symmetry. apply Permutation_middle.
Qed.

(** [sorted] returns its argument rearranged in ascending order of
    Python's comparison of pairs, and two lists with the same pairs in
    different orders are sorted to the same list. *)
Lemma sorted_sorts (l : list (string * string)) :
  Sorted pair_le (sorted l)
  /\ sorted l ≡ₚ l
  /\ (forall l' : list (string * string), l ≡ₚ l' -> sorted l = sorted l').
Proof.
  assert (H : forall k : list (string * string),
            Sorted pair_le (sorted k) /\ sorted k ≡ₚ k).
  { intros k. unfold sorted.
    destruct (fold_insert_sorted k [] (Sorted_nil _)) as [Hs Hp].
    rewrite app_nil_r in Hp. split; assumption. }
  destruct (H l) as [Hs Hp]. split; [exact Hs |]. split; [exact Hp |].
  intros l' Hperm. destruct (H l') as [Hs' Hp'].
  apply (Sorted_unique pair_le); [exact Hs | exact Hs' |].
  rewrite Hp, Hp'. exact Hperm.
Qed.

Lemma flatten_params_total (params : list (string * list string)) :
  Forall (fun kv => snd kv <> []) params ->
  flatten_params params
  = Ok (map (fun kv => (fst kv, hd EmptyString (snd kv))) params).
Proof.
  induction 1 as [|[k v] rest Hv _ IH]; [reflexivity |].
  destruct v as [|v0 vs]; [contradiction |].
  cbn [flatten_params first_item mbind result_bind]. rewrite IH. reflexivity.
Qed.

(** X13. Without the Twilio library, the verification does not depend on
    the order of the parameters: two parameter lists that are rearrangements
    of one another get the same verdict, or the same exception. *)
Theorem verify_twilio_signature_order (rt : Runtime) (signature url : string)
    (params params' : list (string * list string)) (auth_token : string) :
  RequestValidator rt = None ->
  params ≡ₚ params' ->
  verify_twilio_signature rt signature url params auth_token
  = verify_twilio_signature rt signature url params' auth_token.
Proof.
  intros Hlib Hperm. unfold verify_twilio_signature. rewrite Hlib.
  destruct (decide (Exists (fun kv : string * list string => snd kv = []) params))
    as [Hex | Hnex].
  - rewrite (flatten_params_empty_value params Hex).
    rewrite (flatten_params_empty_value params'); [reflexivity |].
    rewrite <- Hperm. exact Hex.
  - apply not_Exists_Forall in Hnex; [| intros kv; apply _].
    assert (Hall : Forall (fun kv : string * list string => snd kv <> []) params).
    { eapply Forall_impl; [exact Hnex |]. intros kv Hkv. exact Hkv. }
    assert (Hall' : Forall (fun kv : string * list string => snd kv <> []) params')
      by (rewrite <- Hperm; exact Hall).
    rewrite (flatten_params_total params Hall),
            (flatten_params_total params' Hall').
    cbn [mbind result_bind]. unfold computed_signature.
    rewrite (proj2 (proj2 (sorted_sorts
               (map (fun kv => (fst kv, hd EmptyString (snd kv))) params)))
               (map (fun kv => (fst kv, hd EmptyString (snd kv))) params'));
      [reflexivity |].
    apply Permutation_map. exact Hperm.
Qed.

Lemma verify_twilio_signature_order_witness :
  RequestValidator (offline_runtime EmptyString []) = None
  /\ [("From", ["+123"]); ("Body", ["   "])] ≡ₚ [("Body", ["   "]); ("From", ["+123"])]
  /\ verify_twilio_signature (offline_runtime EmptyString []) blank_body_signature
       webhook_url [("Body", ["   "]); ("From", ["+123"])] "test-token"
     = Ok true.
Proof.
  assert (Hp : [("From", ["+123"]); ("Body", ["   "])]
               ≡ₚ [("Body", ["   "]); ("From", ["+123"])])
    by apply Permutation_swap.
  split; [reflexivity |]. split; [exact Hp |].
  rewrite <- (verify_twilio_signature_order (offline_runtime EmptyString [])
                blank_body_signature webhook_url _ _ "test-token" eq_refl Hp).
  vm_compute. reflexivity.
Defined.

Lemma be_bytes_length (n : nat) (x : Z) : length (Sha1.be_bytes n x) = n.
Proof.
  revert x. induction n as [|n IH]; intros x; [reflexivity |].
  cbn [Sha1.be_bytes]. rewrite length_app, IH. cbn [length]. lia.
Qed.

Lemma sha1_length (msg : list Z) : length (Sha1.sha1 msg) = 20%nat.
Proof.
  unfold Sha1.sha1. rewrite !length_app, !be_bytes_length. reflexivity.
Qed.

Lemma b64encode_length_20 (bs : list Z) :
  length bs = 20%nat -> String.length (Sha1.b64encode bs) = 28%nat.
Proof.
  intros H.
  do 20 (destruct bs as [|? bs]; [discriminate H |]).
  destruct bs; [| discriminate H]. reflexivity.
Qed.

Lemma computed_signature_length (url : string) (flat : list (string * string))
    (auth_token : string) :
  String.length (computed_signature url flat auth_token) = 28%nat.
Proof.
  unfold computed_signature, Sha1.hmac_sha1.
  apply b64encode_length_20, sha1_length.
Qed.

(** X14. The signature Twilio computes is always 28 ASCII characters long;
    without the Twilio library, an ASCII signature of any other length is
    turned down for every url, parameters and token. *)
Theorem verify_twilio_signature_length (rt : Runtime) (signature url : string)
    (params : list (string * list string)) (flat : list (string * string))
    (auth_token : string) :
  RequestValidator rt = None ->
  flatten_params params = Ok flat ->
  is_ascii signature = true ->
  String.length signature <> 28%nat ->
  String.length (computed_signature url flat auth_token) = 28%nat
  /\ is_ascii (computed_signature url flat auth_token) = true
  /\ verify_twilio_signature rt signature url params auth_token = Ok false.
Proof.
  intros Hlib Hflat Hsig Hlen.
  split; [apply computed_signature_length |].
  split; [apply computed_signature_ascii |].
  unfold verify_twilio_signature. rewrite Hlib, Hflat.
  cbn [mbind result_bind]. unfold compare_digest.
  rewrite computed_signature_ascii, Hsig. cbn [andb]. f_equal.
  apply String.eqb_neq. intros Heq. apply Hlen. rewrite <- Heq.
  apply computed_signature_length.
Qed.

Lemma verify_twilio_signature_length_witness :
  RequestValidator (offline_runtime EmptyString []) = None
  /\ flatten_params blank_body_params = Ok [("From", "+123"); ("Body", "   ")]
  /\ is_ascii "dummy-signature" = true
  /\ String.length "dummy-signature" <> 28%nat
  /\ verify_twilio_signature (offline_runtime EmptyString []) "dummy-signature"
       webhook_url blank_body_params "test-token" = Ok false.
Proof.
  assert (Hlen : String.length "dummy-signature" <> 28%nat)
    by (cbn; discriminate).
  split; [reflexivity |]. split; [reflexivity |]. split; [reflexivity |].
  split; [exact Hlen |].
  exact (proj2 (proj2 (verify_twilio_signature_length
           (offline_runtime EmptyString []) "dummy-signature" webhook_url
           blank_body_params [("From", "+123"); ("Body", "   ")] "test-token"
           eq_refl eq_refl eq_refl Hlen))).
Defined.

(** ** Reading the request *)

Lemma header_get_fold (name : string) (headers : list (string * string))
    (acc : string) :
  fold_left (fun acc kv => if String.eqb (lower (fst kv)) name then snd kv else acc)
            headers acc
  = match last (List.filter (fun kv => String.eqb (lower (fst kv)) name) headers) with
    | Some kv => snd kv
    | None => acc
    end.
Proof.
  revert acc. induction headers as [|kv rest IH]; intros acc; [reflexivity |].
  cbn [fold_left List.filter]. rewrite IH.
  destruct (String.eqb (lower (fst kv)) name); [| reflexivity].
  rewrite last_cons.
  destruct (last (List.filter _ rest)); reflexivity.
Qed.

(** X15. The signature is read from the last header whose name, in small
    letters, is [x-twilio-signature], whatever the case it was sent in; with
    no such header, or no headers at all, it is the empty string. *)
Theorem request_signature_lookup (event : Event) :
  request_signature event
  = match last (List.filter
                  (fun kv => String.eqb (lower (fst kv)) "x-twilio-signature")
                  (default [] (ev_headers event))) with
    | Some kv => snd kv
    | None => EmptyString
    end.
Proof. unfold request_signature, header_get. apply header_get_fold. Qed.

(** ** The transcript *)

Lemma entry_ok_getitem (v : pyval) :
  entry_ok v = true <->
  exists ts m : pyval,
    py_getitem v "timestamp" = Ok ts /\ py_getitem v "message" = Ok m.
Proof.
  destruct v as [| | | | | | d]; cbn [entry_ok py_getitem];
    try (split; [discriminate | intros (ts & m & H & _); discriminate]).
  rewrite andb_true_iff, !bool_decide_eq_true. split.
  - intros [[ts Hts] [m Hm]]. exists ts, m. rewrite Hts, Hm. split; reflexivity.
  - intros (ts & m & Hts & Hm).
    destruct (d !! "timestamp"); [| discriminate].
    destruct (d !! "message"); [| discriminate]. split; eauto.
Qed.

Lemma transcript_lines_cons (rt : Runtime) (v : pyval) (rest : list pyval) :
  transcript_lines rt (v :: rest)
  = (ts ← py_getitem v "timestamp";
     m ← py_getitem v "message";
     rest' ← transcript_lines rt rest;
     Ok ((fstr rt ts +:+ ": " +:+ fstr rt m) :: rest')).
Proof. reflexivity. Qed.

(** X16. The transcript is rendered exactly when every history entry is a
    dict with a [timestamp] and a [message]; it then has one line per
    entry.  One entry without them makes the rendering raise. *)
Theorem transcript_lines_ok (rt : Runtime) (history : list pyval) :
  (Forall (fun v => entry_ok v = true) history <->
     exists lines : list string, transcript_lines rt history = Ok lines)
  /\ (forall lines : list string,
        transcript_lines rt history = Ok lines -> length lines = length history).
Proof.
  induction history as [|v rest [IHok IHlen]].
  - split; [split; [eexists; reflexivity | constructor] |].
    intros lines H. injection H as <-. reflexivity.
  - rewrite transcript_lines_cons. split; [split |].
    + intros H. inversion H as [|? ? Hv Hrest]; subst.
      apply entry_ok_getitem in Hv. destruct Hv as (ts & m & -> & ->).
      apply IHok in Hrest. destruct Hrest as [lines ->].
      eexists. reflexivity.
    + intros [lines H].
      destruct (py_getitem v "timestamp") as [ts |] eqn:Hts; [| discriminate].
      destruct (py_getitem v "message") as [m |] eqn:Hm; [| discriminate].
      destruct (transcript_lines rt rest) as [rest' |] eqn:Hr; [| discriminate].
      constructor; [apply entry_ok_getitem; eauto |].
      apply IHok. eauto.
    + intros lines H.
      destruct (py_getitem v "timestamp") as [ts |]; [| discriminate].
      destruct (py_getitem v "message") as [m |]; [| discriminate].
      destruct (transcript_lines rt rest) as [rest' |] eqn:Hr; [| discriminate].
      injection H as <-. cbn [length]. f_equal. apply IHlen. reflexivity.
Qed.

Lemma transcript_lines_snoc (rt : Runtime) (history : list pyval)
    (lines : list string) (message : string) :
  transcript_lines rt history = Ok lines ->
  transcript_lines rt (history ++ [history_entry rt message])
  = Ok (lines ++ [pretty (time_time rt) +:+ ": " +:+ message]).
Proof.
  revert lines. induction history as [|v rest IH]; intros lines H.
  - injection H as <-. reflexivity.
  - rewrite <- app_comm_cons, transcript_lines_cons.
    rewrite transcript_lines_cons in H.
    destruct (py_getitem v "timestamp") as [ts |]; [| discriminate].
    destruct (py_getitem v "message") as [m |]; [| discriminate].
    destruct (transcript_lines rt rest) as [rest' |] eqn:Hr; [| discriminate].
    injection H as <-. cbn [mbind result_bind].
    rewrite (IH rest' eq_refl). reflexivity.
Qed.

(** X17. The entry the decision engine appends keeps the transcript
    renderable: if the old history renders to some lines, the history with
    the new entry renders to those lines followed by the line
    [<timestamp>: <message>] of the message just processed, and the
    transcript text grows by that line. *)
Theorem transcript_lines_append (rt : Runtime) (history : list pyval)
    (lines : list string) (message : string) :
  transcript_lines rt history = Ok lines ->
  transcript_lines rt (history ++ [history_entry rt message])
  = Ok (lines ++ [pretty (time_time rt) +:+ ": " +:+ message])
  /\ entry_ok (history_entry rt message) = true
  /\ (lines <> [] ->
        join nl (lines ++ [pretty (time_time rt) +:+ ": " +:+ message])
        = join nl lines +:+ nl +:+ pretty (time_time rt) +:+ ": " +:+ message).
Proof.
  intros H. split; [apply transcript_lines_snoc; exact H |].
  split; [reflexivity |].
  clear H. induction lines as [|l1 [|l2 rest] IH]; intros Hne.
  - contradiction.
  - reflexivity.
  - change (l1 +:+ nl +:+ join nl ((l2 :: rest) ++ [pretty (time_time rt) +:+ ": " +:+ message])
            = (l1 +:+ nl +:+ join nl (l2 :: rest)) +:+ nl
              +:+ pretty (time_time rt) +:+ ": " +:+ message).
    rewrite IH by discriminate. rewrite !append_assoc. reflexivity.
Qed.

Lemma transcript_lines_append_witness :
  transcript_lines (offline_runtime EmptyString []) [earlier_entry]
    = Ok ["1699990000: I have a mild headache."]
  /\ transcript_lines (offline_runtime EmptyString [])
       ([earlier_entry]
        ++ [history_entry (offline_runtime EmptyString []) "Now I have a fever"])
     = Ok (["1699990000: I have a mild headache."]
           ++ [pretty (time_time (offline_runtime EmptyString []))
               +:+ ": " +:+ "Now I have a fever"]).
Proof.
  split; [reflexivity |].
  exact (proj1 (transcript_lines_append (offline_runtime EmptyString [])
                  [earlier_entry] ["1699990000: I have a mild headache."]
                  "Now I have a fever" eq_refl)).
Defined.

(** ** The request handler, continued *)

Lemma truthy_false (s : string) : truthy s = false <-> s = EmptyString.
Proof. destruct s; split; congruence || discriminate || reflexivity. Qed.

Lemma truthy_true (s : string) : truthy s = true <-> s <> EmptyString.
Proof. destruct s; split; congruence || discriminate || reflexivity. Qed.

Lemma build_response_and_state_inv (rt : Runtime)
    (triage_result conversation conversation' : pydict) (message : string)
    (w w' : World) (topic_arn : option string) (user_id reply : string) :
  returned (build_response_and_state rt triage_result conversation message w
              topic_arn user_id)
    = Ok (reply, conversation', w') ->
  exists (urgency : string) (history : list pyval),
    get_urgency triage_result = Ok urgency
    /\ get_history conversation = Ok history
    /\ reply = reply_for urgency
    /\ conversation' =
         <["last_intent" := PStr "triage"]>
         (<["triage_level" := PStr urgency]>
         (<["history" := PList (history ++ [history_entry rt message])]> conversation))
    /\ ((urgency <> "HIGH" /\ w' = w)
        \/ (urgency = "HIGH"
            /\ exists topic : string,
                 topic_arn = Some topic
                 /\ sns_publish_ok rt topic (alert_subject user_id)
                      (alert_message rt triage_result user_id) = true
                 /\ w' = set_sns_published w
                           (sns_published w
                            ++ [(topic, alert_subject user_id,
                                 alert_message rt triage_result user_id)]))).
Proof.
  intros H.
  destruct (get_urgency triage_result) as [u | e] eqn:Hu;
    [| unfold build_response_and_state in H; rewrite Hu in H; discriminate].
  destruct (get_history conversation) as [h | e] eqn:Hh;
    [| unfold build_response_and_state in H; rewrite Hu, Hh in H; discriminate].
  rewrite (build_response_and_state_ok rt _ _ message w topic_arn user_id _ _ Hu Hh)
    in H.
  exists u, h. unfold reply_for.
  destruct (String.eqb u "HIGH") eqn:Hhigh.
  - apply String.eqb_eq in Hhigh. unfold send_alert in H.
    destruct topic_arn as [topic |]; [| discriminate H].
    destruct (sns_publish_ok rt topic _ _) eqn:Hok; [| discriminate H].
    injection H as <- <- <-. repeat split. right. split; [exact Hhigh |].
    exists topic. repeat split. exact Hok.
  - apply String.eqb_neq in Hhigh. injection H as <- <- <-.
    repeat split. left. split; [exact Hhigh | reflexivity].
Qed.

(** X18. Whenever [lambda_handler] returns, its answer is one of three:
    403 with the world untouched, after a verdict of false; 400 with the
    world untouched, after a verdict of true on a request whose [From] is
    empty or whose [Body] is empty once stripped; or 200 with content type
    [application/xml] and the TwiML of one of the three replies, after a
    verdict of true on a request with a [From] and a [Body] that is not
    empty once stripped. *)
Theorem lambda_handler_answers (rt : Runtime) (cfg : Config) (event : Event)
    (w w' : World) (response : Response) :
  lambda_handler rt cfg event w = Ok (response, w') ->
  let verdict :=
    verify_twilio_signature rt (request_signature event) (request_url event)
      (request_params rt event) (default EmptyString (twilio_auth_token cfg)) in
  let from := first_item (items_get "From" (request_params rt event) [EmptyString]) in
  let body := first_item (items_get "Body" (request_params rt event) [EmptyString]) in
  (verdict = Ok false /\ statusCode response = 403 /\ w' = w)
  \/ (verdict = Ok true /\ statusCode response = 400 /\ w' = w
      /\ exists user_id body_value : string,
           from = Ok user_id /\ body = Ok body_value
           /\ (user_id = EmptyString \/ strip body_value = EmptyString))
  \/ (verdict = Ok true /\ statusCode response = 200
      /\ resp_headers response = [("Content-Type", "application/xml")]
      /\ (exists user_id body_value : string,
            from = Ok user_id /\ body = Ok body_value
            /\ user_id <> EmptyString /\ strip body_value <> EmptyString)
      /\ (resp_body response = generate_twiml_response reply_high
          \/ resp_body response = generate_twiml_response reply_medium
          \/ resp_body response = generate_twiml_response reply_low)).
Proof.
  intros H verdict from body. subst verdict from body.
  unfold lambda_handler in H.
  destruct (verify_twilio_signature _ _ _ _ _) as [[|] | e]; [| | discriminate];
    cbn [mbind result_bind negb] in H.
  2: { injection H as <- <-. left. repeat split. }
  right.
  destruct (first_item (items_get "From" _ _)) as [user_id | e]; [| discriminate].
  cbn [mbind result_bind] in H.
  destruct (first_item (items_get "Body" _ _)) as [body_value | e]; [| discriminate].
  cbn [mbind result_bind] in H.
  destruct (negb (truthy user_id) || negb (truthy (strip body_value))) eqn:Hcond.
  - injection H as <- <-. left. repeat split.
    exists user_id, body_value. repeat split.
    apply orb_true_iff in Hcond. rewrite !negb_true_iff, !truthy_false in Hcond.
    exact Hcond.
  - right. apply orb_false_iff in Hcond. rewrite !negb_false_iff in Hcond.
    destruct Hcond as [Hu Hb]. apply truthy_true in Hu, Hb.
    destruct (classify_message _ _ _ _ _ _) as [[triage_result w1] | e];
      [| discriminate].
    cbn [mbind result_bind] in H.
    destruct triage_result as [| | | | | | d]; try discriminate.
    cbn [mbind result_bind] in H.
    destruct (returned (build_response_and_state _ _ _ _ _ _ _))
      as [[[reply conversation] w2] | e] eqn:Hbuild; [| discriminate].
    cbn [mbind result_bind] in H.
    apply build_response_and_state_inv in Hbuild.
    destruct Hbuild as (urgency & history & _ & _ & Hreply & _ & _).
    match type of H with
    | context [mbind _ ?m] =>
        destruct m as [[conversation3 w3] | e]; [| discriminate]
    end.
    cbn [mbind result_bind] in H.
    match type of H with
    | context [mbind _ ?m] => destruct m as [w4 | e]; [| discriminate]
    end.
    cbn [mbind result_bind] in H. injection H as <- <-.
    repeat split; [exists user_id, body_value; repeat split; assumption |].
    cbn [resp_body]. rewrite Hreply. unfold reply_for.
    destruct (String.eqb urgency "HIGH"); [left; reflexivity |].
    destruct (String.eqb urgency "MEDIUM"); [right; left | right; right];
      reflexivity.
Qed.

Lemma lambda_handler_answers_witness :
  lambda_handler (offline_runtime blank_body_body blank_body_params) test_config
    (webhook_event blank_body_body blank_body_signature) empty_world
  = Ok ({| statusCode := 400; resp_headers := [];
           resp_body := "Missing From or Body parameter" |}, empty_world)
  /\ verify_twilio_signature (offline_runtime blank_body_body blank_body_params)
       (request_signature (webhook_event blank_body_body blank_body_signature))
       (request_url (webhook_event blank_body_body blank_body_signature))
       (request_params (offline_runtime blank_body_body blank_body_params)
                       (webhook_event blank_body_body blank_body_signature))
       (default EmptyString (twilio_auth_token test_config))
     = Ok true.
Proof.
  assert (Hrun :
    lambda_handler (offline_runtime blank_body_body blank_body_params) test_config
      (webhook_event blank_body_body blank_body_signature) empty_world
    = Ok ({| statusCode := 400; resp_headers := [];
             resp_body := "Missing From or Body parameter" |}, empty_world))
    by (vm_compute; reflexivity).
  split; [exact Hrun |].
  destruct (lambda_handler_answers _ _ _ _ _ _ Hrun)
    as [(_ & Hst & _) | [(Hv & _) | (_ & Hst & _)]];
    [discriminate Hst | exact Hv | discriminate Hst].
Defined.

(** X19. Without the Twilio library, a request whose signature header has
    a character outside ASCII is not answered 403: the handler raises
    [TypeError], whatever the configuration and the state of the
    services. *)
Theorem lambda_handler_non_ascii_signature (rt : Runtime) (cfg : Config)
    (event : Event) (w : World) :
  RequestValidator rt = None ->
  Forall (fun kv => snd kv <> []) (request_params rt event) ->
  is_ascii (request_signature event) = false ->
  lambda_handler rt cfg event w = Raise TypeError.
Proof.
  intros Hlib Hall Hsig. unfold lambda_handler, verify_twilio_signature.
  rewrite Hlib, (flatten_params_total _ Hall). cbn [mbind result_bind].
  unfold compare_digest. rewrite Hsig, andb_false_r. reflexivity.
Qed.

Lemma lambda_handler_non_ascii_signature_witness :
  RequestValidator (offline_runtime blank_body_body blank_body_params) = None
  /\ Forall (fun kv : string * list string => snd kv <> [])
       (request_params (offline_runtime blank_body_body blank_body_params)
                       (webhook_event blank_body_body e_acute))
  /\ is_ascii (request_signature (webhook_event blank_body_body e_acute)) = false
  /\ lambda_handler (offline_runtime blank_body_body blank_body_params) test_config
       (webhook_event blank_body_body e_acute) empty_world
     = Raise TypeError.
Proof.
  assert (Hall : Forall (fun kv : string * list string => snd kv <> [])
            (request_params (offline_runtime blank_body_body blank_body_params)
                            (webhook_event blank_body_body e_acute))).
  { repeat constructor; discriminate. }
  split; [reflexivity |]. split; [exact Hall |]. split; [reflexivity |].
  exact (lambda_handler_non_ascii_signature
           (offline_runtime blank_body_body blank_body_params) test_config
           (webhook_event blank_body_body e_acute) empty_world
           eq_refl Hall eq_refl).
Defined.

Lemma classify_message_fallback (rt : Runtime) (w : World) (message : string)
    (history : pyval) (provider : string) (openai_api_key : option string) :
  resolve_provider rt provider <> "openai" \/ openai rt = None ->
  classify_message rt w message history provider openai_api_key
  = Ok (PDict (fallback_classifier message), w).
Proof.
  intros [Hp | Ho]; unfold classify_message.
  - apply String.eqb_neq in Hp. rewrite Hp. reflexivity.
  - rewrite Ho. destruct (String.eqb _ "openai"); reflexivity.
Qed.

(** The handler on a request that passed the signature check and carries
    both fields: the steps up to the validation are done. *)
Ltac handler_enter Hv Hfrom Hbody Hu Hb :=
  unfold lambda_handler;
  rewrite Hv; cbn [mbind result_bind negb];
  rewrite Hfrom; cbn [mbind result_bind];
  rewrite Hbody; cbn [mbind result_bind];
  rewrite (proj2 (truthy_true _) Hu), (proj2 (truthy_true _) Hb);
  cbn [negb orb].

(** X20. When the model's reply parses to something in which ["urgency"]
    is found but which the decision engine cannot read (a value that is not
    an object, or an object whose [urgency] is not a string), an
    authenticated, well-formed request is not answered: the handler raises
    [AttributeError]. *)
Theorem lambda_handler_unreadable_reply (rt : Runtime) (cfg : Config)
    (event : Event) (w : World) (user_id body_value content : string)
    (create : string -> list (string * string) -> result string) (v : pyval) :
  verify_twilio_signature rt (request_signature event) (request_url event)
    (request_params rt event) (default EmptyString (twilio_auth_token cfg))
    = Ok true ->
  first_item (items_get "From" (request_params rt event) [EmptyString])
    = Ok user_id ->
  first_item (items_get "Body" (request_params rt event) [EmptyString])
    = Ok body_value ->
  user_id <> EmptyString ->
  strip body_value <> EmptyString ->
  resolve_provider rt (llm_provider cfg) = "openai" ->
  openai rt = Some create ->
  truthy_opt (resolve_api_key rt None) = true ->
  create chat_model (chat_messages (strip body_value)) = Ok content ->
  json_loads rt (strip content) = Ok v ->
  ((forall d : pydict, v <> PDict d) /\ py_in "urgency" v = Ok true)
  \/ (exists (d : pydict) (x : pyval),
        v = PDict d /\ d !! "urgency" = Some x /\ forall s : string, x <> PStr s) ->
  lambda_handler rt cfg event w = Raise AttributeError.
Proof.
  intros Hv Hfrom Hbody Hu Hb Hp Ho Hk Hc Hj Hbad.
  handler_enter Hv Hfrom Hbody Hu Hb.
  rewrite (classify_message_openai rt w _ _ _ None create Hp Ho Hk).
  unfold llm_classify. rewrite Hc. cbn [mbind result_bind].
  rewrite Hj. cbn [mbind result_bind].
  destruct Hbad as [[Hnd Hin] | (d & x & -> & Hx & Hns)].
  - rewrite Hin. cbn [mbind result_bind negb try_except].
    destruct v; try reflexivity. exfalso. eapply Hnd. reflexivity.
  - cbn [py_in]. rewrite Hx.
    rewrite bool_decide_eq_true_2 by eauto.
    cbn [mbind result_bind negb try_except].
    unfold build_response_and_state, get_urgency. rewrite Hx.
    destruct x; try reflexivity. exfalso. eapply Hns. reflexivity.
Qed.

Lemma lambda_handler_unreadable_reply_witness :
  json_loads (llm_host_runtime chest_pain_body chest_pain_params
                numeric_urgency_reply (Ok (PDict (<["urgency" := PInt 3]> ∅))))
    (strip numeric_urgency_reply)
  = Ok (PDict (<["urgency" := PInt 3]> ∅))
  /\ lambda_handler
       (llm_host_runtime chest_pain_body chest_pain_params
          numeric_urgency_reply (Ok (PDict (<["urgency" := PInt 3]> ∅))))
       openai_config (webhook_event chest_pain_body chest_pain_signature)
       empty_world
     = Raise AttributeError.
Proof.
  split; [reflexivity |].
  apply (lambda_handler_unreadable_reply
           (llm_host_runtime chest_pain_body chest_pain_params
              numeric_urgency_reply (Ok (PDict (<["urgency" := PInt 3]> ∅))))
           openai_config (webhook_event chest_pain_body chest_pain_signature)
           empty_world "+123" "Sudden chest pain" numeric_urgency_reply
           (fun _ _ => Ok numeric_urgency_reply)
           (PDict (<["urgency" := PInt 3]> ∅))).
  - vm_compute. reflexivity.
  - reflexivity.
  - reflexivity.
  - discriminate.
  - discriminate.
  - reflexivity.
  - reflexivity.
  - reflexivity.
  - reflexivity.
  - reflexivity.
  - right. exists (<["urgency" := PInt 3]> ∅), (PInt 3).
    split; [reflexivity |]. split; [reflexivity | discriminate].
Defined.

(** The run of the handler on the fallback path with table and bucket. *)
Lemma lambda_handler_fallback_run (rt : Runtime) (cfg : Config)
    (event : Event) (w : World) (user_id body_value table bucket topic : string)
    (history : list pyval) (lines : list string) :
  verify_twilio_signature rt (request_signature event) (request_url event)
    (request_params rt event) (default EmptyString (twilio_auth_token cfg))
    = Ok true ->
  first_item (items_get "From" (request_params rt event) [EmptyString])
    = Ok user_id ->
  first_item (items_get "Body" (request_params rt event) [EmptyString])
    = Ok body_value ->
  user_id <> EmptyString ->
  strip body_value <> EmptyString ->
  table_name cfg = Some table -> table <> EmptyString ->
  bucket_name cfg = Some bucket -> bucket <> EmptyString ->
  resolve_provider rt (llm_provider cfg) <> "openai" \/ openai rt = None ->
  ddb_up w = true ->
  load_conversation rt w user_id !! "user_id" = Some (PStr user_id) ->
  get_history (load_conversation rt w user_id) = Ok history ->
  transcript_lines rt history = Ok lines ->
  (fallback_urgency (strip body_value) = "HIGH" ->
     topic_arn cfg = Some topic
     /\ sns_publish_ok rt topic (alert_subject user_id)
          (alert_message rt (fallback_classifier (strip body_value)) user_id)
        = true) ->
  s3_put_ok rt bucket
    (user_id +:+ "/transcript_" +:+ utcnow_stamp rt +:+ ".txt")
    (join nl (lines ++ [pretty (time_time rt) +:+ ": " +:+ strip body_value]))
    = true ->
  let message := strip body_value in
  let urgency := fallback_urgency message in
  lambda_handler rt cfg event w =
    Ok ({| statusCode := 200;
           resp_headers := [("Content-Type", "application/xml")];
           resp_body := generate_twiml_response (reply_for urgency) |},
        {| ddb_up := true;
           ddb_items :=
             <[user_id :=
                 <["updated_at" := PStr (utcnow_isoformat rt)]>
                 (<["last_intent" := PStr "triage"]>
                 (<["triage_level" := PStr urgency]>
                 (<["history" := PList (history ++ [history_entry rt message])]>
                    (load_conversation rt w user_id))))]> (ddb_items w);
           s3_objects :=
             <[(bucket, user_id +:+ "/transcript_" +:+ utcnow_stamp rt +:+ ".txt") :=
                 join nl (lines ++ [pretty (time_time rt) +:+ ": " +:+ message])]>
             (s3_objects w);
           sns_published :=
             if String.eqb urgency "HIGH" then
               sns_published w
               ++ [(topic, alert_subject user_id,
                    alert_message rt (fallback_classifier message) user_id)]
             else sns_published w;
           llm_requests := llm_requests w |}).
Proof.
  intros Hv Hfrom Hbody Hu Hb Htable Htn Hbucket Hbn Hfb Hup Huid Hhist Hlines
         Hpub Hput message urgency.
  handler_enter Hv Hfrom Hbody Hu Hb.
  rewrite Htable, Hbucket. cbn [truthy_opt].
  rewrite (proj2 (truthy_true _) Htn), (proj2 (truthy_true _) Hbn).
  rewrite (classify_message_fallback rt w _ _ _ None Hfb).
  cbn [mbind result_bind].
  rewrite (build_response_and_state_returns rt _ _ (strip body_value) w
             (topic_arn cfg) user_id _ topic _
             (get_urgency_fallback (strip body_value)) Hhist Hpub).
  unfold returned. cbn [mbind result_bind].
  fold message. fold urgency.
  unfold store_conversation.
  assert (Hup' : ddb_up (if String.eqb urgency "HIGH" then
                           set_sns_published w
                             (sns_published w
                              ++ [(topic, alert_subject user_id,
                                   alert_message rt (fallback_classifier message)
                                     user_id)])
                         else w) = true)
    by (destruct (String.eqb urgency "HIGH"); exact Hup).
  rewrite Hup'.
  rewrite !lookup_insert_ne by discriminate. rewrite Huid.
  cbn [mbind result_bind].
  rewrite lookup_insert_ne by discriminate.
  rewrite lookup_insert_ne by discriminate.
  rewrite lookup_insert_ne by discriminate.
  rewrite lookup_insert_eq. cbn [py_iter mbind result_bind].
  rewrite (transcript_lines_snoc rt history lines message Hlines).
  cbn [mbind result_bind default]. unfold id.
  unfold upload_transcript. fold message in Hput. rewrite Hput.
  cbn [mbind result_bind].
  unfold reply_for. fold urgency.
  destruct w as [up items s3 sns llm]. cbn [ddb_up] in Hup. subst up.
  destruct (String.eqb urgency "HIGH"); reflexivity.
Qed.

(** X21. With a table and a bucket configured, the store up and the
    fallback classifying, an authenticated request with both fields is
    answered 200 with the reply of the fallback urgency, provided the loaded
    conversation carries the user id and a history that renders, S3 accepts
    the transcript and, when the urgency is HIGH, a topic is configured and
    SNS accepts the notification.  The conversation stored under the user id
    is the loaded one with the history one entry longer, the new triage
    level and the time of the update; the transcript, the old lines followed
    by the new one, is the object of the bucket under the key of the user id
    and the second of the upload, in place of what was there; one
    notification is published when the urgency is HIGH and none otherwise;
    no request is sent to the model. *)
Theorem lambda_handler_fallback_stored (rt : Runtime) (cfg : Config)
    (event : Event) (w : World) (user_id body_value table bucket topic : string)
    (history : list pyval) (lines : list string) :
  verify_twilio_signature rt (request_signature event) (request_url event)
    (request_params rt event) (default EmptyString (twilio_auth_token cfg))
    = Ok true ->
  first_item (items_get "From" (request_params rt event) [EmptyString])
    = Ok user_id ->
  first_item (items_get "Body" (request_params rt event) [EmptyString])
    = Ok body_value ->
  user_id <> EmptyString ->
  strip body_value <> EmptyString ->
  table_name cfg = Some table -> table <> EmptyString ->
  bucket_name cfg = Some bucket -> bucket <> EmptyString ->
  resolve_provider rt (llm_provider cfg) <> "openai" \/ openai rt = None ->
  ddb_up w = true ->
  load_conversation rt w user_id !! "user_id" = Some (PStr user_id) ->
  get_history (load_conversation rt w user_id) = Ok history ->
  transcript_lines rt history = Ok lines ->
  (fallback_urgency (strip body_value) = "HIGH" ->
     topic_arn cfg = Some topic
     /\ sns_publish_ok rt topic (alert_subject user_id)
          (alert_message rt (fallback_classifier (strip body_value)) user_id)
        = true) ->
  s3_put_ok rt bucket
    (user_id +:+ "/transcript_" +:+ utcnow_stamp rt +:+ ".txt")
    (join nl (lines ++ [pretty (time_time rt) +:+ ": " +:+ strip body_value]))
    = true ->
  let message := strip body_value in
  let urgency := fallback_urgency message in
  lambda_handler rt cfg event w =
    Ok ({| statusCode := 200;
           resp_headers := [("Content-Type", "application/xml")];
           resp_body := generate_twiml_response (reply_for urgency) |},
        {| ddb_up := true;
           ddb_items :=
             <[user_id :=
                 <["updated_at" := PStr (utcnow_isoformat rt)]>
                 (<["last_intent" := PStr "triage"]>
                 (<["triage_level" := PStr urgency]>
                 (<["history" := PList (history ++ [history_entry rt message])]>
                    (load_conversation rt w user_id))))]> (ddb_items w);
           s3_objects :=
             <[(bucket, user_id +:+ "/transcript_" +:+ utcnow_stamp rt +:+ ".txt") :=
                 join nl (lines ++ [pretty (time_time rt) +:+ ": " +:+ message])]>
             (s3_objects w);
           sns_published :=
             if String.eqb urgency "HIGH" then
               sns_published w
               ++ [(topic, alert_subject user_id,
                    alert_message rt (fallback_classifier message) user_id)]
             else sns_published w;
           llm_requests := llm_requests w |}).
Proof.
  intros Hv Hfrom Hbody Hu Hb Htable Htn Hbucket Hbn Hfb Hup Huid Hhist Hlines
         Hpub Hput.
  exact (lambda_handler_fallback_run rt cfg event w user_id body_value table
           bucket topic history lines Hv Hfrom Hbody Hu Hb Htable Htn Hbucket Hbn
           Hfb Hup Huid Hhist Hlines Hpub Hput).
Qed.

Lemma lambda_handler_fallback_stored_witness :
  load_conversation (offline_runtime chest_pain_body chest_pain_params)
    empty_world "+123"
  = new_conversation (offline_runtime chest_pain_body chest_pain_params) "+123"
  /\ fallback_urgency "Sudden chest pain" = "HIGH"
  /\ exists w' : World,
       lambda_handler (offline_runtime chest_pain_body chest_pain_params)
         test_config (webhook_event chest_pain_body chest_pain_signature)
         empty_world
       = Ok ({| statusCode := 200;
                resp_headers := [("Content-Type", "application/xml")];
                resp_body := generate_twiml_response reply_high |}, w')
       /\ length (sns_published w') = 1%nat
       /\ s3_objects w' =
            <[("test-bucket", "+123/transcript_20231114T221320Z.txt") :=
                "1700000000: Sudden chest pain"]> ∅.
Proof.
  split; [reflexivity |]. split; [reflexivity |].
  eexists. split.
  - apply (lambda_handler_fallback_stored
             (offline_runtime chest_pain_body chest_pain_params) test_config
             (webhook_event chest_pain_body chest_pain_signature) empty_world
             "+123" "Sudden chest pain" "test-table" "test-bucket"
             "arn:aws:sns:us-east-1:123456789012:test-topic" [] []).
    + vm_compute. reflexivity.
    + reflexivity.
    + reflexivity.
    + discriminate.
    + discriminate.
    + reflexivity.
    + discriminate.
    + reflexivity.
    + discriminate.
    + left. discriminate.
    + reflexivity.
    + reflexivity.
    + reflexivity.
    + reflexivity.
    + intros _. split; reflexivity.
    + reflexivity.
  - split; reflexivity.
Defined.

(** X22. With neither table nor bucket configured and the fallback
    classifying, an authenticated request with both fields is answered
    whatever the state of the store, and nothing is stored or uploaded.
    When the fallback urgency is not HIGH the answer is 200 with its reply
    and the world is as before; when it is HIGH and SNS accepts the
    notification the answer is 200 with the emergency reply and the world
    changes by that one notification; when it is HIGH and no topic is
    configured or SNS refuses, the handler raises. *)
Theorem lambda_handler_without_persistence (rt : Runtime) (cfg : Config)
    (event : Event) (w : World) (user_id body_value : string) :
  verify_twilio_signature rt (request_signature event) (request_url event)
    (request_params rt event) (default EmptyString (twilio_auth_token cfg))
    = Ok true ->
  first_item (items_get "From" (request_params rt event) [EmptyString])
    = Ok user_id ->
  first_item (items_get "Body" (request_params rt event) [EmptyString])
    = Ok body_value ->
  user_id <> EmptyString ->
  strip body_value <> EmptyString ->
  truthy_opt (table_name cfg) = false ->
  truthy_opt (bucket_name cfg) = false ->
  resolve_provider rt (llm_provider cfg) <> "openai" \/ openai rt = None ->
  let message := strip body_value in
  let urgency := fallback_urgency message in
  (urgency <> "HIGH" ->
     lambda_handler rt cfg event w =
       Ok ({| statusCode := 200;
              resp_headers := [("Content-Type", "application/xml")];
              resp_body := generate_twiml_response (reply_for urgency) |}, w))
  /\ (urgency = "HIGH" ->
        forall topic : string,
          topic_arn cfg = Some topic ->
          sns_publish_ok rt topic (alert_subject user_id)
            (alert_message rt (fallback_classifier message) user_id) = true ->
          lambda_handler rt cfg event w =
            Ok ({| statusCode := 200;
                   resp_headers := [("Content-Type", "application/xml")];
                   resp_body := generate_twiml_response reply_high |},
                set_sns_published w
                  (sns_published w
                   ++ [(topic, alert_subject user_id,
                        alert_message rt (fallback_classifier message) user_id)])))
  /\ (urgency = "HIGH" ->
        topic_arn cfg = None
        \/ (exists topic : string,
              topic_arn cfg = Some topic
              /\ sns_publish_ok rt topic (alert_subject user_id)
                   (alert_message rt (fallback_classifier message) user_id)
                 = false) ->
        exists e : exn, lambda_handler rt cfg event w = Raise e).
Proof.
  intros Hv Hfrom Hbody Hu Hb Htable Hbucket Hfb message urgency.
  assert (Hh : get_history (∅ : pydict) = Ok []) by reflexivity.
  assert (Hrun : lambda_handler rt cfg event w =
            '(reply_message, _, w') ←
              returned (build_response_and_state rt (fallback_classifier message)
                          ∅ message w (topic_arn cfg) user_id);
            Ok ({| statusCode := 200;
                   resp_headers := [("Content-Type", "application/xml")];
                   resp_body := generate_twiml_response reply_message |}, w')).
  { handler_enter Hv Hfrom Hbody Hu Hb.
    rewrite Htable, Hbucket.
    rewrite (classify_message_fallback rt w _ _ _ None Hfb).
    cbn [mbind result_bind]. fold message.
    destruct (returned _) as [[[reply conversation] w'] | e]; reflexivity. }
  rewrite Hrun.
  rewrite (build_response_and_state_ok rt _ ∅ message w (topic_arn cfg)
             user_id _ [] (get_urgency_fallback message) Hh).
  fold urgency. split; [| split].
  - intros Hne. pose proof Hne as Hne'. apply String.eqb_neq in Hne'.
    unfold reply_for. rewrite Hne'. reflexivity.
  - intros Hhigh topic Htopic Hok. rewrite Hhigh.
    change (String.eqb "HIGH" "HIGH") with true. cbv iota.
    unfold send_alert. rewrite Htopic, Hok. reflexivity.
  - intros Hhigh Hno. rewrite Hhigh.
    change (String.eqb "HIGH" "HIGH") with true. cbv iota.
    unfold send_alert.
    destruct Hno as [-> | (topic & -> & Hno)]; [eexists; reflexivity |].
    rewrite Hno. eexists; reflexivity.
Qed.

Lemma lambda_handler_without_persistence_witness :
  truthy_opt (table_name bare_config) = false
  /\ fallback_urgency "Sudden chest pain" = "HIGH"
  /\ lambda_handler (offline_runtime chest_pain_body chest_pain_params)
       bare_config (webhook_event chest_pain_body chest_pain_signature)
       down_world
     = Ok ({| statusCode := 200;
              resp_headers := [("Content-Type", "application/xml")];
              resp_body := generate_twiml_response reply_high |},
           set_sns_published down_world
             [("arn:aws:sns:us-east-1:123456789012:test-topic",
               alert_subject "+123",
               alert_message (offline_runtime chest_pain_body chest_pain_params)
                 (fallback_classifier "Sudden chest pain") "+123")]).
Proof.
  split; [reflexivity |]. split; [reflexivity |].
  assert (Hv : verify_twilio_signature
                 (offline_runtime chest_pain_body chest_pain_params)
                 (request_signature (webhook_event chest_pain_body chest_pain_signature))
                 (request_url (webhook_event chest_pain_body chest_pain_signature))
                 (request_params (offline_runtime chest_pain_body chest_pain_params)
                    (webhook_event chest_pain_body chest_pain_signature))
                 (default EmptyString (twilio_auth_token bare_config))
               = Ok true) by (vm_compute; reflexivity).
  assert (Hne1 : "+123" <> EmptyString) by discriminate.
  assert (Hne2 : strip "Sudden chest pain" <> EmptyString) by discriminate.
  assert (Hfrom : first_item (items_get "From"
                      (request_params (offline_runtime chest_pain_body chest_pain_params)
                         (webhook_event chest_pain_body chest_pain_signature))
                      [EmptyString]) = Ok "+123") by reflexivity.
  assert (Hbody : first_item (items_get "Body"
                      (request_params (offline_runtime chest_pain_body chest_pain_params)
                         (webhook_event chest_pain_body chest_pain_signature))
                      [EmptyString]) = Ok "Sudden chest pain") by reflexivity.
  assert (Hfb : resolve_provider (offline_runtime chest_pain_body chest_pain_params)
                  (llm_provider bare_config) <> "openai"
                \/ openai (offline_runtime chest_pain_body chest_pain_params) = None)
    by (right; reflexivity).
  assert (Hurg : fallback_urgency (strip "Sudden chest pain") = "HIGH")
    by (vm_compute; reflexivity).
  pose proof (lambda_handler_without_persistence
                (offline_runtime chest_pain_body chest_pain_params) bare_config
                (webhook_event chest_pain_body chest_pain_signature) down_world
                "+123" "Sudden chest pain" Hv Hfrom Hbody Hne1 Hne2
                eq_refl eq_refl Hfb) as H.
  cbv zeta in H. destruct H as (_ & Hhigh & _).
  exact (Hhigh Hurg "arn:aws:sns:us-east-1:123456789012:test-topic"
           eq_refl eq_refl).
Defined.

(** X23. With a table configured and the store failing, the failure of the
    lookup is absorbed but the failure of the write is not: an
    authenticated request with both fields, classified by the fallback,
    makes the handler raise; the exception is the store's unless a
    notification was due and could not be published. *)
Theorem lambda_handler_store_down (rt : Runtime) (cfg : Config)
    (event : Event) (w : World) (user_id body_value table : string) :
  verify_twilio_signature rt (request_signature event) (request_url event)
    (request_params rt event) (default EmptyString (twilio_auth_token cfg))
    = Ok true ->
  first_item (items_get "From" (request_params rt event) [EmptyString])
    = Ok user_id ->
  first_item (items_get "Body" (request_params rt event) [EmptyString])
    = Ok body_value ->
  user_id <> EmptyString ->
  strip body_value <> EmptyString ->
  table_name cfg = Some table -> table <> EmptyString ->
  resolve_provider rt (llm_provider cfg) <> "openai" \/ openai rt = None ->
  ddb_up w = false ->
  load_conversation rt w user_id = new_conversation rt user_id
  /\ (exists e : exn, lambda_handler rt cfg event w = Raise e)
  /\ ((fallback_urgency (strip body_value) = "HIGH" ->
         exists topic : string,
           topic_arn cfg = Some topic
           /\ sns_publish_ok rt topic (alert_subject user_id)
                (alert_message rt (fallback_classifier (strip body_value)) user_id)
              = true) ->
      lambda_handler rt cfg event w = Raise ServiceError).
Proof.
  intros Hv Hfrom Hbody Hu Hb Htable Htn Hfb Hdown.
  assert (Hload : load_conversation rt w user_id = new_conversation rt user_id)
    by (unfold load_conversation, get_item; rewrite Hdown; reflexivity).
  split; [exact Hload |].
  handler_enter Hv Hfrom Hbody Hu Hb.
  rewrite Htable. cbn [truthy_opt]. rewrite (proj2 (truthy_true _) Htn).
  rewrite (classify_message_fallback rt w _ _ _ None Hfb).
  cbn [mbind result_bind]. rewrite Hload.
  assert (Hh : get_history (new_conversation rt user_id) = Ok []) by reflexivity.
  destruct (build_response_and_state_conversation rt _ _ (strip body_value) w
              (topic_arn cfg) user_id _ [] (get_urgency_fallback (strip body_value))
              Hh) as (outcome & w' & Hrun & Hup & _ & _ & _ & Hret).
  rewrite Hrun. unfold returned.
  destruct outcome as [reply | e].
  - cbn [mbind result_bind]. unfold store_conversation.
    rewrite Hup, Hdown. split; [eexists |]; reflexivity.
  - split; [eexists; reflexivity |].
    intros Hacc. destruct (Hret Hacc) as [reply Hreply]. discriminate Hreply.
Qed.

Lemma lambda_handler_store_down_witness :
  ddb_up down_world = false
  /\ lambda_handler (offline_runtime chest_pain_body chest_pain_params)
       test_config (webhook_event chest_pain_body chest_pain_signature)
       down_world
     = Raise ServiceError.
Proof.
  split; [reflexivity |].
  assert (Hv : verify_twilio_signature
                 (offline_runtime chest_pain_body chest_pain_params)
                 (request_signature (webhook_event chest_pain_body chest_pain_signature))
                 (request_url (webhook_event chest_pain_body chest_pain_signature))
                 (request_params (offline_runtime chest_pain_body chest_pain_params)
                    (webhook_event chest_pain_body chest_pain_signature))
                 (default EmptyString (twilio_auth_token test_config))
               = Ok true) by (vm_compute; reflexivity).
  assert (Hne1 : "+123" <> EmptyString) by discriminate.
  assert (Hne2 : strip "Sudden chest pain" <> EmptyString) by discriminate.
  assert (Hne3 : "test-table" <> EmptyString) by discriminate.
  assert (Hfrom : first_item (items_get "From"
                      (request_params (offline_runtime chest_pain_body chest_pain_params)
                         (webhook_event chest_pain_body chest_pain_signature))
                      [EmptyString]) = Ok "+123") by reflexivity.
  assert (Hbody : first_item (items_get "Body"
                      (request_params (offline_runtime chest_pain_body chest_pain_params)
                         (webhook_event chest_pain_body chest_pain_signature))
                      [EmptyString]) = Ok "Sudden chest pain") by reflexivity.
  assert (Hfb : resolve_provider (offline_runtime chest_pain_body chest_pain_params)
                  (llm_provider test_config) <> "openai"
                \/ openai (offline_runtime chest_pain_body chest_pain_params) = None)
    by (right; reflexivity).
  destruct (lambda_handler_store_down
              (offline_runtime chest_pain_body chest_pain_params) test_config
              (webhook_event chest_pain_body chest_pain_signature) down_world
              "+123" "Sudden chest pain" "test-table" Hv Hfrom Hbody
              Hne1 Hne2 eq_refl Hne3 Hfb eq_refl)
    as (_ & _ & Hraise).
  apply Hraise. intros _.
  exists "arn:aws:sns:us-east-1:123456789012:test-topic". split; reflexivity.
Defined.

(** ** The local runner *)

(** X24. The local runner and the Lambda handler treat the same request
    alike: when they are given the same signature, url and parameters, both
    raise the same exception, or both answer, with the same status, the same
    world afterwards and, for 200 and 403, the same body; the runner's 200
    has mimetype [application/xml]. *)
Theorem webhook_agrees_with_lambda_handler (rt : Runtime) (cfg : Config)
    (event : Event) (request : FlaskRequest) (w : World) :
  request_signature event = default EmptyString (req_signature request) ->
  request_url event = req_url request ->
  request_params rt event = map (fun kv => (fst kv, [snd kv])) (req_form request) ->
  match lambda_handler rt cfg event w, webhook rt cfg request w with
  | Ok (response, w1), Ok (flask_response, w2) =>
      w1 = w2
      /\ statusCode response = fl_status flask_response
      /\ (statusCode response <> 400 ->
            resp_body response = fl_body flask_response)
      /\ (statusCode response = 200 ->
            fl_mimetype flask_response = "application/xml")
  | Raise e1, Raise e2 => e1 = e2
  | _, _ => False
  end.
Proof.
  intros Hsig Hurl Hparams. unfold lambda_handler, webhook.
  rewrite Hsig, Hurl, Hparams.
  destruct (verify_twilio_signature _ _ _ _ _) as [[|] | e];
    cbn [mbind result_bind negb]; [| | reflexivity].
  2: { repeat split; intros; reflexivity || discriminate. }
  destruct (first_item (items_get "From" _ _)) as [user_id | e];
    cbn [mbind result_bind]; [| reflexivity].
  destruct (first_item (items_get "Body" _ _)) as [body_value | e];
    cbn [mbind result_bind]; [| reflexivity].
  destruct (negb (truthy user_id) || negb (truthy (strip body_value))).
  { repeat split; intros; reflexivity || discriminate || (exfalso; auto). }
  destruct (classify_message _ _ _ _ _ _) as [[triage_result w1] | e];
    cbn [mbind result_bind]; [| reflexivity].
  destruct triage_result; cbn [mbind result_bind]; try reflexivity.
  destruct (returned (build_response_and_state _ _ _ _ _ _ _))
    as [[[reply conversation] w2] | e];
    cbn [mbind result_bind]; [| reflexivity].
  match goal with
  | |- context [mbind _ ?m] =>
      destruct m as [[conversation3 w3] | e]; cbn [mbind result_bind];
        [| reflexivity]
  end.
  match goal with
  | |- context [mbind _ ?m] =>
      destruct m as [w4 | e]; cbn [mbind result_bind]; [| reflexivity]
  end.
  repeat split; intros; reflexivity.
Qed.

Lemma webhook_agrees_with_lambda_handler_witness :
  request_params (offline_runtime chest_pain_body chest_pain_params)
    (webhook_event chest_pain_body chest_pain_signature)
  = map (fun kv => (fst kv, [snd kv])) [("From", "+123"); ("Body", "Sudden chest pain")]
  /\ match
       lambda_handler (offline_runtime chest_pain_body chest_pain_params)
         test_config (webhook_event chest_pain_body chest_pain_signature)
         empty_world,
       webhook (offline_runtime chest_pain_body chest_pain_params) test_config
         {| req_url := webhook_url;
            req_form := [("From", "+123"); ("Body", "Sudden chest pain")];
            req_signature := Some chest_pain_signature |}
         empty_world
     with
     | Ok (response, w1), Ok (flask_response, w2) =>
         w1 = w2
         /\ statusCode response = fl_status flask_response
         /\ (statusCode response <> 400 ->
               resp_body response = fl_body flask_response)
         /\ (statusCode response = 200 ->
               fl_mimetype flask_response = "application/xml")
     | Raise e1, Raise e2 => e1 = e2
     | _, _ => False
     end.
Proof.
  split; [reflexivity |].
  exact (webhook_agrees_with_lambda_handler
           (offline_runtime chest_pain_body chest_pain_params) test_config
           (webhook_event chest_pain_body chest_pain_signature)
           {| req_url := webhook_url;
              req_form := [("From", "+123"); ("Body", "Sudden chest pain")];
              req_signature := Some chest_pain_signature |}
           empty_world eq_refl eq_refl eq_refl).
Defined.

(** ** The response renderer, continued *)

Lemma append_length (s t : string) :
  String.length (s +:+ t) = (String.length s + String.length t)%nat.
Proof.
  induction s as [|c s IH]; [reflexivity |].
  rewrite append_cons. cbn [String.length]. rewrite IH. reflexivity.
Qed.

Lemma append_inj_r (s t u : string) : s +:+ u = t +:+ u -> s = t.
Proof.
  revert t. induction s as [|c s IH]; intros t H.
  - destruct t as [|c' t]; [reflexivity |].
    apply (f_equal String.length) in H. rewrite !append_length in H.
    cbn [String.length] in H. lia.
  - destruct t as [|c' t].
    + apply (f_equal String.length) in H. rewrite !append_length in H.
      cbn [String.length] in H. lia.
    + rewrite !append_cons in H. injection H as -> H. f_equal. apply IH. exact H.
Qed.

(** X25. The reply can be read back from the document: two replies with
    the same TwiML are the same reply, and the document is 85 bytes longer
    than the reply. *)
Theorem generate_twiml_response_inj (reply reply' : string) :
  (generate_twiml_response reply = generate_twiml_response reply' ->
     reply = reply')
  /\ String.length (generate_twiml_response reply)
     = (String.length reply + 85)%nat.
Proof.
  split.
  - unfold generate_twiml_response. intros H.
    repeat match type of H with
           | ?p +:+ _ = ?p +:+ _ => apply (inj (String.append p)) in H
           end.
    eapply append_inj_r. exact H.
  - assert (H : generate_twiml_response reply =
                ("<?xml version=" +:+ dquote +:+ "1.0" +:+ dquote +:+ " encoding="
                 +:+ dquote +:+ "UTF-8" +:+ dquote +:+ "?>" +:+ nl
                 +:+ "<Response>" +:+ nl +:+ "    <Message>")
                +:+ reply +:+ ("</Message>" +:+ nl +:+ "</Response>"))
      by reflexivity.
    rewrite H, (append_length _ (reply +:+ _)), (append_length reply).
    assert (HP : String.length
              ("<?xml version=" +:+ dquote +:+ "1.0" +:+ dquote
               +:+ " encoding=" +:+ dquote +:+ "UTF-8" +:+ dquote
               +:+ "?>" +:+ nl +:+ "<Response>" +:+ nl
               +:+ "    <Message>") = 63%nat) by reflexivity.
    assert (HS : String.length ("</Message>" +:+ nl +:+ "</Response>") = 22%nat)
      by reflexivity.
    rewrite HP, HS. lia.
Qed.

(** ** The table stays well-formed *)

Lemma classify_message_ddb (rt : Runtime) (w w' : World) (message : string)
    (history v : pyval) (provider : string) (openai_api_key : option string) :
  classify_message rt w message history provider openai_api_key = Ok (v, w') ->
  ddb_up w' = ddb_up w /\ ddb_items w' = ddb_items w.
Proof.
  unfold classify_message. intros H.
  destruct (if String.eqb _ "openai" then openai rt else None) as [create |].
  - destruct (negb (truthy_opt _)); injection H as _ <-; split; reflexivity.
  - injection H as _ <-. split; reflexivity.
Qed.

Lemma load_conversation_ok (rt : Runtime) (w : World) (user_id : string) :
  table_ok w ->
  exists history : list pyval,
    get_history (load_conversation rt w user_id) = Ok history
    /\ Forall (fun v => entry_ok v = true) history.
Proof.
  intros Hinv. unfold load_conversation, get_item.
  destruct (ddb_up w); cbn [try_except];
    [| exists []; split; [reflexivity | constructor]].
  destruct (ddb_items w !! user_id) as [item |] eqn:Hitem;
    [| exists []; split; [reflexivity | constructor]].
  destruct (bool_decide (item = ∅));
    [exists []; split; [reflexivity | constructor] |].
  exact (proj2 (Hinv user_id item Hitem)).
Qed.

(** X26. The handler keeps the table well-formed.  If every stored item
    sits under its own user id and has a history the transcript can render,
    the same holds after every invocation that returns, whichever way the
    request was classified; an invocation that answers 403 or 400 leaves the
    table as it was. *)
Theorem lambda_handler_keeps_table_ok (rt : Runtime) (cfg : Config)
    (event : Event) (w w' : World) (response : Response) :
  lambda_handler rt cfg event w = Ok (response, w') ->
  table_ok w ->
  table_ok w' /\ (statusCode response <> 200 -> ddb_items w' = ddb_items w).
Proof.
  intros H Hinv. unfold lambda_handler in H.
  destruct (verify_twilio_signature _ _ _ _ _) as [[|] | e]; [| | discriminate];
    cbn [mbind result_bind negb] in H.
  2: { injection H as <- <-. split; [exact Hinv | reflexivity]. }
  destruct (first_item (items_get "From" _ _)) as [user_id | e]; [| discriminate].
  cbn [mbind result_bind] in H.
  destruct (first_item (items_get "Body" _ _)) as [body_value | e]; [| discriminate].
  cbn [mbind result_bind] in H.
  destruct (negb (truthy user_id) || negb (truthy (strip body_value))).
  { injection H as <- <-. split; [exact Hinv | reflexivity]. }
  set (table := if truthy_opt (table_name cfg) then table_name cfg else None) in H.
  set (conv0 := match table with
                | Some _ => load_conversation rt w user_id
                | None => ∅
                end) in H.
  assert (Hconv0 : exists h0 : list pyval,
            get_history conv0 = Ok h0 /\ Forall (fun v => entry_ok v = true) h0).
  { subst conv0. destruct table; [apply load_conversation_ok; exact Hinv |].
    exists []. split; [reflexivity | constructor]. }
  clearbody conv0.
  destruct (classify_message _ _ _ _ _ _) as [[triage_result w1] | e] eqn:Hc;
    [| discriminate].
  cbn [mbind result_bind] in H.
  apply classify_message_ddb in Hc. destruct Hc as [_ Hitems1].
  destruct triage_result as [| | | | | | d]; try discriminate.
  cbn [mbind result_bind] in H.
  destruct (returned (build_response_and_state _ _ _ _ _ _ _))
    as [[[reply conversation] w2] | e] eqn:Hbuild; [| discriminate].
  cbn [mbind result_bind] in H.
  apply build_response_and_state_inv in Hbuild.
  destruct Hbuild as (urgency & history & _ & Hhist & _ & Hconv & Hw2).
  assert (Hitems2 : ddb_items w2 = ddb_items w).
  { destruct Hw2 as [[_ ->] | (_ & topic & _ & _ & ->)]; exact Hitems1. }
  destruct Hconv0 as (h0 & Hh0 & Hok).
  rewrite Hh0 in Hhist. injection Hhist as <-.
  assert (Hitems3 : forall conversation3 w3,
    match table with
    | Some _ => store_conversation rt w2 conversation
    | None => Ok (conversation, w2)
    end = Ok (conversation3, w3) -> table_ok w3).
  { intros conversation3 w3 Hs. destruct table as [tn |].
    - apply store_conversation_inv in Hs.
      destruct Hs as (key & _ & Hkey & -> & ->).
      intros user_id' item. cbn [set_ddb_items ddb_items].
      rewrite Hitems2.
      destruct (decide (key = user_id')) as [<- | Hne].
      + rewrite lookup_insert_eq. intros Hitem. injection Hitem as <-.
        split; [rewrite lookup_insert_ne by discriminate; exact Hkey |].
        exists (h0 ++ [history_entry rt (strip body_value)]). split.
        * unfold get_history. rewrite lookup_insert_ne by discriminate.
          rewrite Hconv. rewrite !lookup_insert_ne by discriminate.
          rewrite lookup_insert_eq. reflexivity.
        * apply Forall_app. split; [exact Hok |].
          constructor; [reflexivity | constructor].
      + rewrite lookup_insert_ne by exact Hne. apply Hinv.
    - injection Hs as _ <-. intros user_id' item. rewrite Hitems2. apply Hinv. }
  match type of H with
  | context [mbind _ ?m] =>
      destruct m as [[conversation3 w3] | e] eqn:Hstore; [| discriminate]
  end.
  cbn [mbind result_bind] in H.
  specialize (Hitems3 conversation3 w3 eq_refl).
  match type of H with
  | context [mbind _ ?m] => destruct m as [w4 | e] eqn:Hup; [| discriminate]
  end.
  cbn [mbind result_bind] in H. injection H as <- <-.
  split; [| intros Hst; exfalso; apply Hst; reflexivity].
  assert (Hw4 : ddb_items w4 = ddb_items w3).
  { destruct (truthy_opt (bucket_name cfg)); [| injection Hup as <-; reflexivity].
    destruct (py_iter _) as [h |]; [| discriminate].
    cbn [mbind result_bind] in Hup.
    destruct (transcript_lines rt h) as [lines |]; [| discriminate].
    cbn [mbind result_bind] in Hup. unfold upload_transcript in Hup.
    destruct (s3_put_ok rt _ _ _); [| discriminate].
    injection Hup as <-. reflexivity. }
  intros user_id' item. rewrite Hw4. apply Hitems3.
Qed.

Lemma table_ok_empty : table_ok empty_world.
Proof. intros user_id item H. discriminate H. Qed.

Lemma lambda_handler_keeps_table_ok_witness :
  table_ok empty_world
  /\ exists (response : Response) (w' : World),
       lambda_handler (offline_runtime chest_pain_body chest_pain_params)
         test_config (webhook_event chest_pain_body chest_pain_signature)
         empty_world
       = Ok (response, w')
       /\ statusCode response = 200
       /\ table_ok w'.
Proof.
  split; [exact table_ok_empty |].
  assert (Hv : verify_twilio_signature
                 (offline_runtime chest_pain_body chest_pain_params)
                 (request_signature (webhook_event chest_pain_body chest_pain_signature))
                 (request_url (webhook_event chest_pain_body chest_pain_signature))
                 (request_params (offline_runtime chest_pain_body chest_pain_params)
                    (webhook_event chest_pain_body chest_pain_signature))
                 (default EmptyString (twilio_auth_token test_config))
               = Ok true) by (vm_compute; reflexivity).
  assert (Hfb : resolve_provider (offline_runtime chest_pain_body chest_pain_params)
                  (llm_provider test_config) <> "openai"
                \/ openai (offline_runtime chest_pain_body chest_pain_params) = None)
    by (right; reflexivity).
  pose proof (lambda_handler_fallback_run
                (offline_runtime chest_pain_body chest_pain_params) test_config
                (webhook_event chest_pain_body chest_pain_signature) empty_world
                "+123" "Sudden chest pain" "test-table" "test-bucket"
                "arn:aws:sns:us-east-1:123456789012:test-topic" [] []
                Hv eq_refl eq_refl ltac:(discriminate) ltac:(discriminate)
                eq_refl ltac:(discriminate) eq_refl ltac:(discriminate)
                Hfb eq_refl eq_refl eq_refl eq_refl
                (fun _ => conj eq_refl eq_refl) eq_refl) as Hrun.
  eexists _, _. split; [exact Hrun |]. split; [reflexivity |].
  exact (proj1 (lambda_handler_keeps_table_ok _ _ _ _ _ _ Hrun table_ok_empty)).
Defined.

Lemma transcript_lines_total (rt : Runtime) (history : list pyval) :
  Forall (fun v => entry_ok v = true) history ->
  exists lines : list string,
    transcript_lines rt history = Ok lines /\ length lines = length history.
Proof.
  induction 1 as [|v rest Hv _ (lines & IH & Hlen)];
    [exists []; split; reflexivity |].
  apply entry_ok_getitem in Hv. destruct Hv as (ts & m & Hts & Hm).
  rewrite transcript_lines_cons, Hts, Hm, IH.
  eexists. split; [reflexivity |]. cbn [length]. rewrite Hlen. reflexivity.
Qed.

Lemma load_conversation_user_id (rt : Runtime) (w : World) (user_id : string) :
  table_ok w ->
  load_conversation rt w user_id !! "user_id" = Some (PStr user_id).
Proof.
  intros Hinv. unfold load_conversation, get_item.
  destruct (ddb_up w); cbn [try_except]; [| reflexivity].
  destruct (ddb_items w !! user_id) as [item |] eqn:Hitem; [| reflexivity].
  destruct (bool_decide (item = ∅)); [reflexivity |].
  exact (proj1 (Hinv user_id item Hitem)).
Qed.

(** X27. On a well-formed table, with table and bucket configured, the
    store up, the fallback classifying, S3 accepting the upload and, when
    the urgency is HIGH, a topic configured and SNS accepting the
    notification, every authenticated request with a [From] and a [Body]
    that is not empty once stripped is answered 200 with the reply of the
    fallback urgency of the stripped body; afterwards the user's item holds
    that urgency as its triage level and one more history entry than the
    loaded conversation, the bucket holds a transcript under the key of the
    user id and the second of the upload, in place of what was there, and
    every other object of every bucket is as it was. *)
Theorem lambda_handler_serves (rt : Runtime) (cfg : Config) (event : Event)
    (w : World) (user_id body_value table bucket topic : string) :
  verify_twilio_signature rt (request_signature event) (request_url event)
    (request_params rt event) (default EmptyString (twilio_auth_token cfg))
    = Ok true ->
  first_item (items_get "From" (request_params rt event) [EmptyString])
    = Ok user_id ->
  first_item (items_get "Body" (request_params rt event) [EmptyString])
    = Ok body_value ->
  user_id <> EmptyString ->
  strip body_value <> EmptyString ->
  table_name cfg = Some table -> table <> EmptyString ->
  bucket_name cfg = Some bucket -> bucket <> EmptyString ->
  resolve_provider rt (llm_provider cfg) <> "openai" \/ openai rt = None ->
  ddb_up w = true ->
  table_ok w ->
  (fallback_urgency (strip body_value) = "HIGH" ->
     topic_arn cfg = Some topic
     /\ sns_publish_ok rt topic (alert_subject user_id)
          (alert_message rt (fallback_classifier (strip body_value)) user_id)
        = true) ->
  (forall transcript : string,
     s3_put_ok rt bucket
       (user_id +:+ "/transcript_" +:+ utcnow_stamp rt +:+ ".txt") transcript
     = true) ->
  exists (w' : World) (item : pydict) (history : list pyval)
         (transcript : string),
    lambda_handler rt cfg event w =
      Ok ({| statusCode := 200;
             resp_headers := [("Content-Type", "application/xml")];
             resp_body :=
               generate_twiml_response
                 (reply_for (fallback_urgency (strip body_value))) |}, w')
    /\ get_history (load_conversation rt w user_id) = Ok history
    /\ ddb_items w' !! user_id = Some item
    /\ item !! "triage_level" = Some (PStr (fallback_urgency (strip body_value)))
    /\ get_history item = Ok (history ++ [history_entry rt (strip body_value)])
    /\ s3_objects w'
         !! (bucket, user_id +:+ "/transcript_" +:+ utcnow_stamp rt +:+ ".txt")
       = Some transcript
    /\ (forall key : string * string,
          key <> (bucket, user_id +:+ "/transcript_" +:+ utcnow_stamp rt +:+ ".txt") ->
          s3_objects w' !! key = s3_objects w !! key)
    /\ llm_requests w' = llm_requests w.
Proof.
  intros Hv Hfrom Hbody Hu Hb Htable Htn Hbucket Hbn Hfb Hup Hinv Hpub Hput.
  destruct (load_conversation_ok rt w user_id Hinv) as (history & Hhist & Hok).
  destruct (transcript_lines_total rt history Hok) as (lines & Hlines & _).
  rewrite (lambda_handler_fallback_run rt cfg event w user_id body_value table
             bucket topic history lines Hv Hfrom Hbody Hu Hb Htable Htn Hbucket Hbn
             Hfb Hup (load_conversation_user_id rt w user_id Hinv) Hhist Hlines
             Hpub (Hput _)).
  eexists _, _, history, _. split; [reflexivity |]. split; [exact Hhist |].
  cbn [ddb_items s3_objects llm_requests].
  split; [apply lookup_insert_eq |].
  split; [rewrite !lookup_insert_ne by discriminate; apply lookup_insert_eq |].
  split; [| split; [apply lookup_insert_eq | split; [| reflexivity]]].
  - unfold get_history. rewrite !lookup_insert_ne by discriminate.
    rewrite lookup_insert_eq. reflexivity.
  - intros key Hkey. apply lookup_insert_ne. congruence.
Qed.

Lemma lambda_handler_serves_witness :
  table_ok empty_world
  /\ exists (w' : World) (item : pydict),
       lambda_handler (offline_runtime chest_pain_body chest_pain_params)
         test_config (webhook_event chest_pain_body chest_pain_signature)
         empty_world
       = Ok ({| statusCode := 200;
                resp_headers := [("Content-Type", "application/xml")];
                resp_body := generate_twiml_response reply_high |}, w')
       /\ ddb_items w' !! "+123" = Some item
       /\ item !! "triage_level" = Some (PStr "HIGH").
Proof.
  split; [exact table_ok_empty |].
  destruct (lambda_handler_serves
              (offline_runtime chest_pain_body chest_pain_params) test_config
              (webhook_event chest_pain_body chest_pain_signature) empty_world
              "+123" "Sudden chest pain" "test-table" "test-bucket"
              "arn:aws:sns:us-east-1:123456789012:test-topic")
    as (w' & item & history & transcript & Hrun & _ & Hitem & Hlevel & _).
  - vm_compute. reflexivity.
  - reflexivity.
  - reflexivity.
  - discriminate.
  - discriminate.
  - reflexivity.
  - discriminate.
  - reflexivity.
  - discriminate.
  - left. discriminate.
  - reflexivity.
  - exact table_ok_empty.
  - intros _. split; reflexivity.
  - intros transcript. reflexivity.
  - exists w', item. split; [exact Hrun |]. split; [exact Hitem | exact Hlevel].
Defined.
